(** * carpool-crm: a shallow embedding of the enrichment pipeline

    The development follows the four Python sources:
    - [EnrichCompanies]   enrich_companies.py  (phone formatting, report markers,
                                               registry lookups and their cache)
    - [GoogleSheets]      google_sheets.py     (merge-safe sheet sync)
    - [FilterCompanies]   filter_companies.py  (geocoder cache, geographic filter)
    - [GenerateReport]    generate_report.py   (scores, escaping, report markers)

    Python values are modelled as the code handles them: a [str] is a
    [string] whose characters are read as the code points U+0000..U+00FF,
    a DataFrame cell is a [pyval] (a string, NaN or None), a [dict] that is
    iterated is an insertion-ordered association list, a pandas row and a
    cache that is only looked up and assigned are [gmap]s. *)

From Stdlib Require Import ZArith Ascii String List Bool Lia.
From Stdlib Require QArith.
From stdpp Require Import base option list strings gmap sorting pretty.

Set Warnings "-register-all".


(** * Python built-ins used by the sources *)

Module Py.

(** [str.isspace] on one character, for code points below 256; this is
    also the class [\s] of [re] on a [str] pattern. *)
Definition is_space (c : ascii) : bool :=
  let n := nat_of_ascii c in
  ((9 <=? n) && (n <=? 13)) || ((28 <=? n) && (n <=? 32))
  || (n =? 133) || (n =? 160).

(** [str.isdigit] on one character, for code points below 256: the ASCII
    digits and the superscripts U+00B2, U+00B3, U+00B9. *)
Definition is_digit (c : ascii) : bool :=
  let n := nat_of_ascii c in
  ((48 <=? n) && (n <=? 57)) || (n =? 178) || (n =? 179) || (n =? 185).

Definition is_ascii_digit (c : ascii) : bool :=
  let n := nat_of_ascii c in (48 <=? n) && (n <=? 57).

Fixpoint str_all (p : ascii -> bool) (s : string) : bool :=
  match s with
  | EmptyString => true
  | String c s' => p c && str_all p s'
  end.

(** [s.isdigit()]: false on the empty string. *)
Definition isdigit (s : string) : bool :=
  match s with
  | EmptyString => false
  | _ => str_all is_digit s
  end.

(** [re.sub(r'\s+', '', s)]: every whitespace character is removed. *)
Fixpoint remove_whitespace (s : string) : string :=
  match s with
  | EmptyString => EmptyString
  | String c s' =>
      if is_space c then remove_whitespace s' else String c (remove_whitespace s')
  end.

(** [s.startswith(p)]. *)
Definition startswith (p s : string) : bool := String.prefix p s.

(** [kw in s] for two strings: [kw] occurs somewhere in [s]. *)
Fixpoint str_contains (kw s : string) : bool :=
  String.prefix kw s
  || match s with
     | EmptyString => false
     | String _ s' => str_contains kw s'
     end.

(** [s.split(sep)[0]] for a one-character [sep]: the text before the
    first [sep], all of [s] when there is none. *)
Fixpoint before_first (sep : ascii) (s : string) : string :=
  match s with
  | EmptyString => EmptyString
  | String c s' =>
      if Ascii.eqb c sep then EmptyString else String c (before_first sep s')
  end.

(** [s.replace(old, new)] for a one-character [old]. *)
Fixpoint str_replace_char (old : ascii) (new : string) (s : string) : string :=
  match s with
  | EmptyString => EmptyString
  | String c s' =>
      if Ascii.eqb c old then new +:+ str_replace_char old new s'
      else String c (str_replace_char old new s')
  end.

(** A cell of a pandas row read with [dtype=str], or a value taken from a
    JSON object with [.get]: a string, NaN (a missing cell) or None. *)
Inductive pyval : Type :=
  | PStr (s : string)
  | PNaN
  | PNone.

#[global] Instance pyval_eq_dec : EqDecision pyval.
Proof. solve_decision. Defined.

(** [str(v)], also what an f-string substitutes. *)
Definition py_str (v : pyval) : string :=
  match v with
  | PStr s => s
  | PNaN => "nan"
  | PNone => "None"
  end.

(** [pd.isna(v)]. *)
Definition isna (v : pyval) : bool :=
  match v with
  | PStr _ => false
  | PNaN | PNone => true
  end.

(** Truth value of [v]: the empty string and None are false; NaN is a
    non-zero float and therefore true. *)
Definition truthy (v : pyval) : bool :=
  match v with
  | PStr s => negb (String.eqb s "")
  | PNaN => true
  | PNone => false
  end.


(** The Unicode-aware string methods and the MD5 digest are library code;
    the model takes them as an interface. [ascii_lib], further down,
    implements it on the ASCII letters for the worked examples. *)
Class PyLib : Type := {
  str_lower : string -> string;
  str_upper : string -> string;
  str_title : string -> string;
  str_strip : string -> string;
  md5_hexdigest : string -> string;
}.

(** ** Dictionaries

    A Python [dict] keeps its keys in insertion order, and assigning to a
    key that is already present keeps the key's position. *)
Section Dict.
Context {V : Type}.

Definition dict : Type := list (string * V).

(** [d[k] = v] *)
Fixpoint dict_set (k : string) (v : V) (d : dict) : dict :=
  match d with
  | [] => [(k, v)]
  | (k', v') :: d' =>
      if String.eqb k k' then (k, v) :: d' else (k', v') :: dict_set k v d'
  end.

Fixpoint dict_get (k : string) (d : dict) : option V :=
  match d with
  | [] => None
  | (k', v') :: d' => if String.eqb k k' then Some v' else dict_get k d'
  end.

(** [d.get(k, dflt)] *)
Definition dict_get_default (k : string) (dflt : V) (d : dict) : V :=
  default dflt (dict_get k d).

(** [k in d] *)
Definition dict_mem (k : string) (d : dict) : bool :=
  match dict_get k d with Some _ => true | None => false end.

(** [dict(zip(ks, vs))]: on a repeated key the last value wins. *)
Definition dict_zip (ks : list string) (vs : list V) : dict :=
  fold_left (fun d kv => dict_set (fst kv) (snd kv) d) (zip ks vs) [].

(** The last value a list of bindings gives to [k]. *)
Fixpoint assoc_last (k : string) (l : list (string * V)) : option V :=
  match l with
  | [] => None
  | (k', v') :: l' =>
      match assoc_last k l' with
      | Some v => Some v
      | None => if String.eqb k k' then Some v' else None
      end
  end.

End Dict.
Arguments dict : clear implicits.

(** ** Lists *)

(** [l.index(x)] for an [x] that occurs in [l]. *)
Fixpoint py_index (x : string) (l : list string) : nat :=
  match l with
  | [] => 0
  | y :: l' => if String.eqb x y then 0 else S (py_index x l')
  end.

(** [x in l] for a list or set of strings. *)
Definition str_in (x : string) (l : list string) : bool :=
  existsb (String.eqb x) l.

(** [l.sort(key=...)] is a stable sort; keys are strings, compared by
    code point. Insertion from the right keeps equal keys in their
    original order. *)
Section Sort.
Context {A : Type} (key : A -> string).

Fixpoint insert_by (x : A) (l : list A) : list A :=
  match l with
  | [] => [x]
  | y :: l' =>
      if String.leb (key x) (key y) then x :: l else y :: insert_by x l'
  end.

Definition stable_sort_by (l : list A) : list A := foldr insert_by [] l.

End Sort.

(** ** Exceptions

    A computation that may raise returns an [outcome]. *)
Inductive exn : Type :=
  | AttributeError
  | TypeError
  | KeyError
  | IndexError
  | ValueError
  | RequestException
  | JSONDecodeError.

#[global] Instance exn_eq_dec : EqDecision exn.
Proof. solve_decision. Defined.

Inductive outcome (A : Type) : Type :=
  | Ok (a : A)
  | Raise (e : exn).
Arguments Ok {A} a.
Arguments Raise {A} e.

#[global] Instance outcome_ret : MRet outcome := fun A a => Ok a.

#[global] Instance outcome_bind : MBind outcome := fun A B f m =>
  match m with
  | Ok a => f a
  | Raise e => Raise e
  end.

(** ** Numbers

    Python floats and ints are kept abstract: [num] is the type of the
    numbers that are not NaN, with the comparison and arithmetic the
    sources use. A float that may be NaN is a [pyfloat]. *)
Inductive pyfloat (num : Type) : Type :=
  | FNaN
  | FNum (x : num).
Arguments FNaN {num}.
Arguments FNum {num} x.

Class PyNum (num : Type) : Type := {
  num_le : num -> num -> bool;             (* x <= y *)
  num_add : num -> num -> num;
  num_sub : num -> num -> num;
  num_nonzero : num -> bool;               (* truth value *)
  num_of_Z : Z -> num;                     (* an int *)
  num_of_decimal : Z -> nat -> num;        (* the literal m / 10^places *)
  num_int : num -> option Z;               (* int(x); None when it raises *)
  pd_to_numeric : string -> pyfloat num;   (* pd.to_numeric, errors=coerce *)
  py_float : string -> option (pyfloat num); (* float(s); None: ValueError *)
}.

Section Floats.
Context {num : Type} {numbers : PyNum num}.

(** Comparisons with NaN are false. *)
Definition float_le (a b : pyfloat num) : bool :=
  match a, b with
  | FNum x, FNum y => num_le x y
  | _, _ => false
  end.

Definition float_ge (a b : pyfloat num) : bool := float_le b a.

Definition float_add (a b : pyfloat num) : pyfloat num :=
  match a, b with
  | FNum x, FNum y => FNum (num_add x y)
  | _, _ => FNaN
  end.

Definition float_sub (a b : pyfloat num) : pyfloat num :=
  match a, b with
  | FNum x, FNum y => FNum (num_sub x y)
  | _, _ => FNaN
  end.

(** [pd.notna] on a float. *)
Definition float_notna (a : pyfloat num) : bool :=
  match a with FNum _ => true | FNaN => false end.

(** [pd.to_numeric(v, errors="coerce")] on one cell. *)
Definition to_numeric (v : pyval) : pyfloat num :=
  match v with
  | PStr s => pd_to_numeric s
  | PNaN | PNone => FNaN
  end.

(** [float(v)] *)
Definition to_float (v : pyval) : outcome (pyfloat num) :=
  match v with
  | PStr s =>
      match py_float s with
      | Some f => Ok f
      | None => Raise ValueError
      end
  | PNaN => Ok FNaN
  | PNone => Raise TypeError
  end.

(** [int(x)] on a float. *)
Definition to_int (a : pyfloat num) : outcome Z :=
  match a with
  | FNum x =>
      match num_int x with
      | Some z => Ok z
      | None => Raise ValueError
      end
  | FNaN => Raise ValueError
  end.

End Floats.

(** ** JSON values, as [json.load] and [response.json()] return them *)
Inductive json (num : Type) : Type :=
  | JNull
  | JBool (b : bool)
  | JNum (x : num)
  | JStr (s : string)
  | JList (l : list (json num))
  | JDict (d : list (string * json num)).
Arguments JNull {num}.
Arguments JBool {num} b.
Arguments JNum {num} x.
Arguments JStr {num} s.
Arguments JList {num} l.
Arguments JDict {num} d.

Section Json.
Context {num : Type} {numbers : PyNum num}.

Definition json_truthy (v : json num) : bool :=
  match v with
  | JNull => false
  | JBool b => b
  | JNum x => num_nonzero x
  | JStr s => negb (String.eqb s "")
  | JList l => match l with [] => false | _ => true end
  | JDict d => match d with [] => false | _ => true end
  end.

(** [v is not None] *)
Definition json_not_none (v : json num) : bool :=
  match v with JNull => false | _ => true end.

(** [v.get(key)]: only a dict has the method. *)
Definition json_get (v : json num) (key : string) : outcome (json num) :=
  match v with
  | JDict d => Ok (dict_get_default key JNull d)
  | _ => Raise AttributeError
  end.

(** [len(v)] *)
Definition json_len (v : json num) : outcome nat :=
  match v with
  | JStr s => Ok (String.length s)
  | JList l => Ok (length l)
  | JDict d => Ok (length d)
  | _ => Raise TypeError
  end.

(** [v[0]]: the keys of a JSON object are strings, so a dict has no key 0. *)
Definition json_first (v : json num) : outcome (json num) :=
  match v with
  | JList (x :: _) => Ok x
  | JList [] => Raise IndexError
  | JStr (String c _) => Ok (JStr (String c EmptyString))
  | JStr EmptyString => Raise IndexError
  | JDict _ => Raise KeyError
  | _ => Raise TypeError
  end.

(** [v[key]] for a string key. *)
Definition json_item (v : json num) (key : string) : outcome (json num) :=
  match v with
  | JDict d =>
      match dict_get key d with
      | Some x => Ok x
      | None => Raise KeyError
      end
  | _ => Raise TypeError
  end.

End Json.

(** [str(v)] of a JSON value that is not a string (a number, a bool, a
    list or a dict) is the interpreter's text for it; the model takes it
    as an interface. *)
Class PyRepr (num : Type) : Type := {
  json_repr : json num -> string;
}.

(** [str(v)] of a JSON value. *)
Definition json_str {num : Type} {repr : PyRepr num} (v : json num) : string :=
  match v with
  | JStr s => s
  | _ => json_repr v
  end.

(** [try: <statements> except Exception: pass] on statements that update
    a state: the state is the one reached when a statement raises. *)
Fixpoint run_try {S : Type} (body : list (S -> outcome S)) (s : S) : S :=
  match body with
  | [] => s
  | statement :: rest =>
      match statement s with
      | Ok s' => run_try rest s'
      | Raise _ => s
      end
  end.

End Py.

Export Py.

(** * enrich_companies.py *)

Module EnrichCompanies.

(** [format_phone(phone)] *)
Definition format_phone (phone : option string) : option string :=
  match phone with
  | None => None
  | Some EmptyString => None
  | Some p =>
      let phone := remove_whitespace p in
      if startswith "47" phone && (String.length phone =? 10) then
        Some ("+" +:+ phone)
      else if (String.length phone =? 8) && isdigit phone then
        Some ("+47" +:+ phone)
      else Some phone
  end.

Section Report.
Context {num : Type} {numbers : PyNum num} {lib : PyLib}.

(** [clean_value(val)] *)
Definition clean_value (val : pyval) : string :=
  if isna val
     || bool_decide (val = PNone)
     || String.eqb (str_lower (py_str val)) "nan"
  then ""
  else str_strip (py_str val).

(** An entry of [map_markers]. *)
Record marker : Type := {
  lat : pyfloat num;
  lon : pyfloat num;
  name : string;
  employees : string;
  address : string;
}.

(** [row.get(col)] on a row of the DataFrame. *)
Definition row_get (col : string) (row : gmap string pyval) : pyval :=
  default PNone (row !! col).

(** The dict literal of the marker; [float] may raise. *)
Definition make_marker (row : gmap string pyval) : outcome marker :=
  la ← to_float (row_get "latitude" row);
  lo ← to_float (row_get "longitude" row);
  Ok {| lat := la;
        lon := lo;
        name := clean_value (row_get "navn" row);
        employees := clean_value (row_get "antallAnsatte" row);
        address := clean_value (row_get "adresse" row) |}.

(** The marker part of one turn of the loop in [generate_html_report]:
    [ValueError] and [TypeError], the only exceptions [float] raises,
    are swallowed by the [except] clause. *)
Definition marker_step (map_markers : list marker) (row : gmap string pyval)
  : list marker :=
  let lat := row_get "latitude" row in
  let lon := row_get "longitude" row in
  if truthy lat && truthy lon then
    match make_marker row with
    | Ok m => map_markers ++ [m]
    | Raise _ => map_markers
    end
  else map_markers.



End Report.

(** ** Company details from the registry API *)

(** What [requests.get(url, timeout=10)] comes to: an exception, or a
    response with its status code and what [response.json()] returns
    ([None] when that call raises). *)
Inductive reply (num : Type) : Type :=
  | GetRaises
  | Response (status_code : Z) (body : option (json num)).
Arguments GetRaises {num}.
Arguments Response {num} status_code body.

(** The registry API: its reply to a URL, given the URLs fetched before. *)
Class Brreg (num : Type) : Type := {
  requests_get : list string -> string -> reply num;
}.

Definition BRREG_API : string :=
  "https://data.brreg.no/enhetsregisteret/api/enheter".
Definition BRREG_UNDERENHETER_API : string :=
  "https://data.brreg.no/enhetsregisteret/api/underenheter".

(** [normalize_url(url)] *)
Definition normalize_url {lib : PyLib} (url : option string) : option string :=
  match url with
  | None => None
  | Some EmptyString => None
  | Some u =>
      let url := str_strip u in
      if startswith "http://" url || startswith "https://" url
      then Some url
      else Some ("https://" +:+ url)
  end.

Section Registry.
Context {num : Type} {numbers : PyNum num} {lib : PyLib}
  {brreg : Brreg num} {repr : PyRepr num}.

(** The state a run works on: the cache dict and the URLs fetched. *)
Record world : Type := {
  cache : gmap string (json num);
  requests_sent : list string;
}.

(** The statements under [if response.status_code == 200] of the first
    lookup, from [data = response.json()] on. *)
Definition read_hovedenhet (data : json num)
  : list (dict (json num) -> outcome (dict (json num))) :=
  map
    (fun key result => v ← json_get data key; Ok (dict_set key v result))
    ["hjemmeside"; "epostadresse"; "telefon"; "mobil"].

(** The same for the second lookup: the website is overwritten, the
    other fields are kept when they are true. *)
Definition read_underenhet (data : json num)
  : list (dict (json num) -> outcome (dict (json num))) :=
  (fun result =>
     v ← json_get data "hjemmeside"; Ok (dict_set "hjemmeside" v result))
  :: map
       (fun key result =>
          old ← json_item (JDict result) key;
          v ← (if json_truthy old then Ok old else json_get data key);
          Ok (dict_set key v result))
       ["epostadresse"; "telefon"; "mobil"].

(** One [try] block of [get_brreg_info] after [requests.get] has
    answered. *)
Definition try_lookup (answer : reply num)
    (read : json num -> list (dict (json num) -> outcome (dict (json num))))
    (result : dict (json num)) : dict (json num) :=
  match answer with
  | GetRaises => result
  | Response status_code body =>
      if (status_code =? 200)%Z then
        match body with
        | Some data => run_try (read data) result
        | None => result
        end
      else result
  end.

(** [get_brreg_info(orgnr, cache)]. The key ["hjemmeside"] is in
    [result] from the dict literal on, so [result["hjemmeside"]] is its
    value. *)
Definition get_brreg_info (orgnr : string) (w : world) : json num * world :=
  let cache_key := "brreg_" +:+ orgnr in
  match cache w !! cache_key with
  | Some cached => (cached, w)
  | None =>
      let result :=
        [ ("hjemmeside", JNull); ("epostadresse", JNull);
          ("telefon", JNull); ("mobil", JNull) ] in
      let url := BRREG_API +:+ "/" +:+ orgnr in
      let answer := requests_get (requests_sent w) url in
      let sent := requests_sent w ++ [url] in
      let result := try_lookup answer read_hovedenhet result in
      let '(result, sent) :=
        if negb (json_truthy (dict_get_default "hjemmeside" JNull result))
        then
          let url := BRREG_UNDERENHETER_API +:+ "/" +:+ orgnr in
          let answer := requests_get sent url in
          (try_lookup answer read_underenhet result, sent ++ [url])
        else (result, sent) in
      (JDict result,
       {| cache := <[cache_key := JDict result]> (cache w);
          requests_sent := sent |})
  end.

(** A lookup that brings no data: an exception, a status other than
    200, a body that is not JSON, or a body that is no JSON object. *)
Definition no_data (answer : reply num) : Prop :=
  match answer with
  | GetRaises => True
  | Response _ None => True
  | Response status_code (Some (JDict _)) => status_code <> 200%Z
  | Response _ (Some _) => True
  end.

(** The letter o with stroke, U+00F8. *)
Definition o_slash : string := String (ascii_of_nat 248) EmptyString.

(** [search_proff_no(company_name, orgnr, cache)] *)
Definition search_proff_no (company_name : pyval) (orgnr : string) (w : world)
  : json num * world :=
  let cache_key := "proff_" +:+ orgnr in
  match cache w !! cache_key with
  | Some cached => (cached, w)
  | None =>
      let result :=
        JDict
          [ ("proff_url",
             JStr ("https://www.proff.no/bransjes" +:+ o_slash +:+ "k?q="
                   +:+ orgnr));
            ("roles", JList []) ] in
      (result,
       {| cache := <[cache_key := result]> (cache w);
          requests_sent := requests_sent w |})
  end.

(** A string or None as the JSON value it is. *)
Definition json_of_option (s : option string) : json num :=
  match s with Some s => JStr s | None => JNull end.

(** [normalize_url(v)] on a value of the registry's answer: a true value
    that is not a string has no [strip]. *)
Definition normalize_url_of (v : json num) : outcome (json num) :=
  match v with
  | JStr s => Ok (json_of_option (normalize_url (Some s)))
  | _ => if json_truthy v then Raise AttributeError else Ok JNull
  end.

(** [format_phone(v)] on a value of the registry's answer. *)
Definition format_phone_of (v : json num) : json num :=
  if json_truthy v then json_of_option (format_phone (Some (json_str v)))
  else JNull.

(** The dict [enrich_company] returns. *)
Record enriched : Type := {
  organisasjonsnummer : string;
  navn : pyval;
  antallAnsatte : pyval;
  adresse : pyval;
  latitude : pyval;
  longitude : pyval;
  naeringskode : pyval;
  naeringskode_beskrivelse : pyval;
  hjemmeside : json num;
  epostadresse : json num;
  telefon : json num;
  mobil : json num;
  proff_url : json num;
}.

(** [row.get(col, "")] *)
Definition row_get_or (col : string) (dflt : pyval) (row : gmap string pyval)
  : pyval :=
  default dflt (row !! col).

(** [enrich_company(row, cache)] *)
Definition enrich_company (row : gmap string pyval) (w : world)
  : outcome enriched * world :=
  let orgnr := py_str (row_get_or "organisasjonsnummer" (PStr "") row) in
  let company_name := row_get_or "navn" (PStr "") row in
  let '(brreg_info, w) := get_brreg_info orgnr w in
  let '(proff, w) := search_proff_no company_name orgnr w in
  (website ← json_get brreg_info "hjemmeside";
   website ← normalize_url_of website;
   email ← json_get brreg_info "epostadresse";
   phone ← json_get brreg_info "telefon";
   mobile ← json_get brreg_info "mobil";
   proff_link ← json_get proff "proff_url";
   Ok {| organisasjonsnummer := orgnr;
         navn := company_name;
         antallAnsatte := row_get "antallAnsatte" row;
         adresse := row_get "adresse" row;
         latitude := row_get "latitude" row;
         longitude := row_get "longitude" row;
         naeringskode := row_get "naeringskode" row;
         naeringskode_beskrivelse := row_get "naeringskode_beskrivelse" row;
         hjemmeside := website;
         epostadresse := email;
         telefon := format_phone_of phone;
         mobil := format_phone_of mobile;
         proff_url := proff_link |},
   w).

(** [df.drop_duplicates(subset=["organisasjonsnummer"], keep="first")]:
    missing cells count as equal. *)
Fixpoint drop_duplicates_from (seen : list pyval)
    (df : list (gmap string pyval)) : list (gmap string pyval) :=
  match df with
  | [] => []
  | row :: df' =>
      let orgnr := row_get_or "organisasjonsnummer" PNaN row in
      if bool_decide (orgnr ∈ seen) then drop_duplicates_from seen df'
      else row :: drop_duplicates_from (orgnr :: seen) df'
  end.

(** The column is there when every row has the cell; without the column
    the call raises [KeyError]. *)
Definition drop_duplicates (df : list (gmap string pyval))
  : outcome (list (gmap string pyval)) :=
  if forallb
       (fun row => bool_decide (is_Some (row !! "organisasjonsnummer"))) df
  then Ok (drop_duplicates_from [] df)
  else Raise KeyError.

(** The cache key [main] counts for a row. *)
Definition brreg_key (row : gmap string pyval) : string :=
  "brreg_" +:+ py_str (row_get_or "organisasjonsnummer" (PStr "") row).

Definition cached_count (df : list (gmap string pyval))
    (cache : gmap string (json num)) : nat :=
  length (filter (fun row => is_Some (cache !! brreg_key row)) df).

Definition api_calls_needed (df : list (gmap string pyval))
    (cache : gmap string (json num)) : nat :=
  length df - cached_count df cache.

(** The enrichment loop of [main]. [idx] is the index of the first row
    of [df], [disk] the contents of the cache file: the cache is saved
    after every twentieth row. An exception ends the loop. *)
Fixpoint enrich_loop (df : list (gmap string pyval)) (idx : nat)
    (enriched_rows : list enriched) (w : world)
    (disk : gmap string (json num))
  : outcome (list enriched) * world * gmap string (json num) :=
  match df with
  | [] => (Ok enriched_rows, w, disk)
  | row :: df' =>
      match enrich_company row w with
      | (Raise e, w) => (Raise e, w, disk)
      | (Ok r, w) =>
          let disk := if (idx + 1) mod 20 =? 0 then cache w else disk in
          enrich_loop df' (S idx) (enriched_rows ++ [r]) w disk
      end
  end.

(** [main()] from the DataFrame read from the CSV to the last
    [save_cache]: the rows of [result_df], the state, and the contents of
    the cache file. [disk] is the cache file at the start (empty when
    there is none), [sent] the URLs fetched before. *)
Definition main (df : list (gmap string pyval))
    (disk : gmap string (json num)) (sent : list string)
  : outcome (list enriched) * world * gmap string (json num) :=
  let w := {| cache := disk; requests_sent := sent |} in
  match drop_duplicates df with
  | Raise e => (Raise e, w, disk)
  | Ok df =>
      match enrich_loop df 0 [] w disk with
      | (Raise e, w, disk) => (Raise e, w, disk)
      | (Ok enriched_rows, w, _) => (Ok enriched_rows, w, cache w)
      end
  end.

End Registry.
Arguments world : clear implicits.
Arguments enriched : clear implicits.

End EnrichCompanies.

(** * google_sheets.py *)

Module GoogleSheets.

(** Columns the script overwrites on every sync. *)
Definition SCRIPT_COLUMNS : list string :=
  [ "cluster_id"; "cluster_name"; "import_timestamp"; "organisasjonsnummer";
    "navn"; "antallAnsatte"; "adresse"; "latitude"; "longitude";
    "naeringskode"; "naeringskode_beskrivelse"; "hjemmeside"; "epostadresse";
    "proff_url"; "kontakt_navn"; "kontakt_rolle"; "kontakt_epost";
    "kontakt_telefon"; "salgsnotater" ].

(** Sales columns, edited by hand in the sheet and kept by a sync. *)
Definition SALES_COLUMNS : list string :=
  [ "status"; "sist_kontaktet"; "neste_oppfolging"; "interne_notater";
    "ansvarlig" ].

Definition ALL_COLUMNS : list string := SCRIPT_COLUMNS ++ SALES_COLUMNS.

(** The value range of the sheet: rows of cells, the header row first. *)
Definition sheet : Type := list (list string).

(** A row of the incoming DataFrame; [csv_row.get(col, "")] is [df_get]. *)
Definition df_row : Type := gmap string pyval.

Definition df_get (col : string) (csv_row : df_row) : pyval :=
  default (PStr "") (csv_row !! col).

(** The spreadsheet service is an external collaborator. Its read
    ([values().get]) returns the stored rows, and its write at [A1]
    ([values().update]) stores the rows it is given: written with the one
    header row it replaces the first row, written with header and data it
    replaces the contents. *)
Definition _get_sheet_data (s : sheet) : list (list string) := s.

(** [_ensure_headers]: the header row is written when the sheet is empty
    or its first row is not the expected one. *)
Definition _ensure_headers (s : sheet) : sheet :=
  match _get_sheet_data s with
  | [] => [ALL_COLUMNS]
  | header :: rows =>
      if decide (header = ALL_COLUMNS) then s else ALL_COLUMNS :: rows
  end.

Record sync_stats : Type := {
  total : nat;
  new : nat;
  updated : nat;
  preserved : nat;
}.

(** [str(csv_row.get("organisasjonsnummer", ""))] *)
Definition csv_orgnr (csv_row : df_row) : string :=
  py_str (df_get "organisasjonsnummer" csv_row).

(** The mapping from org number to the row's dict, built from the rows
    read from the sheet. *)
Definition build_existing_map (existing_data : list (list string))
  : dict (dict string) :=
  if 1 <? length existing_data then
    match existing_data with
    | headers :: rows =>
        fold_left
          (fun existing_map row =>
             let row_padded :=
               row ++ replicate (length headers - length row) "" in
             let row_dict := dict_zip headers row_padded in
             let orgnr := dict_get_default "organisasjonsnummer" "" row_dict in
             if String.eqb orgnr "" then existing_map
             else dict_set orgnr row_dict existing_map)
          rows []
    | [] => []
    end
  else [].

Section Sync.
Context {lib : PyLib}.

(** The value the inner loop stores for a script column of the CSV. *)
Definition script_value (col : string) (csv_row : df_row) : string :=
  let val := df_get col csv_row in
  let val := if isna val then PStr "" else val in
  let val :=
    if String.eqb col "navn" && truthy val
    then PStr (str_title (py_str val)) else val in
  py_str val.

(** One pass of the loop body over a CSV row with a non-blank key: the
    [row_data] dict. *)
Definition build_row_data (cluster_id area_name import_timestamp : string)
    (existing_map : dict (dict string)) (orgnr : string) (csv_row : df_row)
  : dict string :=
  let row_data := [] in
  let row_data := dict_set "cluster_id" cluster_id row_data in
  let row_data := dict_set "cluster_name" area_name row_data in
  let row_data := dict_set "import_timestamp" import_timestamp row_data in
  let row_data :=
    fold_left
      (fun row_data col =>
         if str_in col ["cluster_id"; "cluster_name"; "import_timestamp"]
         then row_data
         else dict_set col (script_value col csv_row) row_data)
      SCRIPT_COLUMNS row_data in
  match dict_get orgnr existing_map with
  | Some existing =>
      fold_left
        (fun row_data col =>
           dict_set col (dict_get_default col "" existing) row_data)
        SALES_COLUMNS row_data
  | None =>
      let row_data := dict_set "status" "not started yet" row_data in
      let row_data := dict_set "sist_kontaktet" "" row_data in
      let row_data := dict_set "neste_oppfolging" "" row_data in
      let row_data := dict_set "interne_notater" "" row_data in
      dict_set "ansvarlig" "" row_data
  end.

(** [[d.get(col, "") for col in ALL_COLUMNS]] *)
Definition to_sheet_row (d : dict string) : list string :=
  map (fun col => dict_get_default col "" d) ALL_COLUMNS.

(** The state of the first loop: rows built so far and the two counters. *)
Record loop_state : Type := {
  new_rows : list (list string);
  updated_count : nat;
  new_count : nat;
}.

Definition csv_step (cluster_id area_name import_timestamp : string)
    (existing_map : dict (dict string)) (st : loop_state) (csv_row : df_row)
  : loop_state :=
  let orgnr := csv_orgnr csv_row in
  if String.eqb orgnr "" then st
  else
    let row_data :=
      build_row_data cluster_id area_name import_timestamp existing_map
        orgnr csv_row in
    {| new_rows := new_rows st ++ [to_sheet_row row_data];
       updated_count :=
         if dict_mem orgnr existing_map then S (updated_count st)
         else updated_count st;
       new_count :=
         if dict_mem orgnr existing_map then new_count st
         else S (new_count st) |}.

(** Rows of the sheet whose org number is not in the CSV, in the order of
    [existing_map.items()]. *)
Definition preserved_rows (existing_map : dict (dict string))
    (csv_orgnrs : list string) : list (list string) :=
  omap
    (fun item : string * dict string =>
       if str_in (fst item) csv_orgnrs then None
       else Some (to_sheet_row (snd item)))
    existing_map.

Definition sort_key (r : list string) : string :=
  str_lower (nth (py_index "navn" ALL_COLUMNS) r "").

(** The cluster id in use: generated from the area name when none is given. *)
Definition resolve_cluster_id (area_name cluster_id : string) : string :=
  if String.eqb cluster_id "" && negb (String.eqb area_name "")
  then str_upper (String.substring 0 8 (md5_hexdigest area_name))
  else cluster_id.

(** [sync_companies(df, area_name, cluster_id)]; [now] is the formatted
    [datetime.now()]. The result is the sheet after the write and the
    statistics returned. The dropdown rule set on the status column at
    the end leaves the cell values as they are. *)
Definition sync_companies (s : sheet) (df : list df_row)
    (area_name cluster_id now : string) : sheet * sync_stats :=
  let cluster_id := resolve_cluster_id area_name cluster_id in
  let import_timestamp := now in
  let s := _ensure_headers s in
  let existing_data := _get_sheet_data s in
  let existing_map := build_existing_map existing_data in
  let st :=
    fold_left (csv_step cluster_id area_name import_timestamp existing_map)
      df {| new_rows := []; updated_count := 0; new_count := 0 |} in
  let csv_orgnrs := map csv_orgnr df in
  let kept := preserved_rows existing_map csv_orgnrs in
  let preserved_count := length kept in
  let new_rows := stable_sort_by sort_key (new_rows st ++ kept) in
  let all_data := ALL_COLUMNS :: new_rows in
  (all_data,
   {| total := length new_rows;
      new := new_count st;
      updated := updated_count st;
      preserved := preserved_count |}).

End Sync.

(** The cell of a sheet row under a column of the fixed layout; a cell
    the row is too short for reads as the empty string. *)
Definition cell (col : string) (row : list string) : string :=
  nth (py_index col ALL_COLUMNS) row "".

(** The data rows of a sheet: everything below the header row. *)
Definition data_rows (s : sheet) : list (list string) := tail s.

(** ** Notions used to state what a sync keeps *)

(** The dict the sync reads a sheet row into, under the enforced header. *)
Definition row_dict (row : list string) : dict string :=
  dict_zip ALL_COLUMNS
    (row ++ replicate (length ALL_COLUMNS - length row) "").

(** One turn of the loop that files the sheet rows under their org number. *)
Definition map_step (existing_map : dict (dict string)) (row : list string)
  : dict (dict string) :=
  if String.eqb (cell "organisasjonsnummer" row) "" then existing_map
  else dict_set (cell "organisasjonsnummer" row) (row_dict row) existing_map.

(** A sheet row with its import timestamp blanked. *)
Definition without_timestamp (r : list string) : list string :=
  <[py_index "import_timestamp" ALL_COLUMNS := ""]> r.

Section Merge.
Context {lib : PyLib}.

(** The rows the first loop appends, one per CSV row with a non-blank key. *)
Definition csv_sheet_row (cluster_id area_name import_timestamp : string)
    (existing_map : dict (dict string)) (csv_row : df_row) : list string :=
  to_sheet_row
    (build_row_data cluster_id area_name import_timestamp existing_map
       (csv_orgnr csv_row) csv_row).

Definition csv_sheet_rows (cluster_id area_name import_timestamp : string)
    (existing_map : dict (dict string)) (df : list df_row) : list (list string) :=
  omap
    (fun csv_row =>
       if String.eqb (csv_orgnr csv_row) "" then None
       else Some (csv_sheet_row cluster_id area_name import_timestamp
                    existing_map csv_row))
    df.

(** The sales cells a CSV row receives: those of the mapping's entry, or
    the defaults of a new company. *)
Definition sales_values (existing_map : dict (dict string)) (orgnr : string)
  : list string :=
  match dict_get orgnr existing_map with
  | Some existing => map (fun col => dict_get_default col "" existing) SALES_COLUMNS
  | None => ["not started yet"; ""; ""; ""; ""]
  end.

(** The two claims as the specification words them, for one run: every
    sheet row of an org number in the batch keeps its sales columns, and
    every sheet row of an org number outside the batch is found unchanged
    after the sync. *)
Definition sales_columns_kept (s : sheet) (df : list df_row)
    (area cid now : string) : Prop :=
  forall r csv_row,
    r ∈ data_rows s -> csv_row ∈ df ->
    cell "organisasjonsnummer" r <> "" ->
    df_get "organisasjonsnummer" csv_row
    = PStr (cell "organisasjonsnummer" r) ->
    exists out,
      out ∈ data_rows (sync_companies s df area cid now).1
      /\ cell "organisasjonsnummer" out = cell "organisasjonsnummer" r
      /\ forall col, col ∈ SALES_COLUMNS -> cell col out = cell col r.


End Merge.

Section FromCsv.
Context {lib : PyLib}.

(** The area a CSV file belongs to, from the file name without its
    suffix: [stem.split("_")[0] if "_" in stem else stem]. *)
Definition area_name (stem : string) : string :=
  if str_contains "_" stem then before_first "_" stem else stem.

(** [sync_from_csv(csv_path)] for a file that exists: [stem] is its name
    without the suffix and [df] what [read_csv] returns. *)
Definition sync_from_csv (stem : string) (df : list df_row) (s : sheet)
    (now : string) : sheet * sync_stats :=
  sync_companies s df (area_name stem) "" now.

End FromCsv.

End GoogleSheets.

(** * filter_companies.py *)

Module FilterCompanies.

(** The query sent to the address-search service. *)
Record request : Type := {
  sok : string;
  treffPerSide : Z;
  kommunenummer : option pyval;
}.

(** What [requests.get], [raise_for_status] and [response.json()] can
    come to: a [RequestException] (no connection, timeout, error status),
    a body that is not JSON, or the decoded payload. *)
Inductive http_outcome (num : Type) : Type :=
  | HttpError
  | NotJson
  | Payload (data : json num).
Arguments HttpError {num}.
Arguments NotJson {num}.
Arguments Payload {num} data.

(** The address-search service: its answer to a request, given the
    requests sent before. *)
Class Kartverket (num : Type) : Type := {
  kartverket_sok : list request -> request -> http_outcome num;
}.

(** The geometry library: polygons, their bounds
    [(min_lon, min_lat, max_lon, max_lat)], points and containment. *)
Class Shapely (num : Type) : Type := {
  polygon : Type;
  point : Type;
  bounds : polygon -> pyfloat num * pyfloat num * pyfloat num * pyfloat num;
  Point : json num -> json num -> outcome point;   (* Point(lon, lat) *)
  contains : polygon -> point -> bool;
}.

Section Geocoder.
Context {num : Type} {numbers : PyNum num} {lib : PyLib}
  {kartverket : Kartverket num}.

(** A value of the geocode cache: [{"lat", "lon", "timestamp"}]. *)
Record cache_entry : Type := {
  lat : json num;
  lon : json num;
  timestamp : string;
}.

(** The state a run works on: the cache dict and the requests that went
    out to the service. *)
Record world : Type := {
  cache : gmap string cache_entry;
  requests_sent : list request;
}.

Definition cache_key (address postal_code city : pyval) : string :=
  str_strip
    (str_lower
       (py_str address +:+ "|" +:+ py_str postal_code +:+ "|" +:+ py_str city)).

(** The body of the [try] block once [response.json()] has returned
    [data]: [Ok (Some (lat, lon))] when it reaches [return lat, lon],
    [Ok None] when the [if] is not taken. *)
Definition read_payload (data : json num)
  : outcome (option (json num * json num)) :=
  adresser ← json_get data "adresser";
  if json_truthy adresser then
    n ← json_len adresser;
    if 0 <? n then
      addr ← json_first adresser;
      rp ← json_item addr "representasjonspunkt";
      lat ← json_item rp "lat";
      rp ← json_item addr "representasjonspunkt";
      lon ← json_item rp "lon";
      Ok (Some (lat, lon))
    else Ok None
  else Ok None.

(** [except (requests.RequestException, KeyError, json.JSONDecodeError)] *)
Definition caught (e : exn) : bool :=
  match e with
  | RequestException | KeyError | JSONDecodeError => true
  | _ => false
  end.

Definition cache_put (key : string) (entry : cache_entry) (w : world) : world :=
  {| cache := <[key := entry]> (cache w); requests_sent := requests_sent w |}.

(** [geocode_address(address, postal_code, city, municipality_code, cache)];
    [today] is [date.today().isoformat()]. *)
Definition geocode_address (address postal_code city municipality_code : pyval)
    (today : string) (w : world) : outcome (json num * json num) * world :=
  let key := cache_key address postal_code city in
  match cache w !! key with
  | Some cached => (Ok (lat cached, lon cached), w)
  | None =>
      let search_query :=
        py_str address +:+ ", " +:+ py_str postal_code +:+ " " +:+ py_str city in
      let params :=
        {| sok := search_query;
           treffPerSide := 1;
           kommunenummer :=
             if truthy municipality_code then Some municipality_code
             else None |} in
      let response := kartverket_sok (requests_sent w) params in
      let w :=
        {| cache := cache w; requests_sent := requests_sent w ++ [params] |} in
      let attempt :=
        match response with
        | HttpError => Raise RequestException
        | NotJson => Raise JSONDecodeError
        | Payload data => read_payload data
        end in
      let negative :=
        (Ok (JNull, JNull),
         cache_put key {| lat := JNull; lon := JNull; timestamp := today |} w) in
      match attempt with
      | Ok (Some (lat, lon)) =>
          (Ok (lat, lon),
           cache_put key {| lat := lat; lon := lon; timestamp := today |} w)
      | Ok None => negative
      | Raise e => if caught e then negative else (Raise e, w)
      end
  end.

(** The request a cache miss sends. *)
Definition request_for (address postal_code city municipality_code : pyval)
  : request :=
  {| sok := py_str address +:+ ", " +:+ py_str postal_code +:+ " "
            +:+ py_str city;
     treffPerSide := 1;
     kommunenummer :=
       if truthy municipality_code then Some municipality_code else None |}.

(** The state after a miss has sent its request and stored [entry]. *)
Definition after_miss (key : string) (entry : cache_entry)
    (req : request) (w : world) : world :=
  {| cache := <[key := entry]> (cache w);
     requests_sent := requests_sent w ++ [req] |}.

(** A payload in which the [try] block finds no coordinates: the [if] is
    not taken (no candidates), or a subscript raises [KeyError] (a
    candidate without the expected keys). *)
Definition not_found_payload (data : json num) : Prop :=
  read_payload data = Ok None \/ read_payload data = Raise KeyError.

End Geocoder.
Arguments cache_entry : clear implicits.
Arguments world : clear implicits.

Section Filter.
Context {num : Type} {numbers : PyNum num} {lib : PyLib}
  {kartverket : Kartverket num} {geometry : Shapely num}.

(** A row of the postal-code table as [load_postal_code_data] returns it. *)
Record postal_row : Type := {
  POSTNR : pyval;
  LAT : pyfloat num;
  LON : pyfloat num;
}.

(** The bounding-box mask of [get_postal_codes_in_polygon]. *)
Definition bbox_mask (poly : polygon) (row : postal_row) : bool :=
  let '(min_lon, min_lat, max_lon, max_lat) := bounds poly in
  let buffer := FNum (num_of_decimal 5 2) in
  float_ge (LON row) (float_sub min_lon buffer)
  && float_le (LON row) (float_add max_lon buffer)
  && float_ge (LAT row) (float_sub min_lat buffer)
  && float_le (LAT row) (float_add max_lat buffer).

(** [s.add(x)] on a set kept as a duplicate-free list. *)
Definition set_add (x : pyval) (s : list pyval) : list pyval :=
  if bool_decide (x ∈ s) then s else s ++ [x].

Definition get_postal_codes_in_polygon (poly : polygon)
    (postal_df : list postal_row) : list pyval :=
  match postal_df with
  | [] => []
  | _ =>
      let candidates := filter (fun row => bbox_mask poly row = true) postal_df in
      fold_left
        (fun postal_codes row =>
           if float_notna (LAT row) && float_notna (LON row)
           then set_add (POSTNR row) postal_codes
           else postal_codes)
        candidates []
  end.

(** A row of the registry tables, by column name, after the renaming of
    the address columns. *)
Definition reg_row : Type := gmap string pyval.

(** [row.get(col, dflt)] and [row.get(col)] *)
Definition row_get (col : string) (dflt : pyval) (row : reg_row) : pyval :=
  default dflt (row !! col).

(** [load_company_data(postal_codes)] on the two tables read from disk. *)
Definition load_company_data (enheter underenheter : list reg_row)
    (postal_codes : list pyval) : list reg_row :=
  let enheter := map (insert "source" (PStr "hovedenhet")) enheter in
  let underenheter := map (insert "source" (PStr "underenhet")) underenheter in
  let combined := enheter ++ underenheter in
  match postal_codes with
  | [] => combined
  | _ =>
      filter
        (fun row => row_get "postnummer" PNaN row ∈ postal_codes)
        combined
  end.

(** A row of the result. [source] is set on every registry row by
    [load_company_data], and [adresse] is the formatted address: both are
    strings. *)
Record result : Type := {
  organisasjonsnummer : pyval;
  navn : pyval;
  antallAnsatte : Z;
  adresse : string;
  latitude : json num;
  longitude : json num;
  naeringskode : pyval;
  naeringskode_beskrivelse : pyval;
  source : string;
}.

(** The employee filter: the rows kept, each with its [antallAnsatte_num]. *)
Definition employee_filter (min_employees max_employees : Z)
    (df : list reg_row) : list (reg_row * pyfloat num) :=
  let with_num :=
    map (fun row => (row, to_numeric (row_get "antallAnsatte" PNaN row))) df in
  filter
    (fun item =>
       float_ge (snd item) (FNum (num_of_Z min_employees))
       && float_le (snd item) (FNum (num_of_Z max_employees)) = true)
    with_num.

(** [not pd.isna(address) and address] *)
Definition has_address (row : reg_row) : bool :=
  let address := row_get "adresse" (PStr "") row in
  negb (isna address) && truthy address.

(** One turn of the geocoding loop. *)
Definition geocode_step (poly : polygon) (today : string)
    (row : reg_row) (antallAnsatte_num : pyfloat num)
    (results : list result) (w : world num)
  : outcome (list result) * world num :=
  let address := row_get "adresse" (PStr "") row in
  let postal_code := row_get "postnummer" (PStr "") row in
  let city := row_get "poststed" (PStr "") row in
  let municipality := row_get "kommunenummer" PNone row in
  match geocode_address address postal_code city municipality today w with
  | (Raise e, w) => (Raise e, w)
  | (Ok (lat, lon), w) =>
      if json_not_none lat && json_not_none lon then
        match Point lon lat with
        | Raise e => (Raise e, w)
        | Ok pt =>
            if contains poly pt then
              match to_int antallAnsatte_num with
              | Raise e => (Raise e, w)
              | Ok n =>
                  (Ok (results ++
                       [ {| organisasjonsnummer :=
                              row_get "organisasjonsnummer" PNone row;
                            navn := row_get "navn" PNone row;
                            antallAnsatte := n;
                            adresse :=
                              py_str address +:+ ", " +:+ py_str postal_code
                              +:+ " " +:+ py_str city;
                            latitude := lat;
                            longitude := lon;
                            naeringskode := row_get "naeringskode" PNone row;
                            naeringskode_beskrivelse :=
                              row_get "naeringskode_beskrivelse" PNone row;
                            source := py_str (row_get "source" PNone row) |} ]),
                   w)
              end
            else (Ok results, w)
        end
      else (Ok results, w)
  end.

(** The geocoding loop over [addresses_to_check]; an exception ends it. *)
Fixpoint geocode_loop (poly : polygon) (today : string)
    (todo : list (reg_row * pyfloat num)) (results : list result) (w : world num)
  : outcome (list result) * world num :=
  match todo with
  | [] => (Ok results, w)
  | (row, n) :: todo' =>
      match geocode_step poly today row n results w with
      | (Raise e, w) => (Raise e, w)
      | (Ok results, w) => geocode_loop poly today todo' results w
      end
  end.

(** [drop_duplicates(subset=["adresse"], keep="first")] *)
Fixpoint drop_duplicates_from (seen : list string) (rows : list result)
  : list result :=
  match rows with
  | [] => []
  | r :: rows' =>
      if str_in (adresse r) seen then drop_duplicates_from seen rows'
      else r :: drop_duplicates_from (adresse r :: seen) rows'
  end.

Definition drop_duplicates (rows : list result) : list result :=
  drop_duplicates_from [] rows.

(** [sort_values("source", ascending=True)]. With the default algorithm
    the order among rows of equal [source] is not fixed, so the model
    takes any routine that returns the rows sorted by [source]. *)
Definition source_le (a b : result) : Prop :=
  String.le (source a) (source b).

Class SortValues : Type := {
  sort_values_source : list result -> list result;
  sort_values_perm : forall rows, sort_values_source rows ≡ₚ rows;
  sort_values_sorted : forall rows, Sorted source_le (sort_values_source rows);
}.

(** The registry rows as [load_company_data] tags them. *)
Definition registry (enheter underenheter : list reg_row) : list reg_row :=
  map (insert "source" (PStr "hovedenhet")) enheter
  ++ map (insert "source" (PStr "underenhet")) underenheter.

(** A centroid inside the bounding box of the polygon widened by the
    margin of 0.05 degrees on every side. *)
Definition in_expanded_box (poly : polygon) (lon lat : num) : Prop :=
  exists min_lon min_lat max_lon max_lat,
    bounds poly = (FNum min_lon, FNum min_lat, FNum max_lon, FNum max_lat)
    /\ num_le (num_sub min_lon (num_of_decimal 5 2)) lon = true
    /\ num_le lon (num_add max_lon (num_of_decimal 5 2)) = true
    /\ num_le (num_sub min_lat (num_of_decimal 5 2)) lat = true
    /\ num_le lat (num_add max_lat (num_of_decimal 5 2)) = true.

(** What the loop has established about a row it appends. *)
Definition emitted (poly : polygon) (today : string) (row : reg_row)
    (n : pyfloat num) (r : result) : Prop :=
  exists w1 w2 la lo pt,
    geocode_address (row_get "adresse" (PStr "") row)
      (row_get "postnummer" (PStr "") row) (row_get "poststed" (PStr "") row)
      (row_get "kommunenummer" PNone row) today w1 = (Ok (la, lo), w2)
    /\ json_not_none la = true /\ json_not_none lo = true
    /\ Point lo la = Ok pt /\ contains poly pt = true
    /\ to_int n = Ok (antallAnsatte r)
    /\ latitude r = la /\ longitude r = lo
    /\ organisasjonsnummer r = row_get "organisasjonsnummer" PNone row
    /\ adresse r =
         py_str (row_get "adresse" (PStr "") row) +:+ ", "
         +:+ py_str (row_get "postnummer" (PStr "") row) +:+ " "
         +:+ py_str (row_get "poststed" (PStr "") row)
    /\ source r = py_str (row_get "source" PNone row).

(** The cache key [main] computes for a row. *)
Definition row_cache_key (row : reg_row) : string :=
  cache_key (row_get "adresse" (PStr "") row)
    (row_get "postnummer" (PStr "") row) (row_get "poststed" (PStr "") row).

(** [addresses_to_check], each row with its [antallAnsatte_num], and the
    two counts [main] prints before it geocodes. *)
Definition addresses_to_check (poly : polygon) (postal_df : list postal_row)
    (enheter underenheter : list reg_row) (min_employees max_employees : Z)
  : list (reg_row * pyfloat num) :=
  filter (fun item => has_address (fst item) = true)
    (employee_filter min_employees max_employees
       (load_company_data enheter underenheter
          (get_postal_codes_in_polygon poly postal_df))).

Definition cached_hits (todo : list (reg_row * pyfloat num))
    (cache : gmap string (cache_entry num)) : nat :=
  length (filter (fun item => is_Some (cache !! row_cache_key (fst item))) todo).

Definition api_calls_needed (todo : list (reg_row * pyfloat num))
    (cache : gmap string (cache_entry num)) : nat :=
  length todo - cached_hits todo cache.

#[global] Instance source_le_trans : Transitive source_le.
Proof. intros a b c. unfold source_le. apply transitivity. Qed.

Section Main.
Context {sorter : SortValues}.

(** The tail of [main]: a DataFrame built from no rows has no [source]
    column, and [sort_values] raises [KeyError]. *)
Definition deduplicate (results : list result) : outcome (list result) :=
  match results with
  | [] => Raise KeyError
  | _ => Ok (drop_duplicates (sort_values_source results))
  end.

(** [main()] from the loaded polygon on. [Ok None] is a return before any
    CSV is written, [Ok (Some rows)] the rows written to the CSV. *)
Definition main (poly : polygon) (postal_df : list postal_row)
    (enheter underenheter : list reg_row)
    (min_employees max_employees : Z) (today : string) (w : world num)
  : outcome (option (list result)) * world num :=
  let postal_codes := get_postal_codes_in_polygon poly postal_df in
  match postal_codes with
  | [] => (Ok None, w)
  | _ =>
      let df := load_company_data enheter underenheter postal_codes in
      let df := employee_filter min_employees max_employees df in
      match df with
      | [] => (Ok None, w)
      | _ =>
          let addresses_to_check :=
            filter (fun item => has_address (fst item) = true) df in
          match geocode_loop poly today addresses_to_check [] w with
          | (Raise e, w) => (Raise e, w)
          | (Ok results, w) =>
              (rows ← deduplicate results; Ok (Some rows), w)
          end
      end
  end.

End Main.
End Filter.
Arguments postal_row : clear implicits.
Arguments result : clear implicits.
Arguments SortValues : clear implicits.

End FilterCompanies.

(** * generate_report.py *)

Module GenerateReport.

Section Markers.
Context {num : Type} {numbers : PyNum num}.

(** A row of the DataFrame in [generate_html]: the string columns read
    from the CSV, the employee count that [generate_area] has turned into
    an int, and the score column. *)
Record report_row : Type := {
  cells : gmap string pyval;
  antallAnsatte : Z;
  _score : Z;
}.

Record marker : Type := {
  lat : pyfloat num;
  lon : pyfloat num;
  name : string;
  employees : string;
  address : string;
  score : Z;
}.

(** [row.get(col)] and [row.get(col, '')] on the string columns. *)
Definition row_get (col : string) (dflt : pyval) (row : report_row) : pyval :=
  default dflt (cells row !! col).

(** The dict literal of the marker; [float] may raise, and nothing in
    [generate_html] catches it. *)
Definition make_marker (row : report_row) : outcome marker :=
  la ← to_float (row_get "latitude" PNone row);
  lo ← to_float (row_get "longitude" PNone row);
  Ok {| lat := la;
        lon := lo;
        name := py_str (row_get "navn" (PStr "") row);
        employees := pretty (antallAnsatte row);
        address := py_str (row_get "adresse" (PStr "") row);
        score := _score row |}.

(** One turn of the marker loop of [generate_html]. *)
Definition marker_step (markers : list marker) (row : report_row)
  : outcome (list marker) :=
  if truthy (row_get "latitude" PNone row)
     && truthy (row_get "longitude" PNone row)
  then
    m ← make_marker row;
    Ok (markers ++ [m])
  else Ok markers.

(** [markers] at the end of the loop of [generate_html]. *)
Fixpoint markers_from (markers : list marker) (df : list report_row)
  : outcome (list marker) :=
  match df with
  | [] => Ok markers
  | row :: df' =>
      markers ← marker_step markers row;
      markers_from markers df'
  end.

Definition markers_of (df : list report_row) : outcome (list marker) :=
  markers_from [] df.

End Markers.

Section Scores.
Context {lib : PyLib}.
Local Open Scope Z_scope.

(** [calculate_score(row)]. The employee count of the row is an int
    ([generate_area] has converted the column), so
    [int(row.get('antallAnsatte', 0) or 0)] is that int. *)
Definition calculate_score (row : report_row) : Z :=
  let score := 0 in
  let employees := antallAnsatte row in
  let industry :=
    str_lower (py_str (row_get "naeringskode_beskrivelse" (PStr "") row)) in
  let score :=
    if 500 <=? employees then score + 50
    else if 200 <=? employees then score + 40
    else if 100 <=? employees then score + 30
    else if 50 <=? employees then score + 20
    else if 20 <=? employees then score + 10
    else score in
  let shift_keywords :=
    [ "produksjon"; "industri"; "lager"; "logistikk"; "sikkerhet"; "vakt";
      "helse"; "sykehus"; "pleie"; "omsorg"; "renhold"; "transport" ] in
  let score :=
    if existsb (fun kw => str_contains kw industry) shift_keywords
    then score + 30 else score in
  let public_keywords :=
    [ "kommune"; "stat"; "offentlig"; "universitet"; "skole"; "barnehage" ] in
  let name := str_lower (py_str (row_get "navn" (PStr "") row)) in
  let score :=
    if existsb (fun kw => str_contains kw industry || str_contains kw name)
         public_keywords
    then score + 10 else score in
  let research_keywords :=
    [ "forskning"; "institutt"; "universitet"; "vitenskapelig" ] in
  let score :=
    if existsb (fun kw => str_contains kw industry || str_contains kw name)
         research_keywords
    then score + 10 else score in
  Z.min score 100.

(** [get_score_class(score)] *)
Definition get_score_class (score : Z) : string :=
  if 70 <=? score then "score-high"
  else if 40 <=? score then "score-medium"
  else "score-low".

(** The double quote, U+0022. *)
Definition quote : ascii := ascii_of_nat 34%nat.

(** [escape_html(text)] *)
Definition escape_html (text : pyval) : string :=
  if isna text || bool_decide (text = PNone) then ""
  else
    str_replace_char quote "&quot;"
      (str_replace_char ">" "&gt;"
         (str_replace_char "<" "&lt;"
            (str_replace_char "&" "&amp;" (py_str text)))).

(** The row with its [_score] column set, as
    [df['_score'] = df.apply(calculate_score, axis=1)] sets it. *)
Definition with_score (row : report_row) : report_row :=
  {| cells := cells row;
     antallAnsatte := antallAnsatte row;
     _score := calculate_score row |}.

(** [sort_values('_score', ascending=False)]: the order among rows of
    equal score is not fixed by the default algorithm, so the model takes
    any routine that returns the rows by falling score. *)
Definition score_ge (a b : report_row) : Prop := _score b <= _score a.

Class SortScores : Type := {
  sort_values_score : list report_row -> list report_row;
  sort_values_score_perm : forall rows, sort_values_score rows ≡ₚ rows;
  sort_values_score_sorted :
    forall rows, Sorted score_ge (sort_values_score rows);
}.

End Scores.

Section Html.
Context {num : Type} {numbers : PyNum num} {lib : PyLib}
  {sorter : SortScores}.

(** The DataFrame of [generate_html] after its first two statements, for
    a DataFrame with at least one row. *)
Definition scored_rows (df : list report_row) : list report_row :=
  sort_values_score (map with_score df).

(** The [markers] list of [generate_html]: [Raise] when a [float] of the
    loop raises. *)
Definition generate_html_markers (df : list report_row)
  : outcome (list (marker (num := num))) :=
  markers_of (scored_rows df).

End Html.

End GenerateReport.

(** * Implementations of the interfaces for the worked examples

    The theorems hold for every implementation of [PyLib], [PyNum],
    [Kartverket], [Shapely] and [SortValues]; the ones below are used to
    run the model on concrete inputs. The string methods act on the ASCII
    letters and leave other characters as they are. The examples pass
    their own cluster id, so the digest is never consulted and is left as
    the identity. Numbers are exact rationals. *)

Module ExampleLib.

Definition is_upper (c : ascii) : bool :=
  let n := nat_of_ascii c in (65 <=? n) && (n <=? 90).

Definition is_lower (c : ascii) : bool :=
  let n := nat_of_ascii c in (97 <=? n) && (n <=? 122).

Definition to_lower (c : ascii) : ascii :=
  if is_upper c then ascii_of_nat (nat_of_ascii c + 32) else c.

Definition to_upper (c : ascii) : ascii :=
  if is_lower c then ascii_of_nat (nat_of_ascii c - 32) else c.

Fixpoint map_chars (f : ascii -> ascii) (s : string) : string :=
  match s with
  | EmptyString => EmptyString
  | String c s' => String (f c) (map_chars f s')
  end.

(** [str.title]: a letter that follows a letter is lowered, any other
    letter is raised. *)
Fixpoint title_from (after_letter : bool) (s : string) : string :=
  match s with
  | EmptyString => EmptyString
  | String c s' =>
      let letter := is_upper c || is_lower c in
      String (if after_letter then to_lower c else to_upper c)
             (title_from letter s')
  end.

Fixpoint lstrip (s : string) : string :=
  match s with
  | EmptyString => EmptyString
  | String c s' => if is_space c then lstrip s' else s
  end.

Definition strip (s : string) : string :=
  String.rev (lstrip (String.rev (lstrip s))).

#[global] Instance ascii_lib : PyLib := {|
  str_lower := map_chars to_lower;
  str_upper := map_chars to_upper;
  str_title := title_from false;
  str_strip := strip;
  md5_hexdigest := fun s => s;
|}.

(** Numbers: rationals, read from [-]digits[.digits]. *)
Definition digit_value (c : ascii) : option Z :=
  if is_ascii_digit c then Some (Z.of_nat (nat_of_ascii c - 48)) else None.

(** The value of a string of digits, read after [acc]. *)
Fixpoint read_digits (acc : Z) (s : string) : option Z :=
  match s with
  | EmptyString => Some acc
  | String c s' =>
      match digit_value c with
      | Some v => read_digits (10 * acc + v) s'
      | None => None
      end
  end.

(** Splits at the first full stop. *)
Fixpoint split_dot (s : string) : string * option string :=
  match s with
  | EmptyString => (EmptyString, None)
  | String c s' =>
      if Ascii.eqb c "."%char then (EmptyString, Some s')
      else let '(a, b) := split_dot s' in (String c a, b)
  end.

Definition read_unsigned (s : string) : option QArith_base.Q :=
  let '(whole, frac) := split_dot s in
  match whole with
  | EmptyString => None
  | _ =>
      match read_digits 0 whole, frac with
      | Some w, None => Some (QArith_base.inject_Z w)
      | Some w, Some f =>
          match read_digits w f with
          | Some v =>
              Some (QArith_base.Qmake v (Pos.of_nat (10 ^ String.length f)))
          | None => None
          end
      | None, _ => None
      end
  end.

Definition read_number (s : string) : option QArith_base.Q :=
  match s with
  | String "-"%char s' => QArith_base.Qopp <$> read_unsigned s'
  | _ => read_unsigned s
  end.

#[global] Instance q_num : PyNum QArith_base.Q := {|
  num_le := QArith_base.Qle_bool;
  num_add := QArith_base.Qplus;
  num_sub := QArith_base.Qminus;
  num_nonzero := fun x => negb (QArith_base.Qeq_bool x (QArith_base.inject_Z 0));
  num_of_Z := QArith_base.inject_Z;
  num_of_decimal := fun m places => QArith_base.Qmake m (Pos.of_nat (10 ^ places));
  num_int := fun x =>
    Some (Z.quot (QArith_base.Qnum x) (Zpos (QArith_base.Qden x)));
  pd_to_numeric := fun s =>
    match read_number s with Some q => FNum q | None => FNaN end;
  py_float := fun s =>
    match read_number s with
    | Some q => Some (FNum q)
    | None => if String.eqb s "nan" then Some FNaN else None
    end;
|}.

(** Geometry: a polygon is an axis-aligned box
    [(min_lon, min_lat, max_lon, max_lat)], containment is strict. *)
Definition box : Type :=
  QArith_base.Q * QArith_base.Q * QArith_base.Q * QArith_base.Q.

Definition Qlt_bool (x y : QArith_base.Q) : bool :=
  QArith_base.Qle_bool x y && negb (QArith_base.Qeq_bool x y).

#[global] Instance box_geometry : FilterCompanies.Shapely QArith_base.Q := {|
  FilterCompanies.polygon := box;
  FilterCompanies.point := QArith_base.Q * QArith_base.Q;
  FilterCompanies.bounds := fun b =>
    let '(min_lon, min_lat, max_lon, max_lat) := b in
    (FNum min_lon, FNum min_lat, FNum max_lon, FNum max_lat);
  FilterCompanies.Point := fun lon lat =>
    match lon, lat with
    | JNum x, JNum y => Ok (x, y)
    | _, _ => Raise TypeError
    end;
  FilterCompanies.contains := fun b pt =>
    let '(min_lon, min_lat, max_lon, max_lat) := b in
    Qlt_bool min_lon (fst pt) && Qlt_bool (fst pt) max_lon
    && Qlt_bool min_lat (snd pt) && Qlt_bool (snd pt) max_lat;
|}.

Section Sorting.
Context {num : Type}.

#[local] Instance source_le_dec :
  RelDecision (FilterCompanies.source_le (num := num)).
Proof. intros a b. unfold FilterCompanies.source_le. apply _. Defined.

#[local] Instance source_le_total :
  Total (FilterCompanies.source_le (num := num)).
Proof. intros a b. unfold FilterCompanies.source_le. apply total, _. Qed.

#[global] Instance merge_sort_values : FilterCompanies.SortValues num := {|
  FilterCompanies.sort_values_source := merge_sort FilterCompanies.source_le;
  FilterCompanies.sort_values_perm := merge_sort_Permutation _;
  FilterCompanies.sort_values_sorted := Sorted_merge_sort _;
|}.

End Sorting.

(** Rows by falling score, for [sort_values('_score', ascending=False)]. *)
#[local] Instance score_ge_dec : RelDecision GenerateReport.score_ge.
Proof. intros a b. unfold GenerateReport.score_ge. apply _. Defined.

#[local] Instance score_ge_total : Total GenerateReport.score_ge.
Proof. intros a b. unfold GenerateReport.score_ge. lia. Qed.

#[global] Instance merge_sort_scores : GenerateReport.SortScores := {|
  GenerateReport.sort_values_score := merge_sort GenerateReport.score_ge;
  GenerateReport.sort_values_score_perm := merge_sort_Permutation _;
  GenerateReport.sort_values_score_sorted := Sorted_merge_sort _;
|}.

End ExampleLib.

(** * Inputs of the worked examples *)

Module ExampleData.
Import GoogleSheets FilterCompanies ExampleLib.

(** ** Sheets and batches *)

(** A sheet row with an org number, a name and a status. *)
Definition sheet_row (orgnr navn status : string) : list string :=
  ["A1B2C3D4"; "skedsmo"; "2026-01-29 10:00"; orgnr; navn]
  ++ replicate 14 "" ++ [status; ""; ""; ""; ""].

(** A CSV row with an org number cell and a name. *)
Definition csv (orgnr : pyval) (navn : string) : df_row :=
  {[ "organisasjonsnummer" := orgnr; "navn" := PStr navn ]}.

(** One company. *)
Definition one_sheet : sheet :=
  [ALL_COLUMNS; sheet_row "912345678" "Acme As" "Interessert"].

(** The same org number on two rows, with different sales data. *)
Definition twice_sheet : sheet :=
  [ALL_COLUMNS;
   sheet_row "912345678" "Acme As" "Interessert";
   sheet_row "912345678" "Acme As" "Kontaktet"].

(** ** The address service and geocode caches *)

Definition Q := QArith_base.Q.

(** A candidate as the service lists it. *)
Definition candidate (la lo : Q) : json Q :=
  JDict [("adressetekst", JStr "Storgata 1");
         ("representasjonspunkt", JDict [("lat", JNum la); ("lon", JNum lo)])].

(** A service that knows one address, answers a second one with a
    candidate whose point is null, and finds nothing otherwise. *)
#[export] Instance service : Kartverket Q := {|
  kartverket_sok := fun _ req =>
    if String.eqb (sok req) "Storgata 1, 2000 Lillestrom" then
      Payload (JDict [("adresser",
                       JList [candidate (QArith_base.Qmake 5995 100)
                                        (QArith_base.Qmake 1105 100)])])
    else if String.eqb (sok req) "Ukjent vei 9, 2000 Lillestrom" then
      Payload (JDict [("adresser",
                       JList [JDict [("representasjonspunkt", JNull)]])])
    else Payload (JDict [("adresser", JList [])]);
|}.

Definition negative_entry : cache_entry Q :=
  {| lat := JNull; lon := JNull; timestamp := "2026-01-29" |}.

Definition warm : world Q :=
  {| cache := {[ "storgata 1|2000|lillestrom" := negative_entry ]};
     requests_sent := [] |}.

Definition cold : world Q :=
  {| cache := ∅; requests_sent := [] |}.

(** ** A registry, a postal table and an area *)

Definition reg (orgnr navn ansatte adr postnr sted : string) : reg_row :=
  {[ "organisasjonsnummer" := PStr orgnr; "navn" := PStr navn;
     "antallAnsatte" := PStr ansatte; "adresse" := PStr adr;
     "postnummer" := PStr postnr; "poststed" := PStr sted ]}.

Definition deg (hundredths : Z) : Q := QArith_base.Qmake hundredths 100.

(** A rectangle around Lillestrom: lon 11.00-11.10, lat 59.90-60.00. *)
Definition area : @polygon Q box_geometry :=
  (deg 1100, deg 5990, deg 1110, deg 6000).

Definition postal : list (postal_row Q) :=
  [ {| POSTNR := PStr "2000"; LAT := FNum (deg 5996); LON := FNum (deg 1104) |};
    {| POSTNR := PStr "9000"; LAT := FNum (deg 6965); LON := FNum (deg 1895) |} ].

Definition enheter : list reg_row :=
  [ reg "912345678" "ACME AS" "25" "Storgata 1" "2000" "Lillestrom";
    reg "900000001" "NORD AS" "5" "Havnegata 2" "9000" "Tromso" ].

(** A branch at the address of its parent, and a unit whose employee
    count is missing. *)
Definition underenheter : list reg_row :=
  [ reg "912345679" "ACME AVD" "12" "Storgata 1" "2000" "Lillestrom";
    reg "912345680" "ACME LAGER" "" "Storgata 1" "2000" "Lillestrom" ].

Definition acme : result Q :=
  {| organisasjonsnummer := PStr "912345678";
     navn := PStr "ACME AS";
     antallAnsatte := 25;
     adresse := "Storgata 1, 2000 Lillestrom";
     latitude := JNum (deg 5995);
     longitude := JNum (deg 1105);
     naeringskode := PNone;
     naeringskode_beskrivelse := PNone;
     source := "hovedenhet" |}.

Definition acme_branch : result Q :=
  {| organisasjonsnummer := PStr "912345679";
     navn := PStr "ACME AVD";
     antallAnsatte := 12;
     adresse := "Storgata 1, 2000 Lillestrom";
     latitude := JNum (deg 5995);
     longitude := JNum (deg 1105);
     naeringskode := PNone;
     naeringskode_beskrivelse := PNone;
     source := "underenhet" |}.

Definition run : outcome (option (list (result Q))) * world Q :=
  main area postal enheter underenheter 0 99999 "2026-01-30" cold.

(** ** Rows of a report *)


Definition latitude_only : gmap string pyval :=
  {[ "navn" := PStr "Nord As"; "antallAnsatte" := PStr "5";
     "adresse" := PStr "Havnegata 2, 9000 Tromso";
     "latitude" := PStr "69.65" ]}.

(** A rectangle east of the one address the service knows; the centre
    of postal code 2000 is within its margin. *)
Definition area_east : @polygon Q box_geometry :=
  (deg 1106, deg 5990, deg 1110, deg 6000).

(** ** The registry API *)

(** An API that knows one main unit, with a website and a phone number,
    and answers 404 for every other URL. *)
#[export] Instance registry_api : EnrichCompanies.Brreg Q := {|
  EnrichCompanies.requests_get := fun _ url =>
    if String.eqb url (EnrichCompanies.BRREG_API +:+ "/912345678") then
      EnrichCompanies.Response 200
        (Some (JDict [("hjemmeside", JStr "www.acme.no");
                      ("telefon", JStr "22 33 44 55")]))
    else EnrichCompanies.Response 404 None
|}.

(** The examples hold strings wherever a text is expected, so the text of
    other values is not looked at. *)
#[export] Instance no_repr : PyRepr Q := {|
  json_repr := fun _ => "<object>"
|}.

(** The enrichment of a batch that names one company twice and a second
    company the API does not know, with no cache file. *)
Definition batch : list (gmap string pyval) :=
  [ csv (PStr "912345678") "acme as";
    csv (PStr "912345678") "acme as";
    csv (PStr "999999999") "ukjent as" ].

Definition enrichment
  : outcome (list (EnrichCompanies.enriched Q)) * EnrichCompanies.world Q
    * gmap string (json Q) :=
  EnrichCompanies.main batch ∅ [].

(** ** Rows scored by the report generator *)

Definition report (navn bransje : string) (ansatte : Z) (la lo : string)
  : GenerateReport.report_row :=
  {| GenerateReport.cells :=
       {[ "navn" := PStr navn; "naeringskode_beskrivelse" := PStr bransje;
          "latitude" := PStr la; "longitude" := PStr lo ]};
     GenerateReport.antallAnsatte := ansatte;
     GenerateReport._score := 0 |}.

Definition campus : GenerateReport.report_row :=
  report "Universitetet i As" "Undervisning" 600 "59.66" "10.77".

Definition kiosk : GenerateReport.report_row :=
  report "Kiosken As" "Butikkhandel" 4 "59.67" "10.78".

(** A row whose latitude is no number. *)
Definition depot : GenerateReport.report_row :=
  report "Lageret As" "Lager og logistikk" 40 "ukjent" "10.80".

End ExampleData.

(** * Proofs *)

Section FormatPhone.
Import EnrichCompanies.

Lemma str_all_ascii_digit_is_digit s :
  str_all is_ascii_digit s = true -> str_all is_digit s = true.
Proof.
  induction s as [|c s IH]; simpl; [done|].
  intros [Hc Hs]%andb_prop. rewrite IH by done.
  unfold is_digit. unfold is_ascii_digit in Hc. rewrite Hc. done.
Qed.

Lemma ascii_digit_not_space c : is_ascii_digit c = true -> is_space c = false.
Proof.
  unfold is_ascii_digit, is_space.
  generalize (nat_of_ascii c); intros n Hn.
  apply andb_prop in Hn as [H1 H2].
  apply Nat.leb_le in H1, H2.
  repeat match goal with
  | |- context [?a <=? ?b] => destruct (Nat.leb_spec a b); try lia
  | |- context [?a =? ?b] => destruct (Nat.eqb_spec a b); try lia
  end; reflexivity.
Qed.

Lemma remove_whitespace_digits s :
  str_all is_ascii_digit s = true -> remove_whitespace s = s.
Proof.
  induction s as [|c s IH]; simpl; [done|].
  intros [Hc Hs]%andb_prop.
  rewrite (ascii_digit_not_space c Hc), IH; done.
Qed.

Lemma remove_whitespace_no_space s :
  str_all (fun c => negb (is_space c)) (remove_whitespace s) = true.
Proof.
  induction s as [|c s IH]; simpl; [done|].
  destruct (is_space c) eqn:E; simpl; [done|]. by rewrite E, IH.
Qed.

Lemma remove_whitespace_idemp s :
  remove_whitespace (remove_whitespace s) = remove_whitespace s.
Proof.
  induction s as [|c s IH]; simpl; [done|].
  destruct (is_space c) eqn:E; simpl; [done|]. by rewrite E, IH.
Qed.

(** C8. [format_phone] maps "12345678" to "+4712345678", maps
    "4712345678" to "+4712345678" and maps the empty string and None to
    None. On any other input it removes all whitespace; when what is left
    is eight digits it puts "+47" in front, when what is left is ten
    digits that start with "47" it puts "+" in front; the number it
    returns holds no whitespace. *)
Theorem format_phone_spec :
  format_phone (Some "12345678") = Some "+4712345678"
  /\ format_phone (Some "4712345678") = Some "+4712345678"
  /\ format_phone (Some "") = None
  /\ format_phone None = None
  /\ (forall p,
        String.length (remove_whitespace p) = 8 ->
        str_all is_ascii_digit (remove_whitespace p) = true ->
        format_phone (Some p) = Some ("+47" +:+ remove_whitespace p))
  /\ (forall p,
        String.length (remove_whitespace p) = 10 ->
        str_all is_ascii_digit (remove_whitespace p) = true ->
        startswith "47" (remove_whitespace p) = true ->
        format_phone (Some p) = Some ("+" +:+ remove_whitespace p))
  /\ (forall p, p <> "" ->
        exists q, format_phone (Some p) = Some q
                  /\ str_all (fun c => negb (is_space c)) q = true).
Proof.
  split_and!; try reflexivity.
  - intros p Hlen Hdig.
    destruct p as [|c p]; [done|]. unfold format_phone.
    set (t := remove_whitespace (String c p)) in *.
    rewrite Hlen. simpl (8 =? 10). rewrite andb_false_r. simpl (8 =? 8).
    unfold isdigit. destruct t as [|c' t']; [done|].
    by rewrite str_all_ascii_digit_is_digit.
  - intros p Hlen Hdig H47.
    destruct p as [|c p]; [done|]. unfold format_phone.
    set (t := remove_whitespace (String c p)) in *.
    by rewrite H47, Hlen.
  - intros p Hp. destruct p as [|c p]; [done|]. unfold format_phone.
    set (t := remove_whitespace (String c p)).
    pose proof (remove_whitespace_no_space (String c p)) as Hns. fold t in Hns.
    destruct (startswith "47" t && (String.length t =? 10)).
    { eexists. split; [done|]. simpl. exact Hns. }
    destruct ((String.length t =? 8) && isdigit t).
    { eexists. split; [done|]. simpl. exact Hns. }
    by exists t.
Qed.

Lemma format_phone_spec_witness :
  format_phone (Some "123 45 678") = Some "+4712345678"
  /\ format_phone (Some "47 12 34 56 78") = Some "+4712345678".
Proof.
  destruct format_phone_spec as (_ & _ & _ & _ & Hlocal & Hcountry & _).
  split.
  - apply (Hlocal "123 45 678"); reflexivity.
  - apply (Hcountry "47 12 34 56 78"); reflexivity.
Defined.

End FormatPhone.
(** ** Dictionaries and lists *)

Section DictFacts.
Context {V : Type}.
Implicit Types (d : dict V) (k : string) (v : V).

Lemma dict_get_set_eq k v d : dict_get k (dict_set k v d) = Some v.
Proof.
  induction d as [|[k' v'] d IH]; simpl.
  - by rewrite String.eqb_refl.
  - destruct (String.eqb k k') eqn:E; simpl; rewrite ?String.eqb_refl, ?E; done.
Qed.

Lemma dict_get_set_ne k k' v d :
  k <> k' -> dict_get k' (dict_set k v d) = dict_get k' d.
Proof.
  intros Hne. induction d as [|[k0 v0] d IH]; simpl.
  - apply String.eqb_neq in Hne. rewrite String.eqb_sym in Hne. by rewrite Hne.
  - destruct (String.eqb k k0) eqn:E; simpl.
    + apply String.eqb_eq in E as <-.
      assert (String.eqb k' k = false) as ->; [|done].
      apply String.eqb_neq. congruence.
    + by rewrite IH.
Qed.

Lemma dict_get_elem_of k v d : dict_get k d = Some v -> (k, v) ∈ d.
Proof.
  induction d as [|[k' v'] d IH]; simpl; [done|].
  destruct (String.eqb k k') eqn:E.
  - apply String.eqb_eq in E as <-. intros [= <-]. left.
  - intros Hd. right. auto.
Qed.

(** The keys of a dict built with [dict_set] stay distinct. *)
Lemma dict_set_keys_NoDup k v d :
  NoDup (d.*1) -> NoDup ((dict_set k v d).*1).
Proof.
  induction d as [|[k' v'] d IH]; simpl; intros Hnd.
  - apply NoDup_singleton.
  - apply NoDup_cons in Hnd as [Hk' Hnd].
    destruct (String.eqb k k') eqn:E; simpl.
    + apply String.eqb_eq in E as ->. by apply NoDup_cons.
    + apply NoDup_cons. split; [|by apply IH].
      intros Hin. apply Hk'. clear -Hin E.
      induction d as [|[k0 v0] d IH]; simpl in *.
      * apply list_elem_of_singleton in Hin as ->.
        by rewrite String.eqb_refl in E.
      * destruct (String.eqb k k0) eqn:E0; simpl in *.
        -- apply String.eqb_eq in E0 as <-. done.
        -- apply elem_of_cons in Hin as [->|Hin]; [left|right; auto].
Qed.

Lemma dict_get_NoDup_elem_of k v d :
  NoDup (d.*1) -> (k, v) ∈ d -> dict_get k d = Some v.
Proof.
  induction d as [|[k' v'] d IH]; simpl; intros Hnd Hin.
  - by apply elem_of_nil in Hin.
  - apply NoDup_cons in Hnd as [Hk' Hnd].
    apply elem_of_cons in Hin as [[= <- <-]|Hin].
    + by rewrite String.eqb_refl.
    + destruct (String.eqb k k') eqn:E; [|by apply IH].
      apply String.eqb_eq in E as <-. exfalso. apply Hk'.
      apply list_elem_of_fmap. by exists (k, v).
Qed.

Lemma dict_get_fold_set k (l : list (string * V)) d :
  dict_get k (fold_left (fun d kv => dict_set (fst kv) (snd kv) d) l d)
  = match assoc_last k l with Some v => Some v | None => dict_get k d end.
Proof.
  revert d. induction l as [|[k' v'] l IH]; intros d; simpl; [done|].
  rewrite IH. destruct (assoc_last k l); [done|].
  destruct (String.eqb k k') eqn:E.
  - apply String.eqb_eq in E as <-. apply dict_get_set_eq.
  - apply dict_get_set_ne. apply String.eqb_neq in E. congruence.
Qed.

Lemma assoc_last_zip k (ks : list string) (vs : list V) :
  NoDup ks -> k ∈ ks -> length ks <= length vs ->
  assoc_last k (zip ks vs) = vs !! py_index k ks.
Proof.
  revert vs. induction ks as [|k0 ks IH]; intros vs Hnd Hin Hlen.
  - by apply elem_of_nil in Hin.
  - destruct vs as [|v vs]; simpl in *; [lia|].
    apply NoDup_cons in Hnd as [Hk0 Hnd].
    destruct (String.eqb k k0) eqn:E.
    + apply String.eqb_eq in E as ->.
      assert (assoc_last k0 (zip ks vs) = None) as ->; [|done].
      clear -Hk0. revert vs. induction ks as [|k1 ks IH]; intros [|v1 vs];
        simpl; try done.
      rewrite IH by (intros ?; apply Hk0; by right).
      destruct (String.eqb k0 k1) eqn:E; [|done].
      apply String.eqb_eq in E as <-. exfalso. apply Hk0. left.
    + apply elem_of_cons in Hin as [->|Hin].
      { by rewrite String.eqb_refl in E. }
      rewrite IH by (done || lia).
      destruct (vs !! py_index k ks) eqn:Hl; [done|].
      apply lookup_ge_None in Hl.
      assert (py_index k ks < length ks); [|lia].
      clear -Hin. induction ks as [|k1 ks IH]; simpl.
      * by apply elem_of_nil in Hin.
      * destruct (String.eqb k k1) eqn:E; [lia|].
        apply elem_of_cons in Hin as [->|Hin].
        -- by rewrite String.eqb_refl in E.
        -- specialize (IH Hin). lia.
Qed.

Lemma dict_get_zip k (ks : list string) (vs : list V) :
  NoDup ks -> k ∈ ks -> length ks <= length vs ->
  dict_get k (dict_zip ks vs) = vs !! py_index k ks.
Proof.
  intros. unfold dict_zip. rewrite dict_get_fold_set.
  rewrite assoc_last_zip by done. by destruct (vs !! py_index k ks).
Qed.

End DictFacts.

Lemma py_index_lt k (ks : list string) : k ∈ ks -> py_index k ks < length ks.
Proof.
  induction ks as [|k1 ks IH]; simpl; intros Hin.
  - by apply elem_of_nil in Hin.
  - destruct (String.eqb k k1) eqn:E; [lia|].
    apply elem_of_cons in Hin as [->|Hin].
    + by rewrite String.eqb_refl in E.
    + specialize (IH Hin). lia.
Qed.

Lemma nth_py_index_map {B} (f : string -> B) k (ks : list string) (dflt : B) :
  k ∈ ks -> nth (py_index k ks) (map f ks) dflt = f k.
Proof.
  induction ks as [|k1 ks IH]; simpl; intros Hin.
  - by apply elem_of_nil in Hin.
  - destruct (String.eqb k k1) eqn:E.
    + by apply String.eqb_eq in E as ->.
    + apply elem_of_cons in Hin as [->|Hin]; [|auto].
      by rewrite String.eqb_refl in E.
Qed.

Lemma str_in_true x (l : list string) : str_in x l = true <-> x ∈ l.
Proof.
  unfold str_in. rewrite existsb_exists. split.
  - intros (y & Hy & ->%String.eqb_eq). by apply list_elem_of_In.
  - intros Hin. exists x. split; [by apply list_elem_of_In|apply String.eqb_refl].
Qed.

Lemma str_in_false x (l : list string) : str_in x l = false <-> x ∉ l.
Proof.
  rewrite <- str_in_true. destruct (str_in x l); split; congruence.
Qed.

(** ** The stable sort is a permutation *)

Lemma insert_by_Permutation {A} (key : A -> string) x (l : list A) :
  insert_by key x l ≡ₚ x :: l.
Proof.
  induction l as [|y l IH]; simpl; [done|].
  destruct (String.leb (key x) (key y)); [done|].
  rewrite IH. apply Permutation_swap.
Qed.

Lemma stable_sort_by_Permutation {A} (key : A -> string) (l : list A) :
  stable_sort_by key l ≡ₚ l.
Proof.
  induction l as [|x l IH]; simpl; [done|].
  rewrite insert_by_Permutation. by rewrite IH.
Qed.

(** ** google_sheets.py: the merge *)

Section SheetFacts.
Import GoogleSheets.

Lemma ALL_COLUMNS_NoDup : NoDup ALL_COLUMNS.
Proof. apply (bool_decide_unpack _). vm_compute. exact I. Qed.

Lemma ALL_COLUMNS_length : length ALL_COLUMNS = 24.
Proof. reflexivity. Qed.

Lemma SALES_in_ALL col : col ∈ SALES_COLUMNS -> col ∈ ALL_COLUMNS.
Proof. intros. unfold ALL_COLUMNS. apply elem_of_app. by right. Qed.

Lemma SCRIPT_in_ALL col : col ∈ SCRIPT_COLUMNS -> col ∈ ALL_COLUMNS.
Proof. intros. unfold ALL_COLUMNS. apply elem_of_app. by left. Qed.

Lemma ensure_headers_shape s : _ensure_headers s = ALL_COLUMNS :: data_rows s.
Proof.
  unfold _ensure_headers, _get_sheet_data, data_rows.
  destruct s as [|header rows]; simpl; [done|].
  case_decide; by subst.
Qed.

Lemma row_dict_get col row :
  col ∈ ALL_COLUMNS -> dict_get_default col "" (row_dict row) = cell col row.
Proof.
  intros Hin. unfold dict_get_default, row_dict, cell.
  pose proof (py_index_lt col ALL_COLUMNS Hin) as Hlt.
  rewrite dict_get_zip; [|apply ALL_COLUMNS_NoDup|done|].
  2:{ rewrite length_app, length_replicate. lia. }
  set (i := py_index col ALL_COLUMNS) in *.
  destruct (decide (i < length row)) as [Hi|Hi].
  - rewrite lookup_app_l by done.
    destruct (lookup_lt_is_Some_2 row i Hi) as [x Hx]. rewrite Hx. simpl.
    symmetry. apply nth_lookup_Some with (d := ""). done.
  - rewrite lookup_app_r by lia.
    rewrite lookup_replicate_2 by lia. simpl.
    symmetry. apply nth_overflow. lia.
Qed.

Lemma to_sheet_row_cell col d :
  col ∈ ALL_COLUMNS -> cell col (to_sheet_row d) = dict_get_default col "" d.
Proof.
  intros Hin. unfold cell, to_sheet_row.
  by apply (nth_py_index_map (fun c => dict_get_default c "" d)).
Qed.

Lemma to_sheet_row_length d : length (to_sheet_row d) = 24.
Proof. unfold to_sheet_row. by rewrite length_map. Qed.

(** The org number the sync reads off a sheet row. *)
Lemma row_key row :
  dict_get_default "organisasjonsnummer" "" (row_dict row)
  = cell "organisasjonsnummer" row.
Proof. apply row_dict_get. vm_compute. set_solver. Qed.

Lemma build_existing_map_fold rows :
  build_existing_map (ALL_COLUMNS :: rows) = fold_left map_step rows [].
Proof.
  unfold build_existing_map.
  destruct rows as [|row rows]; [done|].
  change (1 <? length (ALL_COLUMNS :: row :: rows)) with true. cbv iota.
  generalize (row :: rows) (@nil (string * dict string)). clear.
  intros rows. induction rows as [|r rows IH]; intros m; simpl; [done|].
  rewrite IH. f_equal. unfold map_step.
  rewrite <- row_key. reflexivity.
Qed.

Lemma map_step_other X rows m :
  (forall r, r ∈ rows -> cell "organisasjonsnummer" r <> X) ->
  dict_get X (fold_left map_step rows m) = dict_get X m.
Proof.
  revert m. induction rows as [|r rows IH]; intros m Hno; simpl; [done|].
  rewrite IH by (intros; apply Hno; by right).
  unfold map_step. destruct (String.eqb _ "") eqn:E; [done|].
  apply dict_get_set_ne. apply Hno. left.
Qed.

(** The mapping holds, for an org number, the last sheet row that carries it. *)
Lemma existing_map_last before r after :
  cell "organisasjonsnummer" r <> "" ->
  (forall r', r' ∈ after ->
     cell "organisasjonsnummer" r' <> cell "organisasjonsnummer" r) ->
  dict_get (cell "organisasjonsnummer" r)
    (build_existing_map (ALL_COLUMNS :: before ++ r :: after))
  = Some (row_dict r).
Proof.
  intros Hkey Hafter. rewrite build_existing_map_fold.
  rewrite fold_left_app. simpl.
  rewrite map_step_other by done.
  unfold map_step at 1. apply String.eqb_neq in Hkey. rewrite Hkey.
  apply dict_get_set_eq.
Qed.

(** An org number that no sheet row carries is not in the mapping. *)
Lemma existing_map_absent X rows :
  (forall r, r ∈ rows -> cell "organisasjonsnummer" r <> X) ->
  dict_get X (build_existing_map (ALL_COLUMNS :: rows)) = None.
Proof.
  intros Hno. rewrite build_existing_map_fold. by rewrite map_step_other.
Qed.

(** Conversely, an entry of the mapping is the last sheet row of its key. *)
Lemma existing_map_Some X e rows :
  dict_get X (build_existing_map (ALL_COLUMNS :: rows)) = Some e ->
  exists before r after,
    rows = before ++ r :: after /\ cell "organisasjonsnummer" r = X /\ X <> ""
    /\ e = row_dict r
    /\ (forall r', r' ∈ after -> cell "organisasjonsnummer" r' <> X).
Proof.
  rewrite build_existing_map_fold.
  induction rows as [|r rows IH] using rev_ind; [done|].
  rewrite fold_left_app. simpl. unfold map_step at 1.
  destruct (String.eqb (cell "organisasjonsnummer" r) "") eqn:E.
  - intros Hget. destruct (IH Hget) as (b & r0 & a & -> & Hk & HX & -> & Hno).
    exists b, r0, (a ++ [r]). rewrite <- app_assoc. simpl.
    repeat split; try done.
    intros r' [Hin| ->%list_elem_of_singleton]%elem_of_app; [by apply Hno|].
    apply String.eqb_eq in E. congruence.
  - destruct (decide (cell "organisasjonsnummer" r = X)) as [Hr|Hr].
    + rewrite Hr, dict_get_set_eq. intros [= <-].
      exists rows, r, []. repeat split; try done.
      * apply String.eqb_neq in E. congruence.
      * intros r' Hin. by apply elem_of_nil in Hin.
    + rewrite dict_get_set_ne by done. intros Hget.
      destruct (IH Hget) as (b & r0 & a & -> & Hk & HX & -> & Hno).
      exists b, r0, (a ++ [r]). rewrite <- app_assoc. simpl.
      repeat split; try done.
      intros r' [Hin| ->%list_elem_of_singleton]%elem_of_app; [by apply Hno|done].
Qed.

Lemma build_existing_map_keys_NoDup existing_data :
  NoDup ((build_existing_map existing_data).*1).
Proof.
  unfold build_existing_map. destruct (1 <? length existing_data); [|constructor].
  destruct existing_data as [|headers rows]; [constructor|].
  cut (forall m : dict (dict string), NoDup (m.*1) ->
    NoDup ((fold_left
      (fun existing_map row =>
         let row_padded := row ++ replicate (length headers - length row) "" in
         let row_dict := dict_zip headers row_padded in
         let orgnr := dict_get_default "organisasjonsnummer" "" row_dict in
         if String.eqb orgnr "" then existing_map
         else dict_set orgnr row_dict existing_map) rows m).*1)).
  { intros Hcut. apply Hcut. constructor. }
  induction rows as [|r rows IH]; intros m Hm; simpl; [done|].
  apply IH. destruct (String.eqb _ ""); [done|by apply dict_set_keys_NoDup].
Qed.

Section WithLib.
Context {lib : PyLib}.

Lemma csv_loop_new_rows cid area ts em df st :
  new_rows (fold_left (csv_step cid area ts em) df st)
  = new_rows st ++ csv_sheet_rows cid area ts em df.
Proof.
  revert st. induction df as [|csv_row df IH]; intros st; simpl.
  - by rewrite app_nil_r.
  - rewrite IH. unfold csv_step at 1.
    destruct (String.eqb (csv_orgnr csv_row) "") eqn:E; simpl; [done|].
    by rewrite <- app_assoc.
Qed.

Lemma csv_sheet_row_eq cid area ts em csv_row :
  csv_sheet_row cid area ts em csv_row
  = [cid; area; ts]
    ++ map (fun col => script_value col csv_row) (drop 3 SCRIPT_COLUMNS)
    ++ sales_values em (csv_orgnr csv_row).
Proof.
  unfold csv_sheet_row, build_row_data, sales_values.
  destruct (dict_get (csv_orgnr csv_row) em) as [existing|]; reflexivity.
Qed.

Lemma csv_sheet_row_script cid area ts em csv_row col :
  col ∈ drop 3 SCRIPT_COLUMNS ->
  cell col (csv_sheet_row cid area ts em csv_row) = script_value col csv_row.
Proof.
  intros Hin. rewrite csv_sheet_row_eq.
  generalize (sales_values em (csv_orgnr csv_row)). intros sv.
  set (f := fun c => script_value c csv_row).
  change (script_value col csv_row) with (f col). clearbody f.
  unfold cell. unfold SCRIPT_COLUMNS in Hin. simpl in Hin.
  repeat (apply elem_of_cons in Hin as [->|Hin]; [reflexivity|]).
  by apply elem_of_nil in Hin.
Qed.

Lemma csv_sheet_row_cluster cid area ts em csv_row :
  cell "cluster_id" (csv_sheet_row cid area ts em csv_row) = cid
  /\ cell "cluster_name" (csv_sheet_row cid area ts em csv_row) = area
  /\ cell "import_timestamp" (csv_sheet_row cid area ts em csv_row) = ts.
Proof. rewrite csv_sheet_row_eq. repeat split. Qed.

Lemma csv_sheet_row_sales_existing cid area ts em csv_row existing col :
  dict_get (csv_orgnr csv_row) em = Some existing ->
  col ∈ SALES_COLUMNS ->
  cell col (csv_sheet_row cid area ts em csv_row)
  = dict_get_default col "" existing.
Proof.
  intros Hget Hin. rewrite csv_sheet_row_eq. unfold sales_values. rewrite Hget.
  generalize (fun col => script_value col csv_row). intros f.
  set (g := fun c => dict_get_default c "" existing).
  change (dict_get_default col "" existing) with (g col). clearbody g.
  unfold cell. unfold SALES_COLUMNS in Hin.
  repeat (apply elem_of_cons in Hin as [->|Hin]; [reflexivity|]).
  by apply elem_of_nil in Hin.
Qed.

Lemma csv_sheet_row_sales_new cid area ts em csv_row :
  dict_get (csv_orgnr csv_row) em = None ->
  map (fun col => cell col (csv_sheet_row cid area ts em csv_row)) SALES_COLUMNS
  = ["not started yet"; ""; ""; ""; ""].
Proof.
  intros Hget. rewrite csv_sheet_row_eq. unfold sales_values. rewrite Hget.
  reflexivity.
Qed.

(** The rows the sync writes below the header. *)
Lemma sync_rows s df area cid now :
  let cid' := resolve_cluster_id area cid in
  let em := build_existing_map (ALL_COLUMNS :: data_rows s) in
  data_rows (sync_companies s df area cid now).1
  ≡ₚ csv_sheet_rows cid' area now em df
     ++ preserved_rows em (map csv_orgnr df).
Proof.
  intros cid' em. unfold sync_companies, data_rows at 1. simpl.
  rewrite stable_sort_by_Permutation, csv_loop_new_rows. simpl.
  unfold _get_sheet_data. rewrite ensure_headers_shape. done.
Qed.

Lemma sync_header s df area cid now :
  head (sync_companies s df area cid now).1 = Some ALL_COLUMNS.
Proof. reflexivity. Qed.

End WithLib.
End SheetFacts.

(** ** google_sheets.py: what a sync keeps *)

Section SheetClaims.
Import GoogleSheets.
Context {lib : PyLib}.

(** A preserved row carries the org number it is filed under. *)
Lemma preserved_rows_elem em csv_orgnrs out :
  out ∈ preserved_rows em csv_orgnrs ->
  exists K e, (K, e) ∈ em /\ (K ∉ csv_orgnrs) /\ out = to_sheet_row e.
Proof.
  unfold preserved_rows. intros ([K e] & Hin & Hout)%list_elem_of_omap.
  simpl in Hout. destruct (str_in K csv_orgnrs) eqn:E; [done|].
  injection Hout as <-. exists K, e. split; [done|]. split; [|done].
  by apply str_in_false.
Qed.

Lemma to_sheet_row_row_dict_cell col r :
  col ∈ ALL_COLUMNS -> cell col (to_sheet_row (row_dict r)) = cell col r.
Proof. intros. by rewrite to_sheet_row_cell, row_dict_get. Qed.

Lemma csv_sheet_rows_elem cid area ts em df out :
  out ∈ csv_sheet_rows cid area ts em df <->
  exists csv_row, csv_row ∈ df /\ csv_orgnr csv_row <> ""
    /\ out = csv_sheet_row cid area ts em csv_row.
Proof.
  unfold csv_sheet_rows. rewrite list_elem_of_omap. split.
  - intros (csv_row & Hin & Hout). exists csv_row.
    destruct (String.eqb (csv_orgnr csv_row) "") eqn:E; [done|].
    apply String.eqb_neq in E. by injection Hout as <-.
  - intros (csv_row & Hin & Hne & ->). exists csv_row. split; [done|].
    apply String.eqb_neq in Hne. by rewrite Hne.
Qed.

(** The org number cell written for a CSV row is its key, or blank. *)
Lemma script_value_orgnr csv_row :
  script_value "organisasjonsnummer" csv_row = csv_orgnr csv_row
  \/ script_value "organisasjonsnummer" csv_row = "".
Proof.
  unfold script_value, csv_orgnr.
  destruct (df_get "organisasjonsnummer" csv_row); simpl; auto.
Qed.

(** C1 (amended). For every sync run and every org number present both
    in a row of the incoming batch and in rows of the sheet, the sync
    writes a row with that org number that keeps the five sales columns
    exactly as they were on the last sheet row with that org number, and
    whose pipeline columns are computed from the incoming row: the
    cluster id and area name of the run, the import timestamp, and the
    script value of every other column. Every written row with that org
    number is such a merge of a batch row with the sales columns of that
    last sheet row. *)
Theorem sync_keeps_sales_of_last_row
    (s : sheet) (df : list df_row) (area cid now : string)
    (before : list (list string)) (r : list string)
    (after : list (list string)) (csv_row : df_row) (orgnr : string) :
  data_rows s = before ++ r :: after ->
  csv_row ∈ df ->
  df_get "organisasjonsnummer" csv_row = PStr orgnr ->
  orgnr <> "" ->
  cell "organisasjonsnummer" r = orgnr ->
  (forall r', r' ∈ after -> cell "organisasjonsnummer" r' <> orgnr) ->
  let written := data_rows (sync_companies s df area cid now).1 in
  let merged (row : df_row) (out : list string) :=
    cell "organisasjonsnummer" out = orgnr
    /\ (forall col, col ∈ SALES_COLUMNS -> cell col out = cell col r)
    /\ cell "cluster_id" out = resolve_cluster_id area cid
    /\ cell "cluster_name" out = area
    /\ cell "import_timestamp" out = now
    /\ (forall col, col ∈ drop 3 SCRIPT_COLUMNS ->
          cell col out = script_value col row) in
  (exists out, out ∈ written /\ merged csv_row out)
  /\ (forall out, out ∈ written ->
        cell "organisasjonsnummer" out = orgnr ->
        exists row, row ∈ df /\ merged row out).
Proof.
  intros Hrows Hdf Hcell Hkey Hr Hafter written merged.
  assert (Hcsv : csv_orgnr csv_row = orgnr).
  { unfold csv_orgnr. by rewrite Hcell. }
  set (cid' := resolve_cluster_id area cid).
  set (em := build_existing_map (ALL_COLUMNS :: data_rows s)).
  assert (Hem : dict_get orgnr em = Some (row_dict r)).
  { unfold em. rewrite Hrows, <- Hr. apply existing_map_last.
    - by rewrite Hr.
    - intros r' Hin. rewrite Hr. by apply Hafter. }
  assert (Hmerged : forall row,
            csv_orgnr row = orgnr ->
            cell "organisasjonsnummer" (csv_sheet_row cid' area now em row)
            = orgnr ->
            merged row (csv_sheet_row cid' area now em row)).
  { intros row Hrow Hout. unfold merged.
    destruct (csv_sheet_row_cluster cid' area now em row) as (-> & -> & ->).
    split_and!; try done.
    - intros col Hcol.
      rewrite (csv_sheet_row_sales_existing _ _ _ _ _ (row_dict r)); try done.
      + apply row_dict_get. by apply SALES_in_ALL.
      + by rewrite Hrow.
    - intros col Hcol. by apply csv_sheet_row_script. }
  split.
  - exists (csv_sheet_row cid' area now em csv_row). split.
    + unfold written. rewrite sync_rows. apply elem_of_app. left.
      apply csv_sheet_rows_elem. exists csv_row. by rewrite Hcsv.
    + apply Hmerged; [done|].
      rewrite csv_sheet_row_script by (vm_compute; set_solver).
      unfold script_value. by rewrite Hcell.
  - intros out Hout Hoc. unfold written in Hout. rewrite sync_rows in Hout.
    apply elem_of_app in Hout as [Hout|Hout].
    + apply csv_sheet_rows_elem in Hout as (row & Hrow & Hne & ->).
      assert (csv_orgnr row = orgnr) as Hsame.
      { pose proof Hoc as Hoc'.
        rewrite csv_sheet_row_script in Hoc' by (vm_compute; set_solver).
        destruct (script_value_orgnr row) as [E|E]; congruence. }
      exists row. split; [done|]. by apply Hmerged.
    + exfalso.
      apply preserved_rows_elem in Hout as (K & e & Hin & HK & ->).
      apply dict_get_NoDup_elem_of in Hin;
        [|apply build_existing_map_keys_NoDup].
      apply existing_map_Some in Hin as (b & r0 & a & _ & Hk0 & _ & -> & _).
      rewrite to_sheet_row_row_dict_cell in Hoc by (vm_compute; set_solver).
      apply HK. rewrite <- Hk0, Hoc, <- Hcsv.
      apply list_elem_of_fmap. by exists csv_row.
Qed.


End SheetClaims.

(** ** google_sheets.py: syncing the same batch twice *)

Section SyncTwice.
Import GoogleSheets.
Context {lib : PyLib}.

Lemma to_sheet_row_row_dict r :
  length r = 24 -> to_sheet_row (row_dict r) = r.
Proof.
  intros Hlen.
  do 24 (destruct r as [|? r]; [done|]).
  destruct r; [|done]. reflexivity.
Qed.

(** When some row carries the org number, the mapping holds one of them. *)
Lemma existing_map_has X rows :
  X <> "" ->
  (exists r, r ∈ rows /\ cell "organisasjonsnummer" r = X) ->
  exists r, r ∈ rows /\ cell "organisasjonsnummer" r = X
    /\ dict_get X (build_existing_map (ALL_COLUMNS :: rows)) = Some (row_dict r).
Proof.
  intros HX. rewrite build_existing_map_fold.
  induction rows as [|r0 rows IH] using rev_ind.
  - intros (r & Hr & _). by apply elem_of_nil in Hr.
  - intros (r & Hr & Hkey). rewrite fold_left_app. simpl.
    destruct (decide (cell "organisasjonsnummer" r0 = X)) as [Hr0|Hr0].
    + exists r0. split_and!; [apply elem_of_app; right; left|done|].
      unfold map_step. rewrite Hr0.
      apply String.eqb_neq in HX. rewrite HX. apply dict_get_set_eq.
    + apply elem_of_app in Hr as [Hr| ->%list_elem_of_singleton]; [|done].
      destruct IH as (r1 & Hr1 & Hk1 & Hget); [by exists r|].
      exists r1. split_and!; [apply elem_of_app; by left|done|].
      unfold map_step. destruct (String.eqb _ ""); [done|].
      by rewrite dict_get_set_ne.
Qed.

(** An entry of the mapping is filed under the org number of its row. *)
Lemma existing_map_entry_key rows K e :
  (K, e) ∈ build_existing_map (ALL_COLUMNS :: rows) ->
  K <> "" /\ cell "organisasjonsnummer" (to_sheet_row e) = K
  /\ exists r, r ∈ rows /\ e = row_dict r.
Proof.
  intros Hin.
  apply dict_get_NoDup_elem_of in Hin; [|apply build_existing_map_keys_NoDup].
  apply existing_map_Some in Hin as (b & r & a & -> & Hk & HK & -> & _).
  split_and!; [done| |].
  - rewrite to_sheet_row_row_dict_cell by (vm_compute; set_solver). done.
  - exists r. split; [|done]. apply elem_of_app. right. left.
Qed.

(** Two preserved rows with one org number are one row. *)
Lemma preserved_rows_inj rows csv_orgnrs x y :
  let em := build_existing_map (ALL_COLUMNS :: rows) in
  x ∈ preserved_rows em csv_orgnrs -> y ∈ preserved_rows em csv_orgnrs ->
  cell "organisasjonsnummer" x = cell "organisasjonsnummer" y -> x = y.
Proof.
  intros em (K1 & e1 & Hin1 & _ & ->)%preserved_rows_elem
            (K2 & e2 & Hin2 & _ & ->)%preserved_rows_elem Hkey.
  destruct (existing_map_entry_key _ _ _ Hin1) as (_ & Hk1 & _).
  destruct (existing_map_entry_key _ _ _ Hin2) as (_ & Hk2 & _).
  assert (K1 = K2) as <- by congruence.
  apply dict_get_NoDup_elem_of in Hin1, Hin2;
    try apply build_existing_map_keys_NoDup.
  congruence.
Qed.

Lemma preserved_rows_cons K e em csv_orgnrs :
  preserved_rows ((K, e) :: em) csv_orgnrs
  = if str_in K csv_orgnrs then preserved_rows em csv_orgnrs
    else to_sheet_row e :: preserved_rows em csv_orgnrs.
Proof. unfold preserved_rows. simpl. by destruct (str_in K csv_orgnrs). Qed.

Lemma preserved_rows_NoDup rows csv_orgnrs :
  NoDup (preserved_rows (build_existing_map (ALL_COLUMNS :: rows)) csv_orgnrs).
Proof.
  pose proof (build_existing_map_keys_NoDup (ALL_COLUMNS :: rows)) as Hnd.
  assert (Hkeys : forall K e,
    (K, e) ∈ build_existing_map (ALL_COLUMNS :: rows) ->
    cell "organisasjonsnummer" (to_sheet_row e) = K).
  { intros K e Hin. by destruct (existing_map_entry_key _ _ _ Hin) as (_ & ? & _). }
  revert Hnd Hkeys. generalize (build_existing_map (ALL_COLUMNS :: rows)).
  intros em. induction em as [|[K e] em IH]; intros Hnd Hkeys.
  - constructor.
  - rewrite fmap_cons in Hnd. apply NoDup_cons in Hnd as [HK Hnd].
    assert (NoDup (preserved_rows em csv_orgnrs)) as IH'.
    { apply IH; [done|]. intros K' e' Hin. apply Hkeys. by right. }
    rewrite preserved_rows_cons.
    destruct (str_in K csv_orgnrs); [done|].
    apply NoDup_cons. split; [|done].
    intros (K' & e' & Hin & _ & Hout)%preserved_rows_elem.
    apply HK. apply list_elem_of_fmap. exists (K', e'). split; [|done].
    change ((K, e).1) with K. change ((K', e').1) with K'.
    rewrite <- (Hkeys K e) by left. rewrite Hout.
    apply Hkeys. by right.
Qed.

(** The sales cells of a row written for a CSV row. *)
Lemma csv_sheet_row_sales cid area ts em csv_row :
  map (fun col => cell col (csv_sheet_row cid area ts em csv_row)) SALES_COLUMNS
  = sales_values em (csv_orgnr csv_row).
Proof.
  rewrite csv_sheet_row_eq. unfold sales_values.
  destruct (dict_get (csv_orgnr csv_row) em); reflexivity.
Qed.

Lemma csv_sheet_row_length cid area ts em csv_row :
  length (csv_sheet_row cid area ts em csv_row) = 24.
Proof. apply to_sheet_row_length. Qed.

Lemma csv_sheet_row_without_timestamp cid area ts1 ts2 em1 em2 csv_row :
  sales_values em2 (csv_orgnr csv_row) = sales_values em1 (csv_orgnr csv_row) ->
  without_timestamp (csv_sheet_row cid area ts2 em2 csv_row)
  = without_timestamp (csv_sheet_row cid area ts1 em1 csv_row).
Proof. intros Hs. rewrite !csv_sheet_row_eq, Hs. reflexivity. Qed.

Lemma csv_sheet_rows_without_timestamp cid area ts1 ts2 em1 em2 l :
  (forall csv_row, csv_row ∈ l -> csv_orgnr csv_row <> "" ->
     sales_values em2 (csv_orgnr csv_row) = sales_values em1 (csv_orgnr csv_row)) ->
  map without_timestamp (csv_sheet_rows cid area ts2 em2 l)
  = map without_timestamp (csv_sheet_rows cid area ts1 em1 l).
Proof.
  unfold csv_sheet_rows.
  induction l as [|csv_row l IH]; intros Hall; simpl; [done|].
  destruct (String.eqb (csv_orgnr csv_row) "") eqn:E.
  - apply IH. intros; apply Hall; [by right|done].
  - simpl. f_equal.
    + apply csv_sheet_row_without_timestamp, Hall; [left|].
      by apply String.eqb_neq.
    + apply IH. intros; apply Hall; [by right|done].
Qed.

Section Run.
Variables (s : sheet) (df : list df_row) (area cid now1 now2 : string).

(** Every org number cell of the batch holds a string. *)
Hypothesis batch_keys_present :
  forall csv_row, csv_row ∈ df ->
    isna (df_get "organisasjonsnummer" csv_row) = false.

Local Abbreviation cid' := (resolve_cluster_id area cid).
Local Abbreviation em1 := (build_existing_map (ALL_COLUMNS :: data_rows s)).
Local Abbreviation s1 := ((sync_companies s df area cid now1).1).
Local Abbreviation em2 := (build_existing_map (ALL_COLUMNS :: data_rows s1)).
Local Abbreviation orgnrs := (map csv_orgnr df).

Lemma batch_row_key csv_row ts em :
  csv_row ∈ df ->
  cell "organisasjonsnummer" (csv_sheet_row cid' area ts em csv_row)
  = csv_orgnr csv_row.
Proof.
  intros Hin. rewrite csv_sheet_row_script by (vm_compute; set_solver).
  specialize (batch_keys_present csv_row Hin).
  unfold script_value, csv_orgnr.
  destruct (df_get "organisasjonsnummer" csv_row); done.
Qed.

Lemma first_run_rows r :
  r ∈ data_rows s1 <->
  r ∈ csv_sheet_rows cid' area now1 em1 df \/ r ∈ preserved_rows em1 orgnrs.
Proof. rewrite sync_rows. apply elem_of_app. Qed.

(** After the first run the mapping gives a batch org number the sales
    cells the first run wrote for it. *)
Lemma second_run_sales csv_row :
  csv_row ∈ df -> csv_orgnr csv_row <> "" ->
  sales_values em2 (csv_orgnr csv_row) = sales_values em1 (csv_orgnr csv_row).
Proof.
  intros Hin Hkey.
  destruct (existing_map_has (csv_orgnr csv_row) (data_rows s1) Hkey)
    as (r & Hr & Hrk & Hget).
  { exists (csv_sheet_row cid' area now1 em1 csv_row). split.
    - apply first_run_rows. left. apply csv_sheet_rows_elem. by exists csv_row.
    - by apply batch_row_key. }
  unfold sales_values at 1. rewrite Hget.
  apply first_run_rows in Hr as [Hr|Hr].
  - apply csv_sheet_rows_elem in Hr as (row & Hrow & _ & ->).
    rewrite batch_row_key in Hrk by done. rewrite <- Hrk.
    rewrite <- csv_sheet_row_sales with (cid := cid') (area := area) (ts := now1).
    apply map_ext_in. intros col Hcol%list_elem_of_In.
    apply row_dict_get. by apply SALES_in_ALL.
  - exfalso. apply preserved_rows_elem in Hr as (K & e & HinK & HK & ->).
    destruct (existing_map_entry_key _ _ _ HinK) as (_ & Hk & _).
    apply HK. rewrite <- Hk, Hrk. apply list_elem_of_fmap. by exists csv_row.
Qed.

Lemma second_run_batch_rows :
  map without_timestamp (csv_sheet_rows cid' area now2 em2 df)
  = map without_timestamp (csv_sheet_rows cid' area now1 em1 df).
Proof.
  apply csv_sheet_rows_without_timestamp. intros. by apply second_run_sales.
Qed.

Lemma second_run_preserved_rows :
  preserved_rows em2 orgnrs ≡ₚ preserved_rows em1 orgnrs.
Proof.
  apply NoDup_Permutation; try apply preserved_rows_NoDup.
  intros x. split.
  - intros (K & e & Hin & HK & ->)%preserved_rows_elem.
    destruct (existing_map_entry_key _ _ _ Hin) as (_ & Hk & r & Hr & ->).
    apply first_run_rows in Hr as [Hr|Hr].
    + exfalso. apply csv_sheet_rows_elem in Hr as (row & Hrow & _ & ->).
      rewrite to_sheet_row_row_dict in Hk by apply csv_sheet_row_length.
      rewrite batch_row_key in Hk by done.
      apply HK. rewrite <- Hk. apply list_elem_of_fmap. by exists row.
    + rewrite to_sheet_row_row_dict; [done|].
      apply preserved_rows_elem in Hr as (? & ? & _ & _ & ->).
      apply to_sheet_row_length.
  - intros Hx.
    pose proof Hx as (K & e & Hin & HK & Hxe)%preserved_rows_elem.
    destruct (existing_map_entry_key _ _ _ Hin) as (HK0 & Hk & _).
    rewrite <- Hxe in Hk.
    destruct (existing_map_has K (data_rows s1) HK0) as (r & Hr & Hrk & Hget).
    { exists x. split; [|done]. apply first_run_rows. by right. }
    assert (r = x) as ->.
    { apply first_run_rows in Hr as [Hr|Hr].
      - exfalso. apply csv_sheet_rows_elem in Hr as (row & Hrow & _ & ->).
        rewrite batch_row_key in Hrk by done.
        apply HK. rewrite <- Hrk. apply list_elem_of_fmap. by exists row.
      - apply (preserved_rows_inj (data_rows s) orgnrs); try done. congruence. }
    unfold preserved_rows. apply list_elem_of_omap.
    exists (K, row_dict x). split.
    + by apply dict_get_elem_of.
    + simpl. apply str_in_false in HK. rewrite HK. f_equal.
      apply to_sheet_row_row_dict. rewrite Hxe. apply to_sheet_row_length.
Qed.

(** Syncing the same batch a second time writes the rows of the first
    sync again, import timestamp apart. *)
Lemma second_run_rows :
  let s2 := (sync_companies s1 df area cid now2).1 in
  map without_timestamp (data_rows s2)
  ≡ₚ map without_timestamp (data_rows s1).
Proof.
  intros s2. unfold s2. rewrite (sync_rows s1).
  set (m2 := em2). rewrite (sync_rows s). subst m2.
  rewrite !map_app, second_run_batch_rows.
  apply Permutation_app_head. apply Permutation_map.
  apply second_run_preserved_rows.
Qed.

End Run.

Lemma cell_without_timestamp col r :
  col ∈ ALL_COLUMNS -> col <> "import_timestamp" ->
  cell col (without_timestamp r) = cell col r.
Proof.
  intros Hin Hne. unfold cell, without_timestamp.
  assert (py_index col ALL_COLUMNS <> py_index "import_timestamp" ALL_COLUMNS)
    as Hidx.
  { unfold ALL_COLUMNS, SCRIPT_COLUMNS, SALES_COLUMNS in Hin. simpl in Hin.
    repeat (apply elem_of_cons in Hin as [->|Hin]; [by vm_compute|]).
    by apply elem_of_nil in Hin. }
  generalize dependent (py_index col ALL_COLUMNS).
  generalize (py_index "import_timestamp" ALL_COLUMNS). clear.
  intros j i Hij. revert i j Hij.
  induction r as [|x r IH]; intros [|i] [|j] Hij; simpl; try done.
  apply IH. congruence.
Qed.

(** Running the sync twice with the same batch and area name, when every
    org number cell of the batch holds a string: the second run writes the
    rows of the first again, the import timestamp apart; in particular
    the org numbers and, for each of them, every other column (the five
    sales columns among them) are the same after both runs. *)
Theorem sync_twice_same_rows
    (s : sheet) (df : list df_row) (area cid now1 now2 : string) :
  (forall csv_row, csv_row ∈ df ->
     isna (df_get "organisasjonsnummer" csv_row) = false) ->
  let s1 := (sync_companies s df area cid now1).1 in
  let s2 := (sync_companies s1 df area cid now2).1 in
  map without_timestamp (data_rows s2) ≡ₚ map without_timestamp (data_rows s1)
  /\ forall col, col ∈ ALL_COLUMNS -> col <> "import_timestamp" ->
       map (fun r => (cell "organisasjonsnummer" r, cell col r)) (data_rows s2)
       ≡ₚ map (fun r => (cell "organisasjonsnummer" r, cell col r)) (data_rows s1).
Proof.
  intros Hkeys s1 s2.
  pose proof (second_run_rows s df area cid now1 now2 Hkeys) as Hperm.
  split; [exact Hperm|].
  intros col Hcol Hne.
  assert (Hmap : forall rows,
    map (fun r => (cell "organisasjonsnummer" r, cell col r)) rows
    = map (fun r => (cell "organisasjonsnummer" r, cell col r))
        (map without_timestamp rows)).
  { intros rows. rewrite map_map. apply map_ext. intros r.
    rewrite (cell_without_timestamp col r Hcol Hne).
    rewrite (cell_without_timestamp "organisasjonsnummer" r); [done| |done].
    do 3 apply list_elem_of_further. apply list_elem_of_here. }
  rewrite (Hmap (data_rows s2)), (Hmap (data_rows s1)).
  by apply Permutation_map.
Qed.

(** The counters the sync returns add up. *)
Lemma csv_loop_counts cid area ts em df st :
  length (new_rows st) = updated_count st + new_count st ->
  let st' := fold_left (csv_step cid area ts em) df st in
  length (new_rows st') = updated_count st' + new_count st'.
Proof.
  revert st. induction df as [|csv_row df IH]; intros st Hst; simpl; [done|].
  apply IH. unfold csv_step.
  destruct (String.eqb (csv_orgnr csv_row) ""); [done|]. simpl.
  rewrite length_app. simpl.
  destruct (dict_mem (csv_orgnr csv_row) em); lia.
Qed.

(** The statistics of a sync add up, and their total is the number of
    rows written below the header. *)
Lemma sync_stats_total (s : sheet) (df : list df_row) (area cid now : string) :
  let stats := (sync_companies s df area cid now).2 in
  total stats = new stats + updated stats + preserved stats
  /\ total stats = length (data_rows (sync_companies s df area cid now).1).
Proof.
  unfold sync_companies. simpl. split; [|done].
  rewrite stable_sort_by_Permutation, length_app.
  rewrite csv_loop_counts by done. lia.
Qed.

End SyncTwice.

(** Worked sheets. *)
Module SheetExamples.
Import GoogleSheets ExampleLib ExampleData.

(** A batch that lists an org number twice makes the sync write two rows
    for it: the sheet can come to hold an org number on several rows. *)
Example sync_writes_repeated_keys :
  map (cell "organisasjonsnummer")
    (data_rows
       (sync_companies []
          [csv (PStr "912345678") "acme as"; csv (PStr "912345678") "acme as"]
          "skedsmo" "A1B2C3D4" "2026-01-30 09:00").1)
  = ["912345678"; "912345678"].
Proof. vm_compute. reflexivity. Qed.

Lemma sync_keeps_sales_of_last_row_witness :
  let written :=
    data_rows
      (sync_companies one_sheet [csv (PStr "912345678") "acme as"]
         "skedsmo" "A1B2C3D4" "2026-01-30 09:00").1 in
  exists out, out ∈ written
              /\ cell "organisasjonsnummer" out = "912345678"
              /\ cell "status" out = "Interessert"
              /\ cell "navn" out = "Acme As".
Proof.
  destruct (sync_keeps_sales_of_last_row one_sheet
              [csv (PStr "912345678") "acme as"]
              "skedsmo" "A1B2C3D4" "2026-01-30 09:00"
              [] (sheet_row "912345678" "Acme As" "Interessert") []
              (csv (PStr "912345678") "acme as") "912345678")
    as [(out & Hin & Horg & Hsales & _ & _ & _ & Hscript) _].
  - reflexivity.
  - apply list_elem_of_singleton. reflexivity.
  - reflexivity.
  - discriminate.
  - reflexivity.
  - intros r' Hr'. by apply elem_of_nil in Hr'.
  - exists out. split; [exact Hin|]. split; [exact Horg|]. split.
    + rewrite Hsales; [reflexivity|]. vm_compute. apply list_elem_of_here.
    + rewrite Hscript; [reflexivity|].
      vm_compute. apply list_elem_of_further, list_elem_of_here.
Defined.


(** C1, as worded, fails on [twice_sheet]: the status "Interessert" of the
    first row of org number 912345678 is on no row after the sync. *)
Lemma sales_columns_not_kept_on_repeated_key :
  ~ sales_columns_kept twice_sheet [csv (PStr "912345678") "acme as"]
      "skedsmo" "A1B2C3D4" "2026-01-30 09:00".
Proof.
  intros Hkept.
  destruct (Hkept (sheet_row "912345678" "Acme As" "Interessert")
              (csv (PStr "912345678") "acme as"))
    as (out & Hin & _ & Hcols).
  - vm_compute. apply list_elem_of_here.
  - apply list_elem_of_singleton. reflexivity.
  - vm_compute. discriminate.
  - reflexivity.
  - specialize (Hcols "status" ltac:(vm_compute; apply list_elem_of_here)).
    vm_compute in Hin. apply list_elem_of_singleton in Hin. subst out.
    vm_compute in Hcols. discriminate.
Qed.


(** C3 at a batch row whose org number cell is missing (NaN): the key of
    the row is "nan", the cell written is blank. The first sync merges the
    row with the sheet row filed under "nan"; the second sync, on the same
    batch, no longer finds it and resets the status. *)
Example sync_twice_resets_status_on_missing_key :
  let s0 := [ALL_COLUMNS; sheet_row "nan" "Acme As" "Interessert"] in
  let df := [csv PNaN "acme as"] in
  let s1 := (sync_companies s0 df "skedsmo" "A1B2C3D4" "2026-01-30 09:00").1 in
  let s2 := (sync_companies s1 df "skedsmo" "A1B2C3D4" "2026-01-30 09:05").1 in
  map (fun r => (cell "organisasjonsnummer" r, cell "status" r)) (data_rows s1)
    = [("", "Interessert")]
  /\ map (fun r => (cell "organisasjonsnummer" r, cell "status" r)) (data_rows s2)
    = [("", "not started yet")].
Proof. vm_compute. split; reflexivity. Qed.

Lemma sync_twice_same_rows_witness :
  let df := [csv (PStr "912345678") "acme as"; csv (PStr "998877665") "nord as"] in
  let s1 := (sync_companies twice_sheet df "skedsmo" "" "2026-01-30 09:00").1 in
  let s2 := (sync_companies s1 df "skedsmo" "" "2026-01-30 09:05").1 in
  map without_timestamp (data_rows s2) ≡ₚ map without_timestamp (data_rows s1).
Proof.
  intros df s1 s2.
  apply (sync_twice_same_rows twice_sheet df "skedsmo" "" "2026-01-30 09:00"
           "2026-01-30 09:05").
  intros csv_row Hin. subst df.
  apply elem_of_cons in Hin as [->|Hin]; [reflexivity|].
  apply list_elem_of_singleton in Hin as ->. reflexivity.
Defined.

End SheetExamples.

(** ** filter_companies.py: the geocoder and its cache *)

Section GeocoderClaims.
Import FilterCompanies.
Context {num : Type} {numbers : PyNum num} {lib : PyLib}
  {kartverket : Kartverket num}.

(** C4. For every cache state and every address, postal code and city
    whose key is in the cache, [geocode_address] returns the lat and lon
    stored under the key and leaves the state as it was: the cache is
    unchanged and no request is sent. The stored values are returned
    whatever they are, null included. *)
Theorem geocode_cache_hit
    (address postal_code city municipality_code : pyval) (today : string)
    (w : world num) (cached : cache_entry num) :
  cache w !! cache_key address postal_code city = Some cached ->
  geocode_address address postal_code city municipality_code today w
  = (Ok (lat cached, lon cached), w).
Proof. intros Hhit. unfold geocode_address. by rewrite Hhit. Qed.

(** What a miss does, by the outcome of the [try] block. *)
Lemma geocode_miss address postal_code city municipality_code today w :
  cache w !! cache_key address postal_code city = None ->
  let key := cache_key address postal_code city in
  let req := request_for address postal_code city municipality_code in
  let attempt :=
    match kartverket_sok (requests_sent w) req with
    | HttpError => Raise RequestException
    | NotJson => Raise JSONDecodeError
    | Payload data => read_payload data
    end in
  geocode_address address postal_code city municipality_code today w
  = match attempt with
    | Ok (Some (la, lo)) =>
        (Ok (la, lo),
         after_miss key {| lat := la; lon := lo; timestamp := today |} req w)
    | Ok None =>
        (Ok (JNull, JNull),
         after_miss key {| lat := JNull; lon := JNull; timestamp := today |}
           req w)
    | Raise e =>
        if caught e then
          (Ok (JNull, JNull),
           after_miss key {| lat := JNull; lon := JNull; timestamp := today |}
             req w)
        else
          (Raise e,
           {| cache := cache w; requests_sent := requests_sent w ++ [req] |})
    end.
Proof.
  intros Hmiss key req attempt. subst key req attempt.
  unfold geocode_address, request_for. rewrite Hmiss. cbv zeta.
  destruct (kartverket_sok _ _) as [| |data]; reflexivity.
Qed.

(** A miss that meets a network error, a body that is not JSON, an
    object without candidates, an empty candidate list, or a candidate
    without the expected keys returns NotFound, stores the negative
    entry and raises nothing. *)
Lemma geocode_miss_not_found
    address postal_code city municipality_code today w :
  cache w !! cache_key address postal_code city = None ->
  let req := request_for address postal_code city municipality_code in
  match kartverket_sok (requests_sent w) req with
  | HttpError | NotJson => True
  | Payload data => not_found_payload data
  end ->
  geocode_address address postal_code city municipality_code today w
  = (Ok (JNull, JNull),
     after_miss (cache_key address postal_code city)
       {| lat := JNull; lon := JNull; timestamp := today |} req w).
Proof.
  intros Hmiss req Hresp. rewrite geocode_miss by done. fold req.
  destruct (kartverket_sok (requests_sent w) req) as [| |data]; try reflexivity.
  destruct Hresp as [-> | ->]; reflexivity.
Qed.

Lemma not_found_no_candidates (d : list (string * json num)) :
  dict_get "adresser" d = None \/ dict_get "adresser" d = Some (JList []) ->
  not_found_payload (JDict d).
Proof.
  intros Hd. left. unfold read_payload. simpl. unfold dict_get_default.
  destruct Hd as [-> | ->]; reflexivity.
Qed.

Lemma not_found_missing_point (d cand : list (string * json num)) rest :
  dict_get "adresser" d = Some (JList (JDict cand :: rest)) ->
  dict_get "representasjonspunkt" cand = None ->
  not_found_payload (JDict d).
Proof.
  intros Hd Hc. right. unfold read_payload. simpl. unfold dict_get_default.
  rewrite Hd. simpl. by rewrite Hc.
Qed.

(** Round trip: whatever a call returned, the same call on the state it
    left returns the same pair and changes nothing. *)
Lemma geocode_round_trip
    address postal_code city municipality_code today w r w' :
  geocode_address address postal_code city municipality_code today w
  = (Ok r, w') ->
  forall municipality_code' today',
    geocode_address address postal_code city municipality_code' today' w'
    = (Ok r, w').
Proof.
  intros Hcall m' t'.
  assert (Hhit : forall (w0 : world num) cached,
            cache w0 !! cache_key address postal_code city = Some cached ->
            geocode_address address postal_code city m' t' w0
            = (Ok (lat cached, lon cached), w0)).
  { intros w0 cached Hw0. unfold geocode_address. by rewrite Hw0. }
  destruct (cache w !! cache_key address postal_code city) as [cached|] eqn:Hc.
  - unfold geocode_address in Hcall. rewrite Hc in Hcall.
    injection Hcall as <- <-. by apply Hhit.
  - rewrite geocode_miss in Hcall by done.
    set (req := request_for address postal_code city municipality_code) in *.
    destruct (match kartverket_sok (requests_sent w) req with
              | HttpError => Raise RequestException
              | NotJson => Raise JSONDecodeError
              | Payload data => read_payload data
              end) as [[[la lo]|]|e].
    + injection Hcall as <- <-.
      apply (Hhit _ {| lat := la; lon := lo; timestamp := today |}).
      simpl. apply lookup_insert_eq.
    + injection Hcall as <- <-.
      apply (Hhit _ {| lat := JNull; lon := JNull; timestamp := today |}).
      simpl. apply lookup_insert_eq.
    + destruct (caught e); [|done]. injection Hcall as <- <-.
      apply (Hhit _ {| lat := JNull; lon := JNull; timestamp := today |}).
      simpl. apply lookup_insert_eq.
Qed.

End GeocoderClaims.

Module GeocoderExamples.
Import FilterCompanies ExampleLib ExampleData.

Lemma geocode_cache_hit_witness :
  geocode_address (PStr "Storgata 1") (PStr "2000") (PStr "Lillestrom") PNone
    "2026-01-30" warm
  = (Ok (JNull, JNull), warm).
Proof.
  apply (geocode_cache_hit (PStr "Storgata 1") (PStr "2000")
           (PStr "Lillestrom") PNone "2026-01-30" warm negative_entry).
  vm_compute. reflexivity.
Defined.

(** C5 at a malformed payload: the service answers with a candidate whose
    [representasjonspunkt] is null. Subscripting it raises [TypeError],
    which the [except] clause does not list: the exception reaches the
    caller and nothing is written to the cache. *)
Example geocode_malformed_payload_raises :
  geocode_address (PStr "Ukjent vei 9") (PStr "2000") (PStr "Lillestrom") PNone
    "2026-01-30" cold
  = (Raise TypeError,
     {| cache := ∅;
        requests_sent :=
          [ {| sok := "Ukjent vei 9, 2000 Lillestrom"; treffPerSide := 1;
               kommunenummer := None |} ] |}).
Proof. vm_compute. reflexivity. Qed.

(** A payload that is a JSON list has no [get]: [AttributeError], not
    caught either. *)
Example read_payload_of_list_raises :
  read_payload (num := Q) (JList []) = Raise AttributeError
  /\ caught AttributeError = false /\ caught TypeError = false.
Proof. repeat split. Qed.

Lemma geocode_miss_not_found_witness :
  geocode_address (PStr "Ingen gate 3") (PStr "2000") (PStr "Lillestrom") PNone
    "2026-01-30" cold
  = (Ok (JNull, JNull),
     after_miss "ingen gate 3|2000|lillestrom"
       {| lat := JNull; lon := JNull; timestamp := "2026-01-30" |}
       (request_for (PStr "Ingen gate 3") (PStr "2000") (PStr "Lillestrom") PNone)
       cold).
Proof.
  refine (geocode_miss_not_found (PStr "Ingen gate 3") (PStr "2000")
            (PStr "Lillestrom") PNone "2026-01-30" cold _ _).
  - vm_compute. reflexivity.
  - left. vm_compute. reflexivity.
Defined.

Lemma geocode_round_trip_witness :
  let w1 :=
    (geocode_address (PStr "Storgata 1") (PStr "2000") (PStr "Lillestrom")
       PNone "2026-01-30" cold).2 in
  geocode_address (PStr "Storgata 1") (PStr "2000") (PStr "Lillestrom") PNone
    "2026-02-01" w1
  = (Ok (JNum (QArith_base.Qmake 5995 100), JNum (QArith_base.Qmake 1105 100)),
     w1).
Proof.
  intros w1.
  apply (geocode_round_trip (PStr "Storgata 1") (PStr "2000")
           (PStr "Lillestrom") PNone "2026-01-30" cold).
  vm_compute. reflexivity.
Defined.

End GeocoderExamples.

(** ** filter_companies.py: the geographic filter *)

Section FilterFacts.
Import FilterCompanies.
Context {num : Type} {numbers : PyNum num} {lib : PyLib}
  {kartverket : Kartverket num} {geometry : Shapely num}.

Lemma bbox_mask_true poly p :
  bbox_mask poly p = true ->
  exists lon lat,
    LON p = FNum lon /\ LAT p = FNum lat /\ in_expanded_box poly lon lat.
Proof.
  unfold bbox_mask, in_expanded_box.
  destruct (bounds poly) as [[[min_lon min_lat] max_lon] max_lat].
  intros Hm. repeat (apply andb_prop in Hm as [Hm ?]).
  destruct (LON p) as [|lon], (LAT p) as [|lat]; try done.
  destruct min_lon as [|x0], min_lat as [|y0], max_lon as [|x1],
    max_lat as [|y1]; try done.
  exists lon, lat. split_and!; try done.
  exists x0, y0, x1, y1. split_and!; done.
Qed.

Lemma set_add_elem x y s : x ∈ set_add y s -> x = y \/ x ∈ s.
Proof.
  unfold set_add. case_bool_decide; [by right|].
  intros [?| ->%list_elem_of_singleton]%elem_of_app; auto.
Qed.

Lemma postal_codes_elem poly postal_df x :
  x ∈ get_postal_codes_in_polygon poly postal_df ->
  exists p, p ∈ postal_df /\ POSTNR p = x /\ bbox_mask poly p = true.
Proof.
  unfold get_postal_codes_in_polygon.
  assert (forall cands acc,
    (forall p, p ∈ cands -> p ∈ postal_df /\ bbox_mask poly p = true) ->
    (forall y, y ∈ acc ->
       exists p, p ∈ postal_df /\ POSTNR p = y /\ bbox_mask poly p = true) ->
    x ∈ fold_left
          (fun postal_codes row =>
             if float_notna (LAT row) && float_notna (LON row)
             then set_add (POSTNR row) postal_codes else postal_codes)
          cands acc ->
    exists p, p ∈ postal_df /\ POSTNR p = x /\ bbox_mask poly p = true) as Hfold.
  { induction cands as [|c cands IH]; intros acc Hc Hacc; simpl.
    - apply Hacc.
    - apply IH.
      + intros p Hp. apply Hc. by right.
      + intros y Hy. destruct (_ && _); [|by apply Hacc].
        apply set_add_elem in Hy as [->|Hy]; [|by apply Hacc].
        exists c. destruct (Hc c) as [? ?]; [left|]. done. }
  destruct postal_df as [|p0 rest]; [intros Hx; by apply elem_of_nil in Hx|].
  apply Hfold.
  - intros p Hp. by apply list_elem_of_filter in Hp as [? ?].
  - intros y Hy. by apply elem_of_nil in Hy.
Qed.

Lemma load_company_data_elem enheter underenheter postal_codes row :
  postal_codes <> [] ->
  row ∈ load_company_data enheter underenheter postal_codes ->
  row ∈ registry enheter underenheter
  /\ row_get "postnummer" PNaN row ∈ postal_codes.
Proof.
  unfold load_company_data, registry. destruct postal_codes; [done|].
  intros _ Hin. apply list_elem_of_filter in Hin as [? ?]. done.
Qed.

Lemma employee_filter_elem min_employees max_employees df row n :
  (row, n) ∈ employee_filter min_employees max_employees df ->
  row ∈ df
  /\ exists v, to_numeric (row_get "antallAnsatte" PNaN row) = FNum v
       /\ n = FNum v
       /\ num_le (num_of_Z min_employees) v = true
       /\ num_le v (num_of_Z max_employees) = true.
Proof.
  unfold employee_filter. intros [Hm Hin]%list_elem_of_filter.
  apply list_elem_of_fmap in Hin as (row' & [= -> ->] & Hrow').
  split; [done|]. simpl in Hm. apply andb_prop in Hm as [Hge Hle].
  unfold float_ge in Hge.
  destruct (to_numeric (row_get "antallAnsatte" PNaN row')) as [|v]; [done|].
  by exists v.
Qed.

Lemma geocode_step_results poly today row n results w results' w' :
  geocode_step poly today row n results w = (Ok results', w') ->
  results' = results
  \/ exists r, results' = results ++ [r] /\ emitted poly today row n r.
Proof.
  unfold geocode_step.
  destruct (geocode_address _ _ _ _ today w) as [[[la lo]|e] w2] eqn:Hg; [|done].
  destruct (json_not_none la && json_not_none lo) eqn:Hnn;
    [|intros [= <- <-]; by left].
  apply andb_prop in Hnn as [Hla Hlo].
  destruct (Point lo la) as [pt|e] eqn:Hpt; [|done].
  destruct (contains poly pt) eqn:Hin; [|intros [= <- <-]; by left].
  destruct (to_int n) as [k|e] eqn:Hk; [|done].
  intros [= <- <-]. right. eexists. split; [done|].
  exists w, w2, la, lo, pt. simpl. split_and!; done.
Qed.

Lemma geocode_loop_results poly today todo results w results' w' :
  geocode_loop poly today todo results w = (Ok results', w') ->
  forall r, r ∈ results' ->
    r ∈ results
    \/ exists row n, (row, n) ∈ todo /\ emitted poly today row n r.
Proof.
  revert results w. induction todo as [|[row n] todo IH]; intros results w; simpl.
  - intros [= <- <-] r Hr. by left.
  - destruct (geocode_step poly today row n results w) as [[results1|e] w1] eqn:Hs;
      [|done].
    intros Hloop r Hr.
    destruct (IH _ _ Hloop r Hr) as [Hin|(row' & n' & Hin & Hem)].
    + apply geocode_step_results in Hs as [->|(r1 & -> & Hem)]; [by left|].
      apply elem_of_app in Hin as [Hin| ->%list_elem_of_singleton]; [by left|].
      right. exists row, n. split; [left|done].
    + right. exists row', n'. split; [by right|done].
Qed.

(** *** Deduplication *)

Lemma drop_duplicates_from_elem seen rows (r : result num) :
  r ∈ drop_duplicates_from seen rows -> r ∈ rows /\ adresse r ∉ seen.
Proof.
  revert seen. induction rows as [|x rows IH]; intros seen; simpl.
  - intros Hr. by apply elem_of_nil in Hr.
  - destruct (str_in (adresse x) seen) eqn:E.
    + intros Hr. destruct (IH _ Hr). split; [by right|done].
    + intros [->|Hr]%elem_of_cons.
      * split; [left|by apply str_in_false].
      * destruct (IH _ Hr) as [? Hns]. split; [by right|].
        intros Hs. apply Hns. by right.
Qed.

Lemma drop_duplicates_from_NoDup seen (rows : list (result num)) :
  NoDup (map adresse (drop_duplicates_from seen rows)).
Proof.
  revert seen. induction rows as [|x rows IH]; intros seen; simpl.
  - constructor.
  - destruct (str_in (adresse x) seen); [apply IH|].
    simpl. apply NoDup_cons. split; [|apply IH].
    intros (k & Hk & Hin)%list_elem_of_fmap.
    apply drop_duplicates_from_elem in Hin as [_ Hns].
    apply Hns. rewrite <- Hk. left.
Qed.

Lemma drop_duplicates_from_cover seen rows (r : result num) :
  r ∈ rows -> adresse r ∉ seen ->
  exists k, k ∈ drop_duplicates_from seen rows /\ adresse k = adresse r.
Proof.
  revert seen. induction rows as [|x rows IH]; intros seen Hr Hns; simpl.
  - by apply elem_of_nil in Hr.
  - destruct (str_in (adresse x) seen) eqn:E.
    + apply elem_of_cons in Hr as [->|Hr].
      * apply str_in_true in E. done.
      * by apply IH.
    + destruct (decide (adresse r = adresse x)) as [Heq|Hne].
      * exists x. split; [left|done].
      * apply elem_of_cons in Hr as [->|Hr]; [done|].
        destruct (IH (adresse x :: seen) Hr) as (k & Hk & Hka).
        { intros [?|?]%elem_of_cons; done. }
        exists k. split; [by right|done].
Qed.

Lemma drop_duplicates_from_first seen rows (k : result num) :
  k ∈ drop_duplicates_from seen rows ->
  exists l1 l2, rows = l1 ++ k :: l2
    /\ forall x, x ∈ l1 -> adresse x <> adresse k.
Proof.
  revert seen. induction rows as [|x rows IH]; intros seen; simpl.
  - intros Hk. by apply elem_of_nil in Hk.
  - destruct (str_in (adresse x) seen) eqn:E.
    + intros Hk. destruct (IH _ Hk) as (l1 & l2 & -> & Hl1).
      apply drop_duplicates_from_elem in Hk as [_ Hns].
      exists (x :: l1), l2. split; [done|].
      intros y [->|Hy]%elem_of_cons; [|by apply Hl1].
      apply str_in_true in E. congruence.
    + intros [->|Hk]%elem_of_cons.
      * exists [], rows. split; [done|]. intros y Hy. by apply elem_of_nil in Hy.
      * destruct (IH _ Hk) as (l1 & l2 & -> & Hl1).
        apply drop_duplicates_from_elem in Hk as [_ Hns].
        exists (x :: l1), l2. split; [done|].
        intros y [->|Hy]%elem_of_cons; [|by apply Hl1].
        intros Heq. apply Hns. rewrite Heq. left.
Qed.

Section WithSort.
Context {sorter : SortValues num}.

Lemma deduplicate_elem (results rows : list (result num)) k :
  deduplicate results = Ok rows -> k ∈ rows -> k ∈ results.
Proof.
  unfold deduplicate. destruct results as [|r0 rest] eqn:E; [done|].
  rewrite <- E. intros [= <-] Hk.
  apply drop_duplicates_from_elem in Hk as [Hk _].
  by rewrite sort_values_perm in Hk.
Qed.

Lemma deduplicate_NoDup (results rows : list (result num)) :
  deduplicate results = Ok rows -> NoDup (map adresse rows) /\ rows <> [].
Proof.
  unfold deduplicate. destruct results as [|r0 rest] eqn:E; [done|].
  rewrite <- E. intros [= <-]. split; [apply drop_duplicates_from_NoDup|].
  destruct (drop_duplicates_from_cover [] (sort_values_source results) r0)
    as (k & Hk & _).
  - rewrite sort_values_perm, E. left.
  - intros Hs. by apply elem_of_nil in Hs.
  - unfold drop_duplicates. intros Hnil. rewrite Hnil in Hk.
    by apply elem_of_nil in Hk.
Qed.

(** C7. For every non-empty result set of the geographic filter, the
    deduplication keeps exactly one row per formatted address: the
    addresses of the kept rows are pairwise distinct and every address of
    the result set is kept. The kept row is the first row with its
    address in the list sorted by unit type ascending, so its unit type is
    the least among the rows with that address: when one of them is a
    hovedenhet the kept row is not an underenhet. *)
Theorem deduplicate_keeps_first_by_unit_type
    (results rows : list (result num)) :
  deduplicate results = Ok rows ->
  NoDup (map adresse rows)
  /\ (forall r, r ∈ results -> exists k, k ∈ rows /\ adresse k = adresse r)
  /\ (forall k, k ∈ rows ->
        k ∈ results
        /\ (exists l1 l2,
              sort_values_source results = l1 ++ k :: l2
              /\ forall x, x ∈ l1 -> adresse x <> adresse k)
        /\ (forall r, r ∈ results -> adresse r = adresse k ->
              String.le (source k) (source r))
        /\ (forall r, r ∈ results -> adresse r = adresse k ->
              source r = "hovedenhet" -> source k <> "underenhet")).
Proof.
  unfold deduplicate. destruct results as [|r0 results0] eqn:E; [done|].
  rewrite <- E. clear E r0 results0. intros [= <-].
  unfold drop_duplicates. split_and!.
  - apply drop_duplicates_from_NoDup.
  - intros r Hr. apply drop_duplicates_from_cover.
    + by rewrite sort_values_perm.
    + intros Hs. by apply elem_of_nil in Hs.
  - intros k Hk.
    assert (Hmin : forall r, r ∈ results -> adresse r = adresse k ->
              String.le (source k) (source r)).
    { intros r Hr Hsame.
      destruct (drop_duplicates_from_first _ _ _ Hk) as (l1 & l2 & Hsplit & Hl1).
      pose proof (sort_values_sorted results) as Hsorted.
      apply Sorted_StronglySorted in Hsorted; [|apply _].
      rewrite <- (sort_values_perm results) in Hr.
      rewrite Hsplit in Hr, Hsorted.
      apply elem_of_app in Hr as [Hr|Hr]; [by destruct (Hl1 r Hr)|].
      apply elem_of_cons in Hr as [->|Hr]; [reflexivity|].
      change (l1 ++ k :: l2) with (l1 ++ [k] ++ l2) in Hsorted.
      rewrite app_assoc in Hsorted.
      apply (StronglySorted_app_1_elem_of _ _ _ k r) in Hsorted; [done| |done].
      apply elem_of_app. right. left. }
    split_and!.
    + apply drop_duplicates_from_elem in Hk as [Hk _].
      by rewrite sort_values_perm in Hk.
    + by apply (drop_duplicates_from_first []).
    + exact Hmin.
    + intros r Hr Hsame Hhoved Hunder.
      specialize (Hmin r Hr Hsame). rewrite Hhoved, Hunder in Hmin.
      vm_compute in Hmin. done.
Qed.

Lemma drop_duplicates_from_distinct seen (rows : list (result num)) :
  NoDup (map adresse rows) ->
  (forall r, r ∈ rows -> adresse r ∉ seen) ->
  drop_duplicates_from seen rows = rows.
Proof.
  revert seen. induction rows as [|x rows IH]; intros seen Hnd Hseen; [done|].
  change (map adresse (x :: rows)) with (adresse x :: map adresse rows) in Hnd.
  apply NoDup_cons in Hnd as [Hx Hnd].
  cbn [drop_duplicates_from].
  assert (str_in (adresse x) seen = false) as ->.
  { apply str_in_false, Hseen. left. }
  f_equal. apply IH; [done|].
  intros r Hr [Heq|Hs]%elem_of_cons.
  - apply Hx. rewrite <- Heq. apply list_elem_of_fmap. by exists r.
  - apply (Hseen r); [by right|done].
Qed.

(** Deduplicating a deduplicated result changes nothing but, possibly, the
    order the sort leaves the rows in. *)
Lemma deduplicate_idempotent (results rows : list (result num)) :
  deduplicate results = Ok rows ->
  exists rows', deduplicate rows = Ok rows' /\ rows' ≡ₚ rows.
Proof.
  intros Hdd.
  destruct (deduplicate_NoDup _ _ Hdd) as (Hnd & Hne).
  exists (sort_values_source rows). split.
  - unfold deduplicate. destruct rows as [|r0 rest] eqn:E; [done|].
    rewrite <- E in *. f_equal. unfold drop_duplicates.
    apply drop_duplicates_from_distinct.
    + by rewrite (sort_values_perm rows).
    + intros r _ Hs. by apply elem_of_nil in Hs.
  - apply sort_values_perm.
Qed.

(** Where a row written by [main] comes from. *)
Lemma main_provenance poly postal_df enheter underenheter
    min_employees max_employees today w rows w' :
  main poly postal_df enheter underenheter min_employees max_employees today w
  = (Ok (Some rows), w') ->
  forall r, r ∈ rows ->
    exists row n,
      row ∈ registry enheter underenheter
      /\ row_get "postnummer" PNaN row ∈ get_postal_codes_in_polygon poly postal_df
      /\ (row, n) ∈ employee_filter min_employees max_employees
                      (load_company_data enheter underenheter
                         (get_postal_codes_in_polygon poly postal_df))
      /\ has_address row = true
      /\ emitted poly today row n r.
Proof.
  unfold main.
  destruct (get_postal_codes_in_polygon poly postal_df) as [|c codes] eqn:Hcodes;
    [done|].
  set (df := employee_filter _ _ _).
  destruct df as [|d0 df0] eqn:Hdf; [done|]. rewrite <- Hdf. clear d0 df0 Hdf.
  destruct (geocode_loop _ _ _ _ w) as [[results|e] w1] eqn:Hloop; [|done].
  destruct (deduplicate results) as [kept|e] eqn:Hdd; simpl; [|done].
  intros [= <- <-] r Hr.
  pose proof (deduplicate_elem _ _ _ Hdd Hr) as Hres.
  destruct (geocode_loop_results _ _ _ _ _ _ _ Hloop r Hres)
    as [Hnil|(row & n & Hin & Hem)]; [by apply elem_of_nil in Hnil|].
  apply list_elem_of_filter in Hin as [Haddr Hin]. simpl in Haddr.
  exists row, n. split_and!; try done.
  - apply employee_filter_elem in Hin as [Hin _].
    by apply load_company_data_elem in Hin as [? ?].
  - apply employee_filter_elem in Hin as [Hin _].
    by apply load_company_data_elem in Hin as [? ?].
Qed.

(** C6. Every row the geographic filter emits comes from a registry row
    whose postal code has a centroid in the postal table inside the
    bounding box of the polygon widened by 0.05 degrees, whose address
    is a non-empty string, and whose geocoded point, neither coordinate
    null, lies inside the polygon itself. *)
Theorem filter_rows_inside_polygon
    (poly : polygon) (postal_df : list (postal_row num))
    (enheter underenheter : list reg_row) (min_employees max_employees : Z)
    (today : string) (w w' : world num) (rows : list (result num)) :
  main poly postal_df enheter underenheter min_employees max_employees today w
  = (Ok (Some rows), w') ->
  forall r, r ∈ rows ->
    exists row,
      row ∈ registry enheter underenheter
      /\ organisasjonsnummer r = row_get "organisasjonsnummer" PNone row
      /\ (exists p lon lat,
            p ∈ postal_df /\ POSTNR p = row_get "postnummer" PNaN row
            /\ LON p = FNum lon /\ LAT p = FNum lat
            /\ in_expanded_box poly lon lat)
      /\ (exists a, row_get "adresse" (PStr "") row = PStr a /\ a <> "")
      /\ (exists w1 w2 pt,
            geocode_address (row_get "adresse" (PStr "") row)
              (row_get "postnummer" (PStr "") row)
              (row_get "poststed" (PStr "") row)
              (row_get "kommunenummer" PNone row) today w1
            = (Ok (latitude r, longitude r), w2)
            /\ latitude r <> JNull /\ longitude r <> JNull
            /\ Point (longitude r) (latitude r) = Ok pt
            /\ contains poly pt = true).
Proof.
  intros Hmain r Hr.
  destruct (main_provenance _ _ _ _ _ _ _ _ _ _ Hmain r Hr)
    as (row & n & Hreg & Hpost & _ & Haddr & Hem).
  destruct Hem as (w1 & w2 & la & lo & pt & Hg & Hla & Hlo & Hpt & Hin & _
                   & Hlat & Hlon & Horg & _).
  exists row. split_and!; try done.
  - apply postal_codes_elem in Hpost as (p & Hp & Hnr & Hmask).
    apply bbox_mask_true in Hmask as (lon & lat & ? & ? & ?).
    by exists p, lon, lat.
  - unfold has_address in Haddr. apply andb_prop in Haddr as [Hna Htr].
    destruct (row_get "adresse" (PStr "") row) as [a| |]; try done.
    exists a. split; [done|]. simpl in Htr. intros ->. done.
  - exists w1, w2, pt. subst la lo. split_and!; try done.
    + intros E. by rewrite E in Hla.
    + intros E. by rewrite E in Hlo.
Qed.

(** C10. For every run of the geographic filter, with the default bounds
    or any other, a registry row whose employee count is missing or not
    numeric does not pass the employee filter, and every emitted row
    comes from a registry row whose count is a number within the bounds
    and carries the integer that [int] makes of it. *)
Theorem unknown_employee_count_never_emitted
    (poly : polygon) (postal_df : list (postal_row num))
    (enheter underenheter : list reg_row) (min_employees max_employees : Z)
    (today : string) (w w' : world num) (rows : list (result num)) :
  main poly postal_df enheter underenheter min_employees max_employees today w
  = (Ok (Some rows), w') ->
  (forall row df n,
     to_numeric (row_get "antallAnsatte" PNaN row) = FNaN ->
     (row, n) ∉ employee_filter min_employees max_employees df)
  /\ (forall r, r ∈ rows ->
        exists row v,
          row ∈ registry enheter underenheter
          /\ organisasjonsnummer r = row_get "organisasjonsnummer" PNone row
          /\ to_numeric (row_get "antallAnsatte" PNaN row) = FNum v
          /\ num_le (num_of_Z min_employees) v = true
          /\ num_le v (num_of_Z max_employees) = true
          /\ num_int v = Some (antallAnsatte r)).
Proof.
  intros Hmain. split.
  - intros row df n Hnan Hin.
    apply employee_filter_elem in Hin as (_ & v & Hv & _). congruence.
  - intros r Hr.
    destruct (main_provenance _ _ _ _ _ _ _ _ _ _ Hmain r Hr)
      as (row & n & Hreg & _ & Hemp & _ & Hem).
    apply employee_filter_elem in Hemp as (_ & v & Hv & -> & Hge & Hle).
    destruct Hem as (_ & _ & _ & _ & _ & _ & _ & _ & _ & _ & Hint & _ & _
                     & Horg & _).
    exists row, v. split_and!; try done.
    simpl in Hint. destruct (num_int v); by inversion Hint.
Qed.

End WithSort.
End FilterFacts.

(** Worked run of the geographic filter. *)
Module FilterExamples.
Import FilterCompanies ExampleLib ExampleData.

(** The run emits the parent company alone. *)
Lemma run_emits : run = (Ok (Some [acme]), run.2).
Proof. vm_compute. reflexivity. Qed.

Lemma filter_rows_inside_polygon_witness :
  exists row,
    row ∈ registry enheter underenheter
    /\ organisasjonsnummer acme = row_get "organisasjonsnummer" PNone row
    /\ exists p lon lat,
         p ∈ postal /\ POSTNR p = row_get "postnummer" PNaN row
         /\ LON p = FNum lon /\ LAT p = FNum lat
         /\ in_expanded_box area lon lat.
Proof.
  destruct (filter_rows_inside_polygon area postal enheter underenheter
              0 99999 "2026-01-30" cold run.2 [acme] run_emits acme)
    as (row & Hreg & Horg & Hbox & _).
  - apply list_elem_of_here.
  - exists row. split; [exact Hreg|]. split; [exact Horg|exact Hbox].
Defined.

Lemma unknown_employee_count_witness :
  exists row v,
    row ∈ registry enheter underenheter
    /\ to_numeric (row_get "antallAnsatte" PNaN row) = FNum v
    /\ num_int v = Some 25%Z.
Proof.
  destruct (unknown_employee_count_never_emitted area postal enheter
              underenheter 0 99999 "2026-01-30" cold run.2 [acme] run_emits)
    as [_ Hrows].
  destruct (Hrows acme (list_elem_of_here _ _))
    as (row & v & Hreg & _ & Hnum & _ & _ & Hint).
  exists row, v. split; [exact Hreg|]. split; [exact Hnum|exact Hint].
Defined.

Lemma deduplicate_witness :
  NoDup (map adresse [acme])
  /\ String.le (source acme) (source acme_branch).
Proof.
  destruct (deduplicate_keeps_first_by_unit_type (sorter := merge_sort_values)
              [acme_branch; acme] [acme])
    as (Hnodup & _ & Hkept).
  - vm_compute. reflexivity.
  - split; [exact Hnodup|].
    destruct (Hkept acme (list_elem_of_here _ _)) as (_ & _ & Hmin & _).
    apply (Hmin acme_branch); [apply list_elem_of_here|reflexivity].
Defined.

Lemma deduplicate_idempotent_witness :
  exists rows', deduplicate (sorter := merge_sort_values) [acme] = Ok rows'
                /\ rows' ≡ₚ [acme].
Proof.
  apply (deduplicate_idempotent (sorter := merge_sort_values)
           [acme_branch; acme] [acme]).
  vm_compute. reflexivity.
Defined.

End FilterExamples.

(** ** Report markers *)

Section MarkerClaims.
Context {num : Type} {numbers : PyNum num} {lib : PyLib}.

(** *** enrich_companies.py, [generate_html_report] *)


(** *** generate_report.py, [generate_html] *)






End MarkerClaims.

Module MarkerExamples.
Import ExampleLib ExampleData.



(** The same row in [generate_html]: no marker either. *)
Example report_marker_omitted_with_one_coordinate :
  GenerateReport.markers_of (num := Q)
    [ {| GenerateReport.cells := latitude_only;
         GenerateReport.antallAnsatte := 5;
         GenerateReport._score := 0 |} ]
  = Ok [].
Proof. vm_compute. reflexivity. Qed.

(** A cell that is NaN, as a missing cell read from a CSV file is, counts
    as true in the guard: such a row gets a marker with NaN coordinates. *)
Example report_marker_of_nan_cells :
  GenerateReport.markers_of (num := Q)
    [ {| GenerateReport.cells :=
           {[ "navn" := PStr "Nord As"; "latitude" := PNaN;
              "longitude" := PNaN ]};
         GenerateReport.antallAnsatte := 5;
         GenerateReport._score := 0 |} ]
  = Ok [ {| GenerateReport.lat := FNaN; GenerateReport.lon := FNaN;
            GenerateReport.name := "Nord As";
            GenerateReport.employees := "5";
            GenerateReport.address := "";
            GenerateReport.score := 0 |} ].
Proof. vm_compute. reflexivity. Qed.

End MarkerExamples.

(** ** generate_report.py: scores and escaping *)

Section ScoreFacts.
Import GenerateReport.
Context {lib : PyLib}.
Local Open Scope Z_scope.


(** The score of a row is one of 0, 10, ..., 100. *)
Lemma calculate_score_range (row : report_row) :
  0 <= calculate_score row <= 100 /\ calculate_score row mod 10 = 0.
Proof.
  unfold calculate_score. cbv zeta.
  repeat match goal with
         | |- context [if ?c then _ else _] => destruct c
         end; split; try reflexivity; lia.
Qed.

(** With the texts of the row fixed, more employees never lower the
    score. *)
Lemma calculate_score_monotone (r1 r2 : report_row) :
  cells r1 = cells r2 ->
  antallAnsatte r1 <= antallAnsatte r2 ->
  calculate_score r1 <= calculate_score r2.
Proof.
  intros Hcells Hle. unfold calculate_score, row_get. cbv zeta.
  rewrite Hcells.
  repeat match goal with
         | |- context [existsb ?f ?l] => destruct (existsb f l)
         end;
  repeat match goal with
         | |- context [?a <=? ?b] => destruct (Z.leb_spec a b)
         end; lia.
Qed.

(** A company below 20 employees is never in the class [score-high], and
    one with 500 employees or more is never in the class [score-low]. *)
Lemma score_class_by_size (row : report_row) :
  (antallAnsatte row < 20 ->
   get_score_class (calculate_score row) <> "score-high")
  /\ (500 <= antallAnsatte row ->
      get_score_class (calculate_score row) <> "score-low").
Proof.
  unfold get_score_class, calculate_score. cbv zeta.
  split; intros Hsize;
  repeat match goal with
         | |- context [existsb ?f ?l] => destruct (existsb f l)
         end;
  repeat match goal with
         | |- context [?a <=? antallAnsatte row] =>
             destruct (Z.leb_spec a (antallAnsatte row)); try lia
         end; vm_compute; discriminate.
Qed.

End ScoreFacts.

Section EscapeFacts.
Import GenerateReport.

Lemma string_app_cons (x : ascii) (a b : string) :
  String x a +:+ b = String x (a +:+ b).
Proof. reflexivity. Qed.

Lemma string_app_assoc (a b c : string) : (a +:+ b) +:+ c = a +:+ (b +:+ c).
Proof.
  induction a as [|x a IH]; [done|]. rewrite !string_app_cons. by f_equal.
Qed.

Lemma str_replace_char_app old new a b :
  str_replace_char old new (a +:+ b)
  = str_replace_char old new a +:+ str_replace_char old new b.
Proof.
  induction a as [|c a IH]; [done|].
  rewrite string_app_cons. simpl.
  destruct (Ascii.eqb c old); rewrite IH; [|done].
  by rewrite string_app_assoc.
Qed.

(** The four replacements in a row act as one pass over the characters. *)
Lemma escape_html_cons (c : ascii) (s : string) :
  escape_html (PStr (String c s))
  = (if Ascii.eqb c "&" then "&amp;"
     else if Ascii.eqb c "<" then "&lt;"
     else if Ascii.eqb c ">" then "&gt;"
     else if Ascii.eqb c quote then "&quot;"
     else String c "")
    +:+ escape_html (PStr s).
Proof.
  unfold escape_html. simpl.
  destruct (Ascii.eqb c "&") eqn:Eamp.
  { rewrite !str_replace_char_app. reflexivity. }
  simpl. destruct (Ascii.eqb c "<") eqn:Elt.
  { rewrite !str_replace_char_app. reflexivity. }
  simpl. destruct (Ascii.eqb c ">") eqn:Egt.
  { rewrite !str_replace_char_app. reflexivity. }
  simpl. destruct (Ascii.eqb c quote) eqn:Equ; reflexivity.
Qed.

Lemma escape_html_nil : escape_html (PStr "") = "".
Proof. reflexivity. Qed.

(** The escaped text holds no [<], no [>] and no double quote. *)
Lemma escape_html_no_markup (text : pyval) :
  str_all
    (fun c => negb (Ascii.eqb c "<") && negb (Ascii.eqb c ">")
              && negb (Ascii.eqb c quote))
    (escape_html text) = true.
Proof.
  destruct text as [s| |]; [|reflexivity..].
  induction s as [|c s IH]; [reflexivity|].
  rewrite escape_html_cons.
  destruct (Ascii.eqb c "&"); [exact IH|].
  destruct (Ascii.eqb c "<") eqn:Elt; [exact IH|].
  destruct (Ascii.eqb c ">") eqn:Egt; [exact IH|].
  destruct (Ascii.eqb c quote) eqn:Equ; [exact IH|].
  simpl. rewrite Elt, Egt, Equ. exact IH.
Qed.

(** Escaping loses nothing: two strings with the same escaped text are
    equal. *)
Lemma escape_html_injective (a b : string) :
  escape_html (PStr a) = escape_html (PStr b) -> a = b.
Proof.
  revert b. induction a as [|c a IH]; intros [|d b].
  - done.
  - rewrite escape_html_cons, escape_html_nil.
    repeat case_match; discriminate.
  - rewrite escape_html_cons, escape_html_nil.
    repeat case_match; discriminate.
  - rewrite !escape_html_cons. intros Heq.
    assert (c = d /\ escape_html (PStr a) = escape_html (PStr b))
      as [-> Hrest].
    { repeat case_match;
        repeat match goal with
               | H : Ascii.eqb _ _ = true |- _ => apply Ascii.eqb_eq in H
               | H : Ascii.eqb _ _ = false |- _ => apply Ascii.eqb_neq in H
               end; subst; simpl in Heq;
        try (injection Heq; intros; subst; done);
        try (injection Heq; intros; subst; exfalso; congruence);
        try discriminate. }
    f_equal. by apply IH.
Qed.

End EscapeFacts.

Section HtmlFacts.
Import GenerateReport.
Context {num : Type} {numbers : PyNum num} {lib : PyLib}
  {sorter : SortScores}.

(** Under the guard of the loop the only exception of the marker literal
    is the [ValueError] of a [float] on a string that is no number. *)
Lemma make_marker_raises (row : report_row) e :
  truthy (row_get "latitude" PNone row) = true ->
  truthy (row_get "longitude" PNone row) = true ->
  make_marker (num := num) row = Raise e ->
  e = ValueError
  /\ (to_float (num := num) (row_get "latitude" PNone row) = Raise ValueError
      \/ to_float (num := num) (row_get "longitude" PNone row)
         = Raise ValueError).
Proof.
  unfold make_marker. intros Hla Hlo.
  destruct (row_get "latitude" PNone row) as [a| |];
    destruct (row_get "longitude" PNone row) as [b| |];
    try discriminate; simpl;
    repeat match goal with
           | |- context [py_float ?s] => destruct (py_float s)
           end; simpl; intros [= <-]; auto.
Qed.

Lemma make_marker_float_raises (row : report_row) :
  to_float (num := num) (row_get "latitude" PNone row) = Raise ValueError
  \/ to_float (num := num) (row_get "longitude" PNone row) = Raise ValueError ->
  truthy (row_get "latitude" PNone row) = true ->
  truthy (row_get "longitude" PNone row) = true ->
  exists e, make_marker (num := num) row = Raise e.
Proof.
  unfold make_marker. intros [Hf|Hf] Hla Hlo; rewrite Hf; simpl.
  - by eexists.
  - destruct (to_float (row_get "latitude" PNone row)); simpl; by eexists.
Qed.

Lemma markers_from_raise (df : list report_row)
    (acc : list (marker (num := num))) e :
  markers_from acc df = Raise e ->
  exists row, row ∈ df
    /\ truthy (row_get "latitude" PNone row) = true
    /\ truthy (row_get "longitude" PNone row) = true
    /\ make_marker (num := num) row = Raise e.
Proof.
  revert acc. induction df as [|row df IH]; intros acc; simpl; [done|].
  unfold marker_step at 1.
  destruct (truthy (row_get "latitude" PNone row)) eqn:Hla;
    destruct (truthy (row_get "longitude" PNone row)) eqn:Hlo; simpl.
  1: destruct (make_marker row) as [m|e'] eqn:Hm; simpl.
  2: { intros [= ->]. exists row. split; [left|done]. }
  all: intros (r & Hin & ?)%IH; exists r; split; [by right|done].
Qed.

Lemma markers_from_raises_on (df : list report_row)
    (acc : list (marker (num := num))) row e :
  row ∈ df ->
  truthy (row_get "latitude" PNone row) = true ->
  truthy (row_get "longitude" PNone row) = true ->
  make_marker (num := num) row = Raise e ->
  exists e', markers_from acc df = Raise e'.
Proof.
  intros Hin Hla Hlo Hm. revert acc.
  induction df as [|r df IH]; intros acc; [by apply elem_of_nil in Hin|].
  simpl. apply elem_of_cons in Hin as [<-|Hin].
  - unfold marker_step. rewrite Hla, Hlo, Hm. simpl. by eexists.
  - destruct (marker_step acc r) as [acc'|e'']; simpl; [|by eexists].
    by apply IH.
Qed.

Lemma with_score_row_get col dflt (row : report_row) :
  row_get col dflt (with_score row) = row_get col dflt row.
Proof. reflexivity. Qed.

Lemma scored_rows_elem (df : list report_row) (r : report_row) :
  r ∈ scored_rows df <-> exists row, row ∈ df /\ r = with_score row.
Proof.
  unfold scored_rows. rewrite sort_values_score_perm, list_elem_of_fmap.
  split; intros (row & ? & ?); by exists row.
Qed.

(** [generate_html] ends with an exception of the marker loop exactly
    when some row has both coordinates present and one of them is a text
    that [float] rejects; the exception is then [ValueError]. *)
Lemma generate_html_markers_error (df : list report_row) :
  df <> [] ->
  ((exists e, generate_html_markers (num := num) df = Raise e) <->
   exists row, row ∈ df
     /\ truthy (row_get "latitude" PNone row) = true
     /\ truthy (row_get "longitude" PNone row) = true
     /\ (to_float (num := num) (row_get "latitude" PNone row)
         = Raise ValueError
         \/ to_float (num := num) (row_get "longitude" PNone row)
            = Raise ValueError))
  /\ (forall e, generate_html_markers (num := num) df = Raise e ->
        e = ValueError).
Proof.
  intros _. unfold generate_html_markers, markers_of. split; [split|].
  - intros (e & (r & Hin & Hla & Hlo & Hm)%markers_from_raise).
    apply scored_rows_elem in Hin as (row & Hin & ->).
    exists row. rewrite !with_score_row_get in Hla, Hlo.
    destruct (make_marker_raises (with_score row) _ Hla Hlo Hm) as [_ Hf].
    by rewrite !with_score_row_get in Hf.
  - intros (row & Hin & Hla & Hlo & Hf).
    destruct (make_marker_float_raises (with_score row)) as [e Hm];
      rewrite ?with_score_row_get; try done.
    apply (markers_from_raises_on _ _ (with_score row) e);
      rewrite ?with_score_row_get; try done.
    apply scored_rows_elem. by exists row.
  - intros e (r & Hin & Hla & Hlo & Hm)%markers_from_raise.
    by destruct (make_marker_raises _ _ Hla Hlo Hm) as [-> _].
Qed.




End HtmlFacts.

Module ReportExamples.
Import GenerateReport ExampleLib ExampleData.

Example calculate_score_campus :
  calculate_score campus = 70%Z /\ calculate_score kiosk = 0%Z
  /\ calculate_score depot = 40%Z.
Proof. vm_compute. done. Qed.

Lemma calculate_score_monotone_witness :
  (calculate_score kiosk
   <= calculate_score (report "Kiosken As" "Butikkhandel" 250 "59.67" "10.78"))%Z.
Proof.
  apply calculate_score_monotone; [reflexivity|]. vm_compute. discriminate.
Defined.

Lemma score_class_by_size_witness :
  get_score_class (calculate_score kiosk) <> "score-high"
  /\ get_score_class (calculate_score campus) <> "score-low".
Proof.
  split.
  - apply (proj1 (score_class_by_size kiosk)). vm_compute. reflexivity.
  - apply (proj2 (score_class_by_size campus)). vm_compute. discriminate.
Defined.

Example escape_html_text :
  escape_html (PStr "Fisk & <Vilt>") = "Fisk &amp; &lt;Vilt&gt;".
Proof. vm_compute. reflexivity. Qed.

Lemma escape_html_injective_witness :
  "Fisk &amp; Vilt" = "Fisk &amp; Vilt".
Proof.
  apply escape_html_injective. vm_compute. reflexivity.
Defined.

Lemma generate_html_markers_error_witness :
  generate_html_markers (num := Q) [campus; depot] = Raise ValueError.
Proof.
  destruct (generate_html_markers_error (num := Q) [campus; depot])
    as [[_ Hraise] Hvalue]; [discriminate|].
  destruct Hraise as [e He].
  - exists depot. split; [apply list_elem_of_further, list_elem_of_here|].
    split; [reflexivity|]. split; [reflexivity|]. left. vm_compute.
    reflexivity.
  - rewrite He. f_equal. by apply Hvalue.
Defined.


End ReportExamples.
(** ** enrich_companies.py: registry lookups and their cache *)

Section RegistryFacts.
Import EnrichCompanies.
Context {num : Type} {numbers : PyNum num} {lib : PyLib}
  {brreg : Brreg num} {repr : PyRepr num}.

(** [result] keeps its four keys through both [try] blocks. *)
Lemma try_lookup_shape (answer : reply num) read a b c d :
  read = read_hovedenhet \/ read = read_underenhet ->
  exists a' b' c' d',
    try_lookup answer read
      [("hjemmeside", a); ("epostadresse", b); ("telefon", c); ("mobil", d)]
    = [("hjemmeside", a'); ("epostadresse", b'); ("telefon", c');
       ("mobil", d')].
Proof.
  intros Hread. unfold try_lookup.
  destruct answer as [|code body]; [by repeat eexists|].
  destruct (code =? 200)%Z; [|by repeat eexists].
  destruct body as [data|]; [|by repeat eexists].
  destruct Hread as [-> | ->].
  - destruct data; simpl; repeat eexists.
  - destruct data; simpl; try by repeat eexists.
    destruct (json_truthy b); simpl; destruct (json_truthy c); simpl;
      destruct (json_truthy d); simpl; repeat eexists.
Qed.

Lemma try_lookup_no_data (answer : reply num) read result :
  read = read_hovedenhet \/ read = read_underenhet ->
  no_data answer ->
  try_lookup answer read result = result.
Proof.
  intros Hread Hno. unfold try_lookup.
  destruct answer as [|code body]; [done|].
  destruct (code =? 200)%Z eqn:Hcode; [|done].
  destruct body as [data|]; [|done].
  apply Z.eqb_eq in Hcode.
  destruct data; simpl in Hno; try done;
    destruct Hread as [-> | ->]; reflexivity.
Qed.

Lemma get_brreg_info_hit orgnr (w : world num) cached :
  cache w !! ("brreg_" +:+ orgnr) = Some cached ->
  get_brreg_info orgnr w = (cached, w).
Proof. intros Hhit. unfold get_brreg_info. by rewrite Hhit. Qed.

Lemma get_brreg_info_miss orgnr (w : world num) :
  cache w !! ("brreg_" +:+ orgnr) = None ->
  exists a b c d sent',
    get_brreg_info orgnr w
    = (JDict [("hjemmeside", a); ("epostadresse", b); ("telefon", c);
              ("mobil", d)],
       {| cache :=
            <["brreg_" +:+ orgnr :=
                JDict [("hjemmeside", a); ("epostadresse", b);
                       ("telefon", c); ("mobil", d)]]> (cache w);
          requests_sent := requests_sent w ++ sent' |})
    /\ (sent' = [BRREG_API +:+ "/" +:+ orgnr]
        \/ sent' = [BRREG_API +:+ "/" +:+ orgnr;
                    BRREG_UNDERENHETER_API +:+ "/" +:+ orgnr]).
Proof.
  intros Hmiss. unfold get_brreg_info. rewrite Hmiss. cbv zeta.
  destruct (try_lookup_shape
              (requests_get (requests_sent w) (BRREG_API +:+ "/" +:+ orgnr))
              read_hovedenhet JNull JNull JNull JNull)
    as (a & b & c & d & ->); [by left|].
  destruct (negb (json_truthy
              (dict_get_default "hjemmeside" JNull
                 [("hjemmeside", a); ("epostadresse", b); ("telefon", c);
                  ("mobil", d)]))).
  - destruct (try_lookup_shape
                (requests_get
                   (requests_sent w ++ [BRREG_API +:+ "/" +:+ orgnr])
                   (BRREG_UNDERENHETER_API +:+ "/" +:+ orgnr))
                read_underenhet a b c d)
      as (a' & b' & c' & d' & ->); [by right|].
    exists a', b', c', d', [BRREG_API +:+ "/" +:+ orgnr;
                            BRREG_UNDERENHETER_API +:+ "/" +:+ orgnr].
    split; [|by right]. by rewrite <- app_assoc.
  - exists a, b, c, d, [BRREG_API +:+ "/" +:+ orgnr]. split; [done|by left].
Qed.

(** A lookup of a company is answered from the cache from the second
    call on: the same result, no request, the state unchanged. This
    holds for a lookup that failed as for one that succeeded. *)
Lemma get_brreg_info_idempotent orgnr (w : world num) :
  get_brreg_info orgnr (get_brreg_info orgnr w).2 = get_brreg_info orgnr w.
Proof.
  destruct (cache w !! ("brreg_" +:+ orgnr)) as [cached|] eqn:Hc.
  - rewrite (get_brreg_info_hit _ _ _ Hc). simpl.
    by apply get_brreg_info_hit.
  - destruct (get_brreg_info_miss _ _ Hc) as (a & b & c & d & s & -> & _).
    simpl. apply get_brreg_info_hit. simpl. by rewrite lookup_insert_eq.
Qed.

(** A call sends no request on a hit and, on a miss, the request for the
    main unit and then at most the one for the sub-unit; it stores its
    result under its key and leaves every other cache entry as it was. *)
Lemma get_brreg_info_effect orgnr (w : world num) :
  let r := (get_brreg_info orgnr w).1 in
  let w' := (get_brreg_info orgnr w).2 in
  match cache w !! ("brreg_" +:+ orgnr) with
  | Some cached => r = cached /\ w' = w
  | None =>
      cache w' = <["brreg_" +:+ orgnr := r]> (cache w)
      /\ (requests_sent w'
          = requests_sent w ++ [BRREG_API +:+ "/" +:+ orgnr]
          \/ requests_sent w'
             = requests_sent w ++ [BRREG_API +:+ "/" +:+ orgnr;
                                   BRREG_UNDERENHETER_API +:+ "/" +:+ orgnr])
  end.
Proof.
  cbv zeta. destruct (cache w !! ("brreg_" +:+ orgnr)) as [cached|] eqn:Hc.
  - by rewrite (get_brreg_info_hit _ _ _ Hc).
  - destruct (get_brreg_info_miss _ _ Hc)
      as (a & b & c & d & s & -> & [-> | ->]); simpl; auto.
Qed.

(** When neither lookup brings data, the result with its four fields
    empty is returned and stored: later calls do not ask again. *)
Lemma get_brreg_info_no_data orgnr (w : world num) :
  cache w !! ("brreg_" +:+ orgnr) = None ->
  no_data (requests_get (requests_sent w) (BRREG_API +:+ "/" +:+ orgnr)) ->
  no_data
    (requests_get (requests_sent w ++ [BRREG_API +:+ "/" +:+ orgnr])
       (BRREG_UNDERENHETER_API +:+ "/" +:+ orgnr)) ->
  let empty :=
    JDict [("hjemmeside", JNull); ("epostadresse", JNull);
           ("telefon", JNull); ("mobil", JNull)] in
  (get_brreg_info orgnr w).1 = empty
  /\ cache (get_brreg_info orgnr w).2 !! ("brreg_" +:+ orgnr) = Some empty
  /\ forall w' : world num,
       cache w' !! ("brreg_" +:+ orgnr) = Some empty ->
       get_brreg_info orgnr w' = (empty, w').
Proof.
  intros Hmiss Hfirst Hsecond empty. unfold get_brreg_info.
  rewrite Hmiss. cbv zeta.
  rewrite (try_lookup_no_data _ read_hovedenhet) by auto. simpl.
  rewrite (try_lookup_no_data _ read_underenhet) by auto. simpl.
  split; [done|]. split; [by rewrite lookup_insert_eq|].
  intros w' Hw'. by rewrite Hw'.
Qed.

End RegistryFacts.

Section RegistryRun.
Import EnrichCompanies.
Context {num : Type} {numbers : PyNum num} {lib : PyLib}
  {brreg : Brreg num} {repr : PyRepr num}.

Lemma get_brreg_info_grows orgnr (w : world num) :
  let w' := (get_brreg_info orgnr w).2 in
  cache w ⊆ cache w'
  /\ is_Some (cache w' !! ("brreg_" +:+ orgnr))
  /\ exists sent',
       requests_sent w' = requests_sent w ++ sent'
       /\ length sent' <= 2
       /\ (is_Some (cache w !! ("brreg_" +:+ orgnr)) -> sent' = []).
Proof.
  cbv zeta. destruct (cache w !! ("brreg_" +:+ orgnr)) as [cached|] eqn:Hc.
  - rewrite (get_brreg_info_hit _ _ _ Hc). simpl.
    split; [done|]. split; [by rewrite Hc|].
    exists []. rewrite app_nil_r. split_and!; [done|simpl; lia|done].
  - destruct (get_brreg_info_miss _ _ Hc)
      as (a & b & c & d & s & -> & Hs); simpl.
    split; [by apply insert_subseteq|].
    split; [by rewrite lookup_insert_eq|].
    exists s. split; [done|]. split.
    + destruct Hs as [-> | ->]; simpl; lia.
    + by intros [? ?].
Qed.

Lemma search_proff_no_grows name orgnr (w : world num) :
  let w' := (search_proff_no name orgnr w).2 in
  cache w ⊆ cache w'
  /\ is_Some (cache w' !! ("proff_" +:+ orgnr))
  /\ requests_sent w' = requests_sent w.
Proof.
  cbv zeta. unfold search_proff_no.
  destruct (cache w !! ("proff_" +:+ orgnr)) as [cached|] eqn:Hc; simpl.
  - by rewrite Hc.
  - split; [by apply insert_subseteq|]. by rewrite lookup_insert_eq.
Qed.

Lemma is_Some_subseteq (c c' : gmap string (json num)) k :
  c ⊆ c' -> is_Some (c !! k) -> is_Some (c' !! k).
Proof.
  intros Hsub [v Hv]. exists v. by eapply lookup_weaken.
Qed.

Lemma enrich_company_grows (row : gmap string pyval) (w : world num) :
  let orgnr := py_str (row_get_or "organisasjonsnummer" (PStr "") row) in
  let w' := (enrich_company row w).2 in
  cache w ⊆ cache w'
  /\ is_Some (cache w' !! ("brreg_" +:+ orgnr))
  /\ is_Some (cache w' !! ("proff_" +:+ orgnr))
  /\ exists sent',
       requests_sent w' = requests_sent w ++ sent'
       /\ length sent' <= 2
       /\ (is_Some (cache w !! brreg_key row) -> sent' = []).
Proof.
  cbv zeta. unfold enrich_company, brreg_key.
  set (orgnr := py_str (row_get_or "organisasjonsnummer" (PStr "") row)).
  pose proof (get_brreg_info_grows orgnr w) as Hb. cbv zeta in Hb.
  destruct (get_brreg_info orgnr w) as [info w1]. simpl in Hb.
  pose proof (search_proff_no_grows (row_get_or "navn" (PStr "") row)
                orgnr w1) as Hp. cbv zeta in Hp.
  destruct (search_proff_no (row_get_or "navn" (PStr "") row) orgnr w1)
    as [proff w2]. simpl in Hp. simpl.
  destruct Hb as (Hsub1 & Hkey1 & sent' & Hsent & Hlen & Hhit).
  destruct Hp as (Hsub2 & Hkey2 & Hsent2).
  split; [by etrans|]. split; [by eapply is_Some_subseteq|].
  split; [done|]. exists sent'. by rewrite Hsent2.
Qed.

Lemma enrich_company_fields (row : gmap string pyval) (w w' : world num) r :
  enrich_company row w = (Ok r, w') ->
  organisasjonsnummer r
  = py_str (row_get_or "organisasjonsnummer" (PStr "") row)
  /\ navn r = row_get_or "navn" (PStr "") row
  /\ antallAnsatte r = row_get "antallAnsatte" row
  /\ adresse r = row_get "adresse" row
  /\ latitude r = row_get "latitude" row
  /\ longitude r = row_get "longitude" row
  /\ exists website,
       normalize_url_of (num := num) website = Ok (hjemmeside r).
Proof.
  unfold enrich_company.
  destruct (get_brreg_info _ w) as [info w1].
  destruct (search_proff_no _ _ w1) as [proff w2].
  destruct (json_get info "hjemmeside") as [website|]; simpl; [|done].
  destruct (normalize_url_of website) as [site|] eqn:Hsite; simpl; [|done].
  destruct (json_get info "epostadresse"); simpl; [|done].
  destruct (json_get info "telefon"); simpl; [|done].
  destruct (json_get info "mobil"); simpl; [|done].
  destruct (json_get proff "proff_url"); simpl; [|done].
  intros [= <- <-]. simpl. split_and!; try done. by exists website.
Qed.

Lemma startswith_https (url : string) :
  startswith "https://" ("https://" +:+ url) = true.
Proof.
  unfold startswith. rewrite !string_app_cons. cbn.
  by destruct ("" +:+ url).
Qed.

(** The website of an enriched company is None or a text that begins
    with [http://] or [https://]. *)
Lemma enrich_company_website (row : gmap string pyval) (w w' : world num) r :
  enrich_company row w = (Ok r, w') ->
  hjemmeside r = JNull
  \/ exists url,
       hjemmeside r = JStr url
       /\ startswith "http://" url || startswith "https://" url = true.
Proof.
  intros (_ & _ & _ & _ & _ & _ & website & Hsite)%enrich_company_fields.
  unfold normalize_url_of in Hsite.
  destruct website as [|b|x|s|l|d];
    try (destruct (json_truthy _); [done|injection Hsite as <-; by left]).
  injection Hsite as <-. unfold normalize_url.
  destruct s as [|c s]; [by left|].
  destruct (startswith "http://" (str_strip (String c s))
            || startswith "https://" (str_strip (String c s))) eqn:Hscheme.
  - right. by eexists.
  - right. eexists. split; [reflexivity|].
    by rewrite startswith_https, orb_true_r.
Qed.

End RegistryRun.

Section RegistryMain.
Import EnrichCompanies.
Context {num : Type} {numbers : PyNum num} {lib : PyLib}
  {brreg : Brreg num} {repr : PyRepr num}.

Lemma api_calls_needed_count (df : list (gmap string pyval))
    (c : gmap string (json num)) :
  api_calls_needed df c
  = length (filter (fun row => ~ is_Some (c !! brreg_key row)) df).
Proof.
  unfold api_calls_needed, cached_count.
  induction df as [|row df IH]; [done|].
  rewrite !filter_cons.
  pose proof (length_filter (fun row => is_Some (c !! brreg_key row)) df).
  destruct (decide (is_Some (c !! brreg_key row)));
    destruct (decide (~ is_Some (c !! brreg_key row))); try done; simpl;
    lia.
Qed.

Lemma uncached_mono (df : list (gmap string pyval))
    (c c' : gmap string (json num)) :
  c ⊆ c' ->
  length (filter (fun row => ~ is_Some (c' !! brreg_key row)) df)
  <= length (filter (fun row => ~ is_Some (c !! brreg_key row)) df).
Proof.
  intros Hsub. induction df as [|row df IH]; [done|].
  rewrite !filter_cons.
  destruct (decide (~ is_Some (c' !! brreg_key row))) as [Hn'|Hs'];
    destruct (decide (~ is_Some (c !! brreg_key row))) as [Hn|Hs];
    simpl; try lia.
  exfalso. apply Hn'. apply (is_Some_subseteq c c'); [done|].
  by apply dec_stable.
Qed.

Lemma enrich_loop_effect (df : list (gmap string pyval)) idx acc
    (w w' : world num) disk disk' res :
  disk ⊆ cache w ->
  enrich_loop df idx acc w disk = (res, w', disk') ->
  cache w ⊆ cache w' /\ disk ⊆ disk' /\ disk' ⊆ cache w'
  /\ exists sent',
       requests_sent w' = requests_sent w ++ sent'
       /\ length sent'
          <= 2 * length (filter (fun row => ~ is_Some (cache w !! brreg_key row))
                           df).
Proof.
  revert idx acc w disk.
  induction df as [|row df IH]; intros idx acc w disk Hdisk; simpl.
  - intros [= <- <- <-]. split_and!; try done.
    exists []. by rewrite app_nil_r.
  - pose proof (enrich_company_grows row w) as Hstep. cbv zeta in Hstep.
    destruct (enrich_company row w) as [[r|e] w1]; simpl in Hstep;
      destruct Hstep as (Hsub & _ & _ & sent1 & Hsent1 & Hlen1 & Hhit1).
    + intros Hloop. apply IH in Hloop as (Hsub' & Hd1 & Hd2 & sent2 & Hsent2 & Hlen2).
      2: { destruct (_ =? _); [done|by etrans]. }
      split; [by etrans|]. split.
      { etrans; [|exact Hd1]. destruct (_ =? _); [by etrans|done]. }
      split; [done|].
      exists (sent1 ++ sent2). split.
      { by rewrite Hsent2, Hsent1, <- app_assoc. }
      rewrite length_app, filter_cons.
      pose proof (uncached_mono df _ _ Hsub).
      destruct (decide (~ is_Some (cache w !! brreg_key row))) as [Hn|Hs];
        simpl; [lia|].
      rewrite (Hhit1 (dec_stable Hs)). simpl. lia.
    + intros [= <- <- <-]. split; [done|]. split; [done|].
      split; [by etrans|].
      exists sent1. split; [done|]. rewrite filter_cons.
      destruct (decide (~ is_Some (cache w !! brreg_key row))) as [Hn|Hs];
        simpl; [lia|].
      rewrite (Hhit1 (dec_stable Hs)). simpl. lia.
Qed.

Lemma enrich_loop_cache_grows (df : list (gmap string pyval)) idx acc
    (w w' : world num) disk disk' res :
  enrich_loop df idx acc w disk = (res, w', disk') ->
  cache w ⊆ cache w'.
Proof.
  revert idx acc w disk.
  induction df as [|row df IH]; intros idx acc w disk; simpl.
  - by intros [= <- <- <-].
  - pose proof (enrich_company_grows row w) as Hstep. cbv zeta in Hstep.
    destruct (enrich_company row w) as [[r|e] w1]; simpl in Hstep;
      destruct Hstep as (Hsub & _).
    + intros Hloop%IH. by etrans.
    + by intros [= <- <- <-].
Qed.

Lemma enrich_loop_rows (df : list (gmap string pyval)) idx acc
    (w w' : world num) disk disk' rows :
  enrich_loop df idx acc w disk = (Ok rows, w', disk') ->
  exists new,
    rows = acc ++ new
    /\ Forall2
         (fun row r =>
            organisasjonsnummer r
            = py_str (row_get_or "organisasjonsnummer" (PStr "") row)
            /\ navn r = row_get_or "navn" (PStr "") row
            /\ antallAnsatte r = row_get "antallAnsatte" row
            /\ adresse r = row_get "adresse" row
            /\ latitude r = row_get "latitude" row
            /\ longitude r = row_get "longitude" row)
         df new
    /\ forall r, r ∈ new ->
         is_Some (cache w' !! ("brreg_" +:+ organisasjonsnummer r))
         /\ is_Some (cache w' !! ("proff_" +:+ organisasjonsnummer r)).
Proof.
  revert idx acc w disk.
  induction df as [|row df IH]; intros idx acc w disk; simpl.
  - intros [= <- <- <-]. exists []. rewrite app_nil_r.
    split; [done|]. split; [constructor|].
    intros r Hr. by apply elem_of_nil in Hr.
  - pose proof (enrich_company_grows row w) as Hstep. cbv zeta in Hstep.
    destruct (enrich_company row w) as [[r|e] w1] eqn:Hrow; [|done].
    simpl in Hstep. destruct Hstep as (_ & Hb & Hp & _).
    apply enrich_company_fields in Hrow
      as (Horg & Hnavn & Hant & Hadr & Hlat & Hlon & _).
    intros Hloop.
    pose proof (enrich_loop_cache_grows _ _ _ _ _ _ _ _ Hloop) as Hsub.
    apply IH in Hloop as (new & -> & Hall & Hkeys).
    exists (r :: new). split; [by rewrite <- app_assoc|].
    split; [by constructor|].
    intros r' [->|Hr']%elem_of_cons; [|by apply Hkeys].
    rewrite Horg. split; by eapply is_Some_subseteq.
Qed.


(** The run fetches at most two URLs for each company that [main]
    announces as an API call: a company whose key is in the cache file
    costs no request. *)
Lemma main_requests_bound (df df' : list (gmap string pyval))
    disk sent res (w' : world num) disk' :
  drop_duplicates df = Ok df' ->
  main df disk sent = (res, w', disk') ->
  exists sent',
    requests_sent w' = sent ++ sent'
    /\ length sent' <= 2 * api_calls_needed df' disk.
Proof.
  intros Hdedup. unfold main. rewrite Hdedup.
  destruct (enrich_loop df' 0 [] _ disk) as [[res1 w1] disk1] eqn:Hloop.
  apply enrich_loop_effect in Hloop as (_ & _ & _ & sent' & Hsent & Hlen);
    [|done].
  simpl in Hsent, Hlen. rewrite api_calls_needed_count.
  destruct res1; intros [= <- <- <-]; by exists sent'.
Qed.

(** A run never removes or changes an entry of the cache: the cache file
    only grows, holds nothing the cache in memory does not hold, and
    after a run that ends normally it is the cache in memory, with an
    entry of the registry and one of the search link for every company
    of the result. *)
Lemma main_cache_grows (df : list (gmap string pyval))
    disk sent res (w' : world num) disk' :
  main df disk sent = (res, w', disk') ->
  disk ⊆ disk' /\ disk' ⊆ cache w'
  /\ forall rows, res = Ok rows ->
       disk' = cache w'
       /\ forall r, r ∈ rows ->
            is_Some (disk' !! ("brreg_" +:+ organisasjonsnummer r))
            /\ is_Some (disk' !! ("proff_" +:+ organisasjonsnummer r)).
Proof.
  unfold main. destruct (drop_duplicates df) as [df'|e].
  2: { intros [= <- <- <-]. by split_and!. }
  destruct (enrich_loop df' 0 [] _ disk) as [[res1 w1] disk1] eqn:Hloop.
  pose proof Hloop as Heffect.
  apply enrich_loop_effect in Heffect as (Hsub & Hd1 & Hd2 & _); [|done].
  simpl in Hsub.
  destruct res1 as [rows1|e]; intros [= <- <- <-].
  - split; [done|]. split; [done|]. intros rows [= <-]. split; [done|].
    apply enrich_loop_rows in Hloop as (new & -> & _ & Hkeys).
    intros r Hr. by apply Hkeys.
  - by split_and!.
Qed.


End RegistryMain.

Module RegistryExamples.
Import EnrichCompanies ExampleLib ExampleData.

(** The run fetches three URLs for its two companies and returns two
    rows. *)
Example enrichment_run :
  requests_sent enrichment.1.2
  = [ BRREG_API +:+ "/912345678";
      BRREG_API +:+ "/999999999";
      BRREG_UNDERENHETER_API +:+ "/999999999" ]
  /\ (exists rows, enrichment.1.1 = Ok rows
        /\ map organisasjonsnummer rows = ["912345678"; "999999999"]
        /\ map hjemmeside rows = [JStr "https://www.acme.no"; JNull]
        /\ map telefon rows = [JStr "+4722334455"; JNull]).
Proof. split; [vm_compute; reflexivity|]. eexists. vm_compute. done. Qed.

Lemma get_brreg_info_no_data_witness :
  (get_brreg_info (num := Q) "999999999"
     {| cache := ∅; requests_sent := [] |}).1
  = JDict [("hjemmeside", JNull); ("epostadresse", JNull);
           ("telefon", JNull); ("mobil", JNull)].
Proof.
  apply (get_brreg_info_no_data (num := Q) "999999999"
           {| cache := ∅; requests_sent := [] |}).
  - reflexivity.
  - vm_compute. exact I.
  - vm_compute. exact I.
Defined.

Lemma enrich_company_website_witness :
  exists r w',
    enrich_company (num := Q) (csv (PStr "912345678") "acme as")
      {| cache := ∅; requests_sent := [] |} = (Ok r, w')
    /\ (hjemmeside r = JNull
        \/ exists url,
             hjemmeside r = JStr url
             /\ startswith "http://" url || startswith "https://" url = true).
Proof.
  destruct (enrich_company (num := Q) (csv (PStr "912345678") "acme as")
              {| cache := ∅; requests_sent := [] |}) as [[r|e] w'] eqn:Hrun;
    [|vm_compute in Hrun; discriminate].
  exists r, w'. split; [reflexivity|].
  exact (enrich_company_website _ _ _ _ Hrun).
Defined.

Lemma main_requests_bound_witness :
  exists sent',
    requests_sent enrichment.1.2 = [] ++ sent' /\ length sent' <= 2 * 2.
Proof.
  destruct enrichment as [[res w'] disk'] eqn:Hrun.
  destruct (main_requests_bound (num := Q) batch
              [csv (PStr "912345678") "acme as";
               csv (PStr "999999999") "ukjent as"]
              ∅ [] res w' disk') as (sent' & Hsent & Hlen).
  - vm_compute. reflexivity.
  - exact Hrun.
  - exists sent'. split; [exact Hsent|]. vm_compute in Hlen. exact Hlen.
Defined.

Lemma main_cache_grows_witness :
  (∅ : gmap string (json Q)) ⊆ enrichment.2
  /\ enrichment.2 ⊆ cache enrichment.1.2.
Proof.
  destruct enrichment as [[res w'] disk'] eqn:Hrun.
  destruct (main_cache_grows (num := Q) batch ∅ [] res w' disk' Hrun)
    as (Hgrow & Hfile & _).
  split; [exact Hgrow|exact Hfile].
Defined.


End RegistryExamples.
(** ** google_sheets.py: the written table *)

Section SortFacts.
Context {A : Type} (key : A -> string).

Lemma leb_refl (k : string) : String.leb k k = true.
Proof. by destruct (String.leb_total k k). Qed.

Lemma insert_by_Sorted (x : A) (l : list A) :
  Sorted (fun a b => String.leb (key a) (key b) = true) l ->
  Sorted (fun a b => String.leb (key a) (key b) = true) (insert_by key x l).
Proof.
  induction l as [|y l IH]; simpl; intros Hsorted.
  - by repeat constructor.
  - destruct (String.leb (key x) (key y)) eqn:Hxy.
    + constructor; [done|]. by constructor.
    + apply Sorted_inv in Hsorted as [Hl Hhd].
      constructor; [by apply IH|].
      destruct l as [|z l]; simpl.
      * constructor. destruct (String.leb_total (key x) (key y)); congruence.
      * destruct (String.leb (key x) (key z)).
        -- constructor.
           destruct (String.leb_total (key x) (key y)); congruence.
        -- constructor. by apply HdRel_inv in Hhd.
Qed.

Lemma stable_sort_by_Sorted (l : list A) :
  Sorted (fun a b => String.leb (key a) (key b) = true) (stable_sort_by key l).
Proof.
  induction l as [|x l IH]; simpl; [constructor|]. by apply insert_by_Sorted.
Qed.

Lemma insert_by_filter (x : A) (l : list A) (k : string) :
  filter (fun a => key a = k) (insert_by key x l)
  = filter (fun a => key a = k) (x :: l).
Proof.
  induction l as [|y l IH]; simpl; [done|].
  destruct (String.leb (key x) (key y)) eqn:Hxy; [done|].
  rewrite filter_cons, IH, !filter_cons.
  destruct (decide (key y = k)) as [Hy|Hy];
    destruct (decide (key x = k)) as [Hx|Hx]; try done.
  exfalso. rewrite Hx, <- Hy, leb_refl in Hxy. done.
Qed.

(** The sort is stable: the elements of one key keep their order. *)
Lemma stable_sort_by_filter (l : list A) (k : string) :
  filter (fun a => key a = k) (stable_sort_by key l)
  = filter (fun a => key a = k) l.
Proof.
  induction l as [|x l IH]; simpl; [done|].
  by rewrite insert_by_filter, !filter_cons, IH.
Qed.

End SortFacts.

Section TableFacts.
Import GoogleSheets.
Context {lib : PyLib}.

Lemma sync_rows_sorted s df area cid now :
  let cid' := resolve_cluster_id area cid in
  let em := build_existing_map (ALL_COLUMNS :: data_rows s) in
  data_rows (sync_companies s df area cid now).1
  = stable_sort_by sort_key
      (csv_sheet_rows cid' area now em df
       ++ preserved_rows em (map csv_orgnr df)).
Proof.
  intros cid' em. unfold sync_companies, data_rows at 1. simpl.
  rewrite csv_loop_new_rows. simpl.
  unfold _get_sheet_data. by rewrite ensure_headers_shape.
Qed.

(** The table a sync writes has the header as its first row and, below
    it, rows of one cell for every column. *)
Lemma sync_writes_full_rows (s : sheet) (df : list df_row)
    (area cid now : string) :
  head (sync_companies s df area cid now).1 = Some ALL_COLUMNS
  /\ Forall (fun row => length row = length ALL_COLUMNS)
       (data_rows (sync_companies s df area cid now).1).
Proof.
  split; [reflexivity|]. rewrite sync_rows. apply Forall_app. split.
  - apply Forall_forall. intros row (csv_row & _ & _ & ->)%csv_sheet_rows_elem.
    apply csv_sheet_row_length.
  - apply Forall_forall. intros row (K & e & _ & _ & ->)%preserved_rows_elem.
    apply to_sheet_row_length.
Qed.

(** The rows are written in the order of their lower-cased names; rows
    of one name keep their order: those of the batch first, in the order
    of the batch, then the rows kept from the sheet. *)
Lemma sync_rows_by_name (s : sheet) (df : list df_row)
    (area cid now : string) :
  let rows := data_rows (sync_companies s df area cid now).1 in
  let cid' := resolve_cluster_id area cid in
  let em := build_existing_map (ALL_COLUMNS :: data_rows s) in
  Sorted (fun a b => String.leb (sort_key a) (sort_key b) = true) rows
  /\ forall k,
       filter (fun r => sort_key r = k) rows
       = filter (fun r => sort_key r = k) (csv_sheet_rows cid' area now em df)
         ++ filter (fun r => sort_key r = k)
              (preserved_rows em (map csv_orgnr df)).
Proof.
  cbv zeta. rewrite sync_rows_sorted. split.
  - apply stable_sort_by_Sorted.
  - intros k. by rewrite stable_sort_by_filter, filter_app.
Qed.

End TableFacts.

Section NewCompanies.
Import GoogleSheets.
Context {lib : PyLib}.

(** A company of the batch that the sheet does not hold yet is written
    with the status [not started yet] and the other sales columns
    empty. *)
Lemma sync_new_company_defaults
    (s : sheet) (df : list df_row) (area cid now : string)
    (csv_row : df_row) (orgnr : string) :
  csv_row ∈ df ->
  df_get "organisasjonsnummer" csv_row = PStr orgnr ->
  orgnr <> "" ->
  (forall r, r ∈ data_rows s -> cell "organisasjonsnummer" r <> orgnr) ->
  let written := data_rows (sync_companies s df area cid now).1 in
  (exists out, out ∈ written /\ cell "organisasjonsnummer" out = orgnr)
  /\ forall out, out ∈ written ->
       cell "organisasjonsnummer" out = orgnr ->
       cell "status" out = "not started yet"
       /\ cell "sist_kontaktet" out = ""
       /\ cell "neste_oppfolging" out = ""
       /\ cell "interne_notater" out = ""
       /\ cell "ansvarlig" out = "".
Proof.
  intros Hdf Hcell Hkey Hnew written.
  assert (Hcsv : csv_orgnr csv_row = orgnr).
  { unfold csv_orgnr. by rewrite Hcell. }
  set (cid' := resolve_cluster_id area cid).
  set (em := build_existing_map (ALL_COLUMNS :: data_rows s)).
  assert (Hem : dict_get orgnr em = None) by by apply existing_map_absent.
  split.
  - exists (csv_sheet_row cid' area now em csv_row). split.
    + unfold written. rewrite sync_rows. apply elem_of_app. left.
      apply csv_sheet_rows_elem. exists csv_row. by rewrite Hcsv.
    + rewrite csv_sheet_row_script by (vm_compute; set_solver).
      unfold script_value. by rewrite Hcell.
  - intros out Hout Hoc. unfold written in Hout. rewrite sync_rows in Hout.
    apply elem_of_app in Hout as [Hout|Hout].
    + apply csv_sheet_rows_elem in Hout as (row & Hrow & Hne & ->).
      assert (csv_orgnr row = orgnr) as Hsame.
      { pose proof Hoc as Hoc'.
        rewrite csv_sheet_row_script in Hoc' by (vm_compute; set_solver).
        destruct (script_value_orgnr row) as [E|E]; congruence. }
      pose proof (csv_sheet_row_sales_new cid' area now em row) as Hsales.
      rewrite Hsame in Hsales. specialize (Hsales Hem).
      injection Hsales as H1 H2 H3 H4 H5.
      split_and!; [exact H1|exact H2|exact H3|exact H4|exact H5].
    + exfalso.
      apply preserved_rows_elem in Hout as (K & e & Hin & HK & ->).
      apply dict_get_NoDup_elem_of in Hin;
        [|apply build_existing_map_keys_NoDup].
      apply existing_map_Some in Hin as (b & r0 & a & Hrows & Hk0 & _ & -> & _).
      rewrite to_sheet_row_row_dict_cell in Hoc by (vm_compute; set_solver).
      apply (Hnew r0); [|done].
      rewrite Hrows. apply elem_of_app. right. left.
Qed.

Lemma prefix_char (c d : ascii) (s : string) :
  String.prefix (String c "") (String d s) = Ascii.eqb c d.
Proof.
  simpl. destruct (ascii_dec c d) as [->|Hne].
  - rewrite Ascii.eqb_refl. by destruct s.
  - symmetry. by apply Ascii.eqb_neq.
Qed.

Lemma before_first_split (sep : ascii) (s : string) :
  str_contains (String sep "") (before_first sep s) = false
  /\ exists rest,
       s = before_first sep s +:+ rest
       /\ (rest = ""
           \/ (startswith (String sep "") rest = true
               /\ str_contains (String sep "") s = true)).
Proof.
  induction s as [|c s (IHno & rest & IHeq & IHrest)].
  - split; [done|]. exists "". by split; [|left].
  - cbn [before_first]. destruct (Ascii.eqb c sep) eqn:Hc.
    + apply Ascii.eqb_eq in Hc as ->. split; [done|].
      exists (String sep s). split; [done|]. right.
      unfold startswith. cbn [str_contains].
      by rewrite prefix_char, Ascii.eqb_refl.
    + split.
      * cbn [str_contains]. rewrite prefix_char, IHno.
        rewrite Ascii.eqb_sym, Hc. done.
      * exists rest. split; [by rewrite string_app_cons, <- IHeq|].
        destruct IHrest as [->|[Hp Hs]]; [by left|right].
        split; [done|]. cbn [str_contains]. by rewrite Hs, orb_true_r.
Qed.

(** The area of a CSV file is the part of its name before the first
    underscore: it holds no underscore, and the name is the area alone or
    the area followed by an underscore and more. *)
Lemma area_name_prefix (stem : string) :
  str_contains "_" (area_name stem) = false
  /\ exists rest,
       stem = area_name stem +:+ rest
       /\ (rest = "" \/ startswith "_" rest = true).
Proof.
  unfold area_name.
  destruct (before_first_split "_" stem) as (Hno & rest & Heq & Hrest).
  destruct (str_contains "_" stem) eqn:Hhas.
  - split; [done|]. exists rest. split; [done|].
    destruct Hrest as [->|[Hp _]]; auto.
  - split; [done|]. exists "". split; [|by left].
    clear. induction stem as [|c stem IH]; [done|].
    by rewrite string_app_cons, <- IH.
Qed.

End NewCompanies.
(** ** filter_companies.py: the cache and the requests of a run *)

Section GeocoderEffect.
Import FilterCompanies.
Context {num : Type} {numbers : PyNum num} {lib : PyLib}
  {kartverket : Kartverket num}.

(** A call touches the entry of its own key only. On a hit it changes
    nothing; on a miss it sends one request, and stores what it returns
    unless it ends with an exception, which leaves the cache as it
    was. *)
Lemma geocode_address_frame
    (address postal_code city municipality_code : pyval) (today : string)
    (w : world num) :
  let key := cache_key address postal_code city in
  let res := (geocode_address address postal_code city municipality_code
                today w).1 in
  let w' := (geocode_address address postal_code city municipality_code
               today w).2 in
  (forall k, k <> key -> cache w' !! k = cache w !! k)
  /\ match cache w !! key with
     | Some _ => w' = w
     | None =>
         requests_sent w'
         = requests_sent w
           ++ [request_for address postal_code city municipality_code]
         /\ match res with
            | Ok (la, lo) =>
                cache w' !! key
                = Some {| lat := la; lon := lo; timestamp := today |}
            | Raise _ => cache w' = cache w
            end
     end.
Proof.
  cbv zeta.
  destruct (cache w !! cache_key address postal_code city) as [entry|] eqn:Hc.
  - unfold geocode_address. rewrite Hc. simpl. by split.
  - rewrite (geocode_miss _ _ _ _ _ _ Hc). cbv zeta.
    destruct (kartverket_sok _ _) as [| |data]; simpl.
    3: destruct (read_payload data) as [[[la lo]|]|e]; simpl.
    5: destruct (caught e); simpl.
    all: split; [intros k Hk; try done; by rewrite lookup_insert_ne|].
    all: split; [done|]; try done; by rewrite lookup_insert_eq.
Qed.

Lemma geocode_address_grows
    (address postal_code city municipality_code : pyval) (today : string)
    (w : world num) :
  let w' := (geocode_address address postal_code city municipality_code
               today w).2 in
  cache w ⊆ cache w'
  /\ exists sent',
       requests_sent w' = requests_sent w ++ sent'
       /\ length sent' <= 1
       /\ (is_Some (cache w !! cache_key address postal_code city) ->
           sent' = [])
       /\ (length sent' = 1 ->
           (exists e,
              (geocode_address address postal_code city municipality_code
                 today w).1 = Raise e)
           \/ is_Some (cache w' !! cache_key address postal_code city)).
Proof.
  cbv zeta.
  destruct (cache w !! cache_key address postal_code city) as [entry|] eqn:Hc.
  - unfold geocode_address. rewrite Hc. simpl. split; [done|].
    exists []. rewrite app_nil_r. split_and!; try done; simpl; lia.
  - rewrite (geocode_miss _ _ _ _ _ _ Hc). cbv zeta.
    destruct (kartverket_sok _ _) as [| |data]; simpl.
    3: destruct (read_payload data) as [[[la lo]|]|e]; simpl.
    5: destruct (caught e); simpl.
    all: split; [try done; by apply insert_subseteq|].
    all: eexists [_]; split; [done|]; split; [simpl; lia|].
    all: split; [by intros [? ?]|]; intros _.
    all: try (right; by rewrite lookup_insert_eq).
    left. by eexists.
Qed.

End GeocoderEffect.

Section FilterRun.
Import FilterCompanies.
Context {num : Type} {numbers : PyNum num} {lib : PyLib}
  {kartverket : Kartverket num} {geometry : Shapely num}.

Lemma geocode_step_grows poly today (row : reg_row) n results (w : world num) :
  let w' := (geocode_step poly today row n results w).2 in
  cache w ⊆ cache w'
  /\ exists sent',
       requests_sent w' = requests_sent w ++ sent'
       /\ length sent' <= 1
       /\ (is_Some (cache w !! row_cache_key row) -> sent' = []).
Proof.
  cbv zeta. unfold geocode_step, row_cache_key.
  pose proof (geocode_address_grows
                (row_get "adresse" (PStr "") row)
                (row_get "postnummer" (PStr "") row)
                (row_get "poststed" (PStr "") row)
                (row_get "kommunenummer" PNone row) today w) as Hg.
  cbv zeta in Hg.
  destruct (geocode_address _ _ _ _ today w) as [[[la lo]|e] w1]; simpl in Hg;
    destruct Hg as (Hsub & sent' & Hsent & Hlen & Hhit & _).
  2: { simpl. split; [done|]. by exists sent'. }
  assert (Hgoal : cache w ⊆ cache w1
                  /\ exists sent', requests_sent w1 = requests_sent w ++ sent'
                       /\ length sent' <= 1
                       /\ (is_Some
                             (cache w !! cache_key
                                (row_get "adresse" (PStr "") row)
                                (row_get "postnummer" (PStr "") row)
                                (row_get "poststed" (PStr "") row)) ->
                           sent' = [])).
  { split; [done|]. by exists sent'. }
  destruct (json_not_none la && json_not_none lo); [|done].
  destruct (Point lo la) as [pt|e]; [|done].
  destruct (contains poly pt); [|done].
  by destruct (to_int n).
Qed.

Lemma uncached_todo_mono (todo : list (reg_row * pyfloat num))
    (c c' : gmap string (cache_entry num)) :
  c ⊆ c' ->
  length (filter (fun item => ~ is_Some (c' !! row_cache_key item.1)) todo)
  <= length (filter (fun item => ~ is_Some (c !! row_cache_key item.1)) todo).
Proof.
  intros Hsub. induction todo as [|item todo IH]; [done|].
  rewrite !filter_cons.
  destruct (decide (~ is_Some (c' !! row_cache_key item.1))) as [Hn'|Hs'];
    destruct (decide (~ is_Some (c !! row_cache_key item.1))) as [Hn|Hs];
    simpl; try lia.
  exfalso. apply Hn'. apply dec_stable in Hs as [v Hv].
  exists v. by eapply lookup_weaken.
Qed.

Lemma api_calls_needed_uncached (todo : list (reg_row * pyfloat num))
    (c : gmap string (cache_entry num)) :
  api_calls_needed todo c
  = length (filter (fun item => ~ is_Some (c !! row_cache_key item.1)) todo).
Proof.
  unfold api_calls_needed, cached_hits.
  induction todo as [|item todo IH]; [done|].
  rewrite !filter_cons.
  pose proof (length_filter
                (fun item : reg_row * pyfloat num =>
                   is_Some (c !! row_cache_key item.1)) todo).
  destruct (decide (is_Some (c !! row_cache_key item.1)));
    destruct (decide (~ is_Some (c !! row_cache_key item.1))); try done;
    simpl; lia.
Qed.

Lemma geocode_loop_grows poly today (todo : list (reg_row * pyfloat num))
    results (w : world num) :
  let w' := (geocode_loop poly today todo results w).2 in
  cache w ⊆ cache w'
  /\ exists sent',
       requests_sent w' = requests_sent w ++ sent'
       /\ length sent'
          <= length (filter (fun item => ~ is_Some (cache w !! row_cache_key item.1))
                       todo).
Proof.
  cbv zeta. revert results w.
  induction todo as [|[row n] todo IH]; intros results w; simpl.
  - split; [done|]. exists []. by rewrite app_nil_r.
  - pose proof (geocode_step_grows poly today row n results w) as Hstep.
    cbv zeta in Hstep.
    destruct (geocode_step poly today row n results w) as [[results1|e] w1];
      simpl in Hstep; destruct Hstep as (Hsub & sent1 & Hsent1 & Hlen1 & Hhit1).
    + destruct (IH results1 w1) as (Hsub' & sent2 & Hsent2 & Hlen2).
      split; [by etrans|].
      exists (sent1 ++ sent2). split.
      { by rewrite Hsent2, Hsent1, <- app_assoc. }
      rewrite length_app, filter_cons.
      pose proof (uncached_todo_mono todo _ _ Hsub).
      destruct (decide (~ is_Some (cache w !! row_cache_key (row, n).1)))
        as [Hn|Hs]; simpl; [lia|].
      rewrite (Hhit1 (dec_stable Hs)). simpl. lia.
    + simpl. split; [done|]. exists sent1. split; [done|].
      rewrite filter_cons.
      destruct (decide (~ is_Some (cache w !! row_cache_key (row, n).1)))
        as [Hn|Hs]; simpl; [lia|].
      rewrite (Hhit1 (dec_stable Hs)). simpl. lia.
Qed.

Context {sorter : SortValues num}.

(** A run sends at most as many requests as [main] announces as API
    calls, and it never removes or changes an entry of the cache. *)
Lemma main_requests_announced (poly : polygon)
    (postal_df : list (postal_row num)) (enheter underenheter : list reg_row)
    (min_employees max_employees : Z) (today : string) (w : world num) :
  let w' := (main poly postal_df enheter underenheter min_employees
               max_employees today w).2 in
  let todo := addresses_to_check poly postal_df enheter underenheter
                min_employees max_employees in
  cache w ⊆ cache w'
  /\ exists sent',
       requests_sent w' = requests_sent w ++ sent'
       /\ length sent' <= api_calls_needed todo (cache w).
Proof.
  cbv zeta. unfold main, addresses_to_check.
  destruct (get_postal_codes_in_polygon poly postal_df) as [|code codes] eqn:Hcodes.
  { simpl. split; [done|]. exists []. rewrite app_nil_r. split; [done|].
    simpl. lia. }
  destruct (employee_filter _ _ _) as [|item items] eqn:Hdf.
  { simpl. split; [done|]. exists []. rewrite app_nil_r. split; [done|].
    simpl. lia. }
  rewrite api_calls_needed_uncached.
  pose proof (geocode_loop_grows poly today
                (filter (fun item => has_address item.1 = true)
                   (item :: items)) [] w) as Hloop.
  cbv zeta in Hloop.
  destruct (geocode_loop poly today _ [] w) as [[results|e] w1];
    simpl in Hloop; exact Hloop.
Qed.

(** [main] never writes a CSV without rows: when the geocoding loop
    ends with no company inside the polygon, the sort of the empty
    result raises [KeyError] and nothing is written. *)
Lemma main_no_match_raises (poly : polygon)
    (postal_df : list (postal_row num)) (enheter underenheter : list reg_row)
    (min_employees max_employees : Z) (today : string) (w : world num) :
  (forall rows w',
     main poly postal_df enheter underenheter min_employees max_employees
       today w = (Ok (Some rows), w') ->
     rows <> [])
  /\ (forall w',
        get_postal_codes_in_polygon poly postal_df <> [] ->
        employee_filter min_employees max_employees
          (load_company_data enheter underenheter
             (get_postal_codes_in_polygon poly postal_df)) <> [] ->
        geocode_loop poly today
          (addresses_to_check poly postal_df enheter underenheter
             min_employees max_employees) [] w = (Ok [], w') ->
        main poly postal_df enheter underenheter min_employees max_employees
          today w = (Raise KeyError, w')).
Proof.
  split.
  - intros rows w'. unfold main.
    destruct (get_postal_codes_in_polygon poly postal_df); [done|].
    destruct (employee_filter _ _ _); [done|].
    destruct (geocode_loop _ _ _ _ _) as [[results|e] w1]; [|done].
    destruct (deduplicate results) as [rows'|e] eqn:Hd; simpl; [|done].
    intros [= <- <-]. by apply deduplicate_NoDup in Hd as [_ ?].
  - intros w' Hcodes Hdf. unfold main, addresses_to_check.
    destruct (get_postal_codes_in_polygon poly postal_df); [done|].
    destruct (employee_filter _ _ _); [done|].
    by intros ->.
Qed.

End FilterRun.

Section PostalCodes.
Import FilterCompanies.
Context {num : Type} {numbers : PyNum num} {lib : PyLib}
  {kartverket : Kartverket num} {geometry : Shapely num}.

Lemma set_add_spec (x y : pyval) (s : list pyval) :
  (x ∈ set_add y s <-> x = y \/ x ∈ s)
  /\ (NoDup s -> NoDup (set_add y s)).
Proof.
  unfold set_add. case_bool_decide as Hin.
  - split; [|done]. split; [by right|]. by intros [->|?].
  - split.
    + rewrite elem_of_app, list_elem_of_singleton. tauto.
    + intros Hnd. apply NoDup_app. split_and!; [done| |apply NoDup_singleton].
      by intros z Hz ->%list_elem_of_singleton.
Qed.

Lemma postal_codes_fold (candidates : list (postal_row num))
    (acc : list pyval) :
  let codes :=
    fold_left
      (fun postal_codes row =>
         if float_notna (LAT row) && float_notna (LON row)
         then set_add (POSTNR row) postal_codes
         else postal_codes)
      candidates acc in
  (NoDup acc -> NoDup codes)
  /\ forall x,
       x ∈ codes <->
       x ∈ acc
       \/ exists p, p ∈ candidates /\ POSTNR p = x
            /\ float_notna (LAT p) && float_notna (LON p) = true.
Proof.
  cbv zeta. revert acc.
  induction candidates as [|row candidates IH]; intros acc; simpl.
  - split; [done|]. intros x. split; [by left|].
    intros [?|(p & Hp & _)]; [done|]. by apply elem_of_nil in Hp.
  - destruct (float_notna (LAT row) && float_notna (LON row)) eqn:Hna.
    + destruct (IH (set_add (POSTNR row) acc)) as [Hnd Hiff].
      destruct (set_add_spec (POSTNR row) (POSTNR row) acc) as [_ Hnd'].
      split; [by auto|]. intros x. rewrite Hiff.
      destruct (set_add_spec x (POSTNR row) acc) as [-> _].
      split.
      * intros [[->|?]|(p & Hp & ? & ?)]; [right|by left|right].
        -- exists row. split; [left|done].
        -- exists p. split; [by right|done].
      * intros [?|(p & [->|Hp]%elem_of_cons & Hx & ?)].
        -- left. by right.
        -- left. by left.
        -- right. by exists p.
    + destruct (IH acc) as [Hnd Hiff]. split; [done|].
      intros x. rewrite Hiff. split.
      * intros [?|(p & Hp & ? & ?)]; [by left|right].
        exists p. split; [by right|done].
      * intros [?|(p & [->|Hp]%elem_of_cons & Hx & Hp')]; [by left| |].
        -- congruence.
        -- right. by exists p.
Qed.

Lemma in_expanded_box_mask (poly : polygon) (p : postal_row num) lon lat :
  LON p = FNum lon -> LAT p = FNum lat ->
  in_expanded_box poly lon lat ->
  bbox_mask poly p = true.
Proof.
  intros Hlon Hlat (a & b & c & d & Hb & H1 & H2 & H3 & H4).
  unfold bbox_mask. rewrite Hb, Hlon, Hlat. simpl.
  by rewrite H1, H2, H3, H4.
Qed.

(** A postal code is selected exactly when some row of the table with
    that code has its centre in the bounding box of the polygon widened
    by 0.05 degrees; no code is selected twice. *)
Lemma postal_codes_in_widened_box (poly : polygon)
    (postal_df : list (postal_row num)) :
  NoDup (get_postal_codes_in_polygon poly postal_df)
  /\ forall x,
       x ∈ get_postal_codes_in_polygon poly postal_df <->
       exists p lon lat,
         p ∈ postal_df /\ POSTNR p = x
         /\ LON p = FNum lon /\ LAT p = FNum lat
         /\ in_expanded_box poly lon lat.
Proof.
  assert (Hgen :
    let codes :=
      fold_left
        (fun postal_codes row =>
           if float_notna (LAT row) && float_notna (LON row)
           then set_add (POSTNR row) postal_codes
           else postal_codes)
        (filter (fun row => bbox_mask poly row = true) postal_df) [] in
    NoDup codes
    /\ forall x, x ∈ codes <->
         exists p lon lat,
           p ∈ postal_df /\ POSTNR p = x
           /\ LON p = FNum lon /\ LAT p = FNum lat
           /\ in_expanded_box poly lon lat).
  { cbv zeta.
    destruct (postal_codes_fold
                (filter (fun row => bbox_mask poly row = true) postal_df) [])
      as [Hnd Hiff].
    split; [apply Hnd; constructor|].
    intros x. rewrite Hiff. split.
    - intros [Hnil|(p & Hp & Hx & _)]; [by apply elem_of_nil in Hnil|].
      apply list_elem_of_filter in Hp as [Hmask Hp].
      destruct (bbox_mask_true _ _ Hmask) as (lon & lat & ? & ? & ?).
      by exists p, lon, lat.
    - intros (p & lon & lat & Hp & Hx & Hlon & Hlat & Hbox). right.
      exists p. split; [|split; [done|by rewrite Hlon, Hlat]].
      apply list_elem_of_filter. split; [|done].
      by eapply in_expanded_box_mask. }
  cbv zeta in Hgen. unfold get_postal_codes_in_polygon.
  destruct postal_df as [|p0 postal_df]; [|exact Hgen].
  split; [constructor|]. intros x. split.
  - intros Hnil. by apply elem_of_nil in Hnil.
  - intros (p & ? & ? & Hp & _). by apply elem_of_nil in Hp.
Qed.

End PostalCodes.

Module RunExamples.
Import ExampleLib ExampleData.

Lemma sync_new_company_defaults_witness :
  exists out,
    out ∈ GoogleSheets.data_rows
            (GoogleSheets.sync_companies one_sheet
               [csv (PStr "987654321") "nytt as"]
               "skedsmo" "A1B2C3D4" "2026-01-30 09:00").1
    /\ GoogleSheets.cell "organisasjonsnummer" out = "987654321"
    /\ GoogleSheets.cell "status" out = "not started yet".
Proof.
  destruct (sync_new_company_defaults one_sheet
              [csv (PStr "987654321") "nytt as"]
              "skedsmo" "A1B2C3D4" "2026-01-30 09:00"
              (csv (PStr "987654321") "nytt as") "987654321")
    as [(out & Hin & Horg) Hdefaults].
  - apply list_elem_of_singleton. reflexivity.
  - reflexivity.
  - discriminate.
  - intros r Hr. vm_compute in Hr. apply list_elem_of_singleton in Hr.
    subst r. vm_compute. discriminate.
  - exists out. split; [exact Hin|]. split; [exact Horg|].
    exact (proj1 (Hdefaults out Hin Horg)).
Defined.

(** The sync of a file named [skedsmo_20260129] files its rows under
    [skedsmo]. *)
Example area_name_of_dated_file :
  GoogleSheets.area_name "skedsmo_20260129" = "skedsmo"
  /\ GoogleSheets.area_name "skedsmo" = "skedsmo".
Proof. vm_compute. done. Qed.

(** With the area moved east the one geocoded address lies outside: the
    run ends with [KeyError] after its one request. *)
Lemma main_no_match_raises_witness :
  exists w',
    FilterCompanies.main (sorter := merge_sort_values) area_east postal
      enheter underenheter 0 99999 "2026-01-30" cold
    = (Raise KeyError, w').
Proof.
  destruct (FilterCompanies.geocode_loop area_east "2026-01-30"
              (FilterCompanies.addresses_to_check area_east postal enheter
                 underenheter 0 99999) [] cold) as [res w'] eqn:Hloop.
  exists w'.
  apply (proj2 (main_no_match_raises (sorter := merge_sort_values) area_east
                  postal enheter underenheter 0 99999 "2026-01-30" cold)).
  - vm_compute. discriminate.
  - vm_compute. discriminate.
  - rewrite Hloop. f_equal. vm_compute in Hloop. by injection Hloop as <- _.
Defined.

End RunExamples.
(** ** enrich_companies.py: formatting a formatted number *)

Section FormatPhoneAgain.
Import EnrichCompanies.

Lemma remove_whitespace_blank (s : string) :
  str_all is_space s = true -> remove_whitespace s = "".
Proof.
  induction s as [|c s IH]; simpl; [done|].
  intros [Hc Hs]%andb_prop. rewrite Hc. by apply IH.
Qed.

Lemma format_phone_clean (t : string) :
  t <> "" ->
  remove_whitespace t = t ->
  startswith "47" t && (String.length t =? 10) = false ->
  (String.length t =? 8) && isdigit t = false ->
  format_phone (Some t) = Some t.
Proof.
  intros Hne Hclean H1 H2. unfold format_phone.
  destruct t as [|c t]; [done|]. by rewrite Hclean, H1, H2.
Qed.

(** A formatted number is left as it is when it is formatted again. The
    one result that is not kept is the empty string, which a number made
    of whitespace alone is turned into and which is then turned into
    None. *)
Lemma format_phone_idempotent :
  (forall p q,
     format_phone (Some p) = Some q -> q <> "" ->
     format_phone (Some q) = Some q)
  /\ (forall p,
        p <> "" -> str_all is_space p = true ->
        format_phone (Some p) = Some "" /\ format_phone (Some "") = None).
Proof.
  split.
  - intros p q Hq Hne. unfold format_phone in Hq.
    destruct p as [|c p]; [done|].
    set (t := remove_whitespace (String c p)) in *.
    assert (Hclean : remove_whitespace t = t) by apply remove_whitespace_idemp.
    destruct (startswith "47" t && (String.length t =? 10)) eqn:H1.
    { injection Hq as <-. apply andb_prop in H1 as [_ Hlen%Nat.eqb_eq].
      apply format_phone_clean; [done| | |].
      - change ("+" +:+ t) with (String "+" t). simpl. by rewrite Hclean.
      - reflexivity.
      - change ("+" +:+ t) with (String "+" t).
        cbn [String.length]. by rewrite Hlen. }
    destruct ((String.length t =? 8) && isdigit t) eqn:H2.
    { injection Hq as <-. apply andb_prop in H2 as [Hlen%Nat.eqb_eq _].
      apply format_phone_clean; [done| | |].
      - change ("+47" +:+ t) with (String "+" (String "4" (String "7" t))).
        simpl. by rewrite Hclean.
      - reflexivity.
      - change ("+47" +:+ t) with (String "+" (String "4" (String "7" t))).
        cbn [String.length]. by rewrite Hlen. }
    injection Hq as <-. by apply format_phone_clean.
  - intros p Hne Hblank. split; [|reflexivity].
    unfold format_phone. destruct p as [|c p]; [done|].
    by rewrite (remove_whitespace_blank _ Hblank).
Qed.

End FormatPhoneAgain.

Module PhoneExamples.
Import EnrichCompanies.

Lemma format_phone_idempotent_witness :
  format_phone (Some "+4712345678") = Some "+4712345678"
  /\ format_phone (Some " ") = Some "".
Proof.
  destruct format_phone_idempotent as [Hagain Hblank]. split.
  - apply (Hagain "123 45 678"); [reflexivity|discriminate].
  - apply (Hblank " "); [discriminate|reflexivity].
Defined.

End PhoneExamples.
